(** * k0rdent Istio operator: trust and connectivity lifecycle

    A shallow embedding of the operator's reconciler, its three managers
    (remote secret, certificate, remote-secret propagation), the secret
    rotation worker and the remote-secret builder, together with the
    properties of the design document that they satisfy.

    Kubernetes API objects are records, the API server of a cluster is a
    record of finite maps from (namespace, name) to objects, and every Go
    function that talks to a cluster is a function in a state-and-error
    monad over the [World]: the management cluster, the clusters that
    can be reached through a kubeconfig, a plan of backend failures, the
    changes the environment makes while the operator sleeps, and the
    observable outputs (API calls issued, log lines, events). *)

From Stdlib Require Import ZArith Lia Ascii String.
From stdpp Require Import base option list gmap strings pretty fin_maps.

Open Scope list_scope.
Open Scope string_scope.

(** ** Go values *)

(** A Go byte slice; a nil slice is [None] where the code tests for it. *)
Abbreviation Bytes := string.

(** [strings.HasPrefix(s, p)]. *)
Definition HasPrefix (s p : string) : bool := String.prefix p s.

(** [strings.Contains(s, sub)]. *)
Fixpoint Contains (s sub : string) : bool :=
  String.prefix sub s ||
  match s with
  | EmptyString => false
  | String _ rest => Contains rest sub
  end.

(** *** hash/fnv: 32-bit FNV-1a *)

Module fnv.

Definition offset32 : Z := 2166136261.
Definition prime32 : Z := 16777619.

(** One byte of [sum32a.Write]: xor the byte in, multiply by the
    prime, wrap around at 32 bits. *)
Definition step (hash : Z) (c : ascii) : Z :=
  (Z.lxor hash (Z.of_N (N_of_ascii c)) * prime32) mod 2 ^ 32.

Fixpoint Write (hash : Z) (data : string) : Z :=
  match data with
  | EmptyString => hash
  | String c rest => Write (step hash c) rest
  end.

(** [h := fnv.New32a(); h.Write(data); h.Sum32()]. *)
Definition Sum32a (data : string) : Z := Write offset32 data.

End fnv.

(** *** fmt: the verb [%x] on an unsigned integer *)

Definition hexdigit (d : Z) : ascii :=
  if (d <? 10)%Z then ascii_of_N (Z.to_N (48 + d))
  else ascii_of_N (Z.to_N (87 + d)).

(** Lower-case hexadecimal, most significant digit first, no padding;
    [fuel] bounds the number of digits. *)
Fixpoint hex_acc (fuel : nat) (n : Z) (acc : string) : string :=
  match fuel with
  | O => acc
  | S fuel' =>
      let acc' := String (hexdigit (n mod 16)) acc in
      if (n / 16 =? 0)%Z then acc' else hex_acc fuel' (n / 16) acc'
  end.

Definition fmt_x32 (n : Z) : string := hex_acc 8 n "".

(** ** Errors *)

(** The reasons of a Kubernetes API status error that the code inspects
    ([errors.IsNotFound], [errors.IsAlreadyExists]); every other failure
    of the backend is [InternalError]. *)
Inductive StatusReason := ReasonNotFound | ReasonAlreadyExists | ReasonInternalError.

(** Go [error] values.  [ErrorsNew msg] is [errors.New(msg)] (or
    [fmt.Errorf] without an error argument, the arguments formatted
    into [msg]); [Errorf msg e] is [fmt.Errorf("msg: %v", e)]: the cause
    is rendered into the text and cannot be unwrapped; [Wrapf] is the
    same with [%w]. *)
Inductive Error :=
| StatusError (reason : StatusReason) (detail : string)
| ErrorsNew (msg : string)
| Errorf (msg : string) (cause : Error)
| Wrapf (msg : string) (cause : Error)
| errMissingRootCAKey
| errMissingTokenKey.

Fixpoint IsNotFound (e : Error) : bool :=
  match e with
  | StatusError ReasonNotFound _ => true
  | Wrapf _ cause => IsNotFound cause
  | _ => false
  end.

Fixpoint IsAlreadyExists (e : Error) : bool :=
  match e with
  | StatusError ReasonAlreadyExists _ => true
  | Wrapf _ cause => IsAlreadyExists cause
  | _ => false
  end.

Inductive Result (A : Type) :=
| Ok (a : A)
| Err (e : Error).
Arguments Ok {A} a.
Arguments Err {A} e.

Definition is_ok {A} (r : Result A) : bool :=
  match r with Ok _ => true | Err _ => false end.

(** ** Kubernetes objects *)

Record ObjectMeta := mkObjectMeta {
  Name : string;
  Namespace : string;
  Labels : gmap string string;
  Annotations : gmap string string;
  Generation : Z;
}.

Definition meta (name namespace : string) : ObjectMeta :=
  {| Name := name; Namespace := namespace; Labels := ∅; Annotations := ∅;
     Generation := 0 |}.

(** Reading a Go map of strings: the zero value when the key is absent. *)
Definition index (m : gmap string string) (k : string) : string :=
  default "" (m !! k).

Record ObjectReference := mkObjectReference {
  refAPIVersion : string;
  refKind : string;
  refName : string;
  refNamespace : string;
}.

(** [metav1.Condition] *)
Inductive ConditionStatus := ConditionTrue | ConditionFalse | ConditionUnknown.

Record Condition := mkCondition {
  Type_ : string;
  Status : ConditionStatus;
  Reason : string;
  Message : string;
}.

(** [corev1.Secret] *)
Record Secret := mkSecret {
  secretMeta : ObjectMeta;
  secretType : string;
  Data : gmap string Bytes;
  StringData : gmap string string;
}.

(** [corev1.ServiceAccount] *)
Record ServiceAccount := mkServiceAccount {
  saMeta : ObjectMeta;
  Secrets : list ObjectReference;
}.

(** [cmv1.Certificate] (cert-manager) *)
Inductive PrivateKeyAlgorithm := RSAKeyAlgorithm | ECDSAKeyAlgorithm | Ed25519KeyAlgorithm.

Record IssuerReference := mkIssuerReference {
  issuerName : string;
  issuerKind : string;
  issuerGroup : string;
}.

Record CertificateSpec := mkCertificateSpec {
  IsCA : bool;
  CommonName : string;
  Organizations : list string;
  PrivateKeyAlg : PrivateKeyAlgorithm;
  PrivateKeySize : Z;
  SecretName : string;
  IssuerRef : IssuerReference;
}.

Record Certificate := mkCertificate {
  certMeta : ObjectMeta;
  certSpec : CertificateSpec;
}.

(** [kcmv1beta1.MultiClusterService] *)
Record Service := mkService {
  svcName : string;
  svcNamespace : string;
  svcTemplate : string;
}.

Record TemplateResourceRef := mkTemplateResourceRef {
  Identifier : string;
  Resource : ObjectReference;
}.

Record MultiClusterService := mkMultiClusterService {
  mcsMeta : ObjectMeta;
  MatchLabels : gmap string string;
  Services : list Service;
  TemplateResourceRefs : list TemplateResourceRef;
}.

(** [kcmv1beta1.ClusterDeployment] *)
Record ClusterDeployment := mkClusterDeployment {
  cdMeta : ObjectMeta;
  cdAPIVersion : string;
  cdKind : string;
  Template : string;
  Credential : string;
  Conditions : list Condition;
}.

(** [crds.Credential]: the fields the operator reads. *)
Record CredentialCR := mkCredentialCR {
  credMeta : ObjectMeta;
  credRegion : string;
  credIdentityRef : ObjectReference;
}.

(** [crds.Region] *)
Record ClusterDeploymentRef := mkClusterDeploymentRef {
  cdrefNamespace : string;
  cdrefName : string;
}.

Record SecretKeyReference := mkSecretKeyReference {
  skrName : string;
  skrKey : string;
}.

Record Region := mkRegion {
  regionMeta : ObjectMeta;
  regionKubeConfig : option SecretKeyReference;
  regionClusterDeployment : option ClusterDeploymentRef;
}.

(** Condition types of KCM. *)
Module kcmv1beta1.
Definition ReadyCondition : string := "Ready".
Definition CAPIClusterSummaryCondition : string := "CAPIClusterSummary".
Definition ClusterDeploymentKind : string := "ClusterDeployment".
End kcmv1beta1.

(** ** Package istio: process-wide names *)

(** [IstioSystemNamespace] and [IstioReleaseName] are package variables
    set once at start-up; every component reads them. *)
Class Config := mkConfig {
  IstioSystemNamespace : string;
  IstioReleaseName : string;
}.

Module istio.
Definition IstioRoleLabel : string := "k0rdent.mirantis.com/istio-role".
(** [child] is deprecated but still supported *)
Definition IstioRoleLabelExpectedValues : list string := ["member"; "child"].
End istio.

(** ** Clusters and the world *)

(** [api.Config] of client-go (a kubeconfig document), as far as the
    remote-secret builder reads and writes it. *)
Record ApiCluster := mkApiCluster {
  CertificateAuthorityData : Bytes;
  CertificateAuthority : string;
  Server : string;
}.

Record AuthProviderConfig := mkAuthProviderConfig {
  apName : string;
  apConfig : gmap string string;
}.

Record AuthInfo := mkAuthInfo {
  Token : string;
  AuthProvider : option AuthProviderConfig;
}.

Record ApiContext := mkApiContext {
  ctxCluster : string;
  ctxAuthInfo : string;
}.

Record ApiConfig := mkApiConfig {
  Clusters : gmap string ApiCluster;
  AuthInfos : gmap string AuthInfo;
  Contexts : gmap string ApiContext;
  CurrentContext : string;
}.

(** What one API server holds and what a client built from its
    kubeconfig knows about it.  Objects are keyed by (namespace, name);
    cluster-scoped objects have the empty namespace. *)
Record Cluster := mkCluster {
  secrets : gmap (string * string) Secret;
  serviceAccounts : gmap (string * string) ServiceAccount;
  certificates : gmap (string * string) Certificate;
  multiClusterServices : gmap (string * string) MultiClusterService;
  clusterDeployments : gmap (string * string) ClusterDeployment;
  credentials : gmap (string * string) CredentialCR;
  regions : gmap (string * string) Region;
  (** discovery: major and minor of the server version *)
  serverVersion : string * string;
  (** UID of the kube-system namespace *)
  kubeSystemUID : string;
  (** the client configuration: REST host and raw kubeconfig *)
  restHost : string;
  rawConfig : ApiConfig;
  (** content of the files a kubeconfig may point to *)
  files : gmap string Bytes;
  (** the token the TokenRequest API issues for a service account *)
  issuedToken : string;
}.

(** A [client.Client] or [k8s.KubeClient]: the management cluster the
    operator runs in, or the cluster behind a kubeconfig. *)
Inductive ClientRef :=
| Hub
| Remote (kubeconfig : Bytes).

#[global] Instance ClientRef_eq_dec : EqDecision ClientRef.
Proof. solve_decision. Defined.

(** The API calls the operator issues. *)
Inductive Verb :=
  VGet | VList | VCreate | VUpdate | VPatch | VDelete | VCreateToken | VServerVersion.

#[global] Instance Verb_eq_dec : EqDecision Verb.
Proof. solve_decision. Defined.

Record Call := mkCall {
  verb : Verb;
  target : ClientRef;
  ckind : string;
  cnamespace : string;
  cname : string;
}.

#[global] Instance Call_eq_dec : EqDecision Call.
Proof. solve_decision. Defined.

(** Structured values of log lines and events. *)
Inductive Val :=
| VStr (s : string)
| VNat (n : nat)
| VErr (e : Error).

Inductive Level := LInfo | LError.

Record LogEntry := mkLogEntry {
  level : Level;
  logErr : option Error;
  logMsg : string;
  keysAndValues : list (string * Val);
}.

Inductive EventType := Normal | Warning.

Record Event := mkEvent {
  evType : EventType;
  evObject : string * string;
  evAnnotations : gmap string string;
  evReason : string;
  evMessage : string;
  evDetails : list (string * Val);
}.

(** What the environment does to a cluster while the operator sleeps:
    other controllers fill in or remove secrets. *)
Inductive EnvAction :=
| EnvPutSecret (cl : ClientRef) (s : Secret)
| EnvDeleteSecret (cl : ClientRef) (namespace name : string).

Record World := mkWorld {
  hub : Cluster;
  remotes : gmap Bytes Cluster;
  (** one entry per API call still to come: [Some msg] makes that call
      fail with an internal error; past the end no call fails *)
  faults : list (option string);
  (** one entry per sleep still to come *)
  future : list (list EnvAction);
  (** outputs, oldest first *)
  calls : list Call;
  slept : list Z;
  logs : list LogEntry;
  events : list Event;
}.

Definition set_hub (c : Cluster) (w : World) : World :=
  mkWorld c (remotes w) (faults w) (future w) (calls w) (slept w) (logs w) (events w).
Definition set_remotes (r : gmap Bytes Cluster) (w : World) : World :=
  mkWorld (hub w) r (faults w) (future w) (calls w) (slept w) (logs w) (events w).
Definition set_faults (f : list (option string)) (w : World) : World :=
  mkWorld (hub w) (remotes w) f (future w) (calls w) (slept w) (logs w) (events w).
Definition set_future (f : list (list EnvAction)) (w : World) : World :=
  mkWorld (hub w) (remotes w) (faults w) f (calls w) (slept w) (logs w) (events w).
Definition set_calls (c : list Call) (w : World) : World :=
  mkWorld (hub w) (remotes w) (faults w) (future w) c (slept w) (logs w) (events w).
Definition set_slept (s : list Z) (w : World) : World :=
  mkWorld (hub w) (remotes w) (faults w) (future w) (calls w) s (logs w) (events w).
Definition set_logs (l : list LogEntry) (w : World) : World :=
  mkWorld (hub w) (remotes w) (faults w) (future w) (calls w) (slept w) l (events w).
Definition set_events (e : list Event) (w : World) : World :=
  mkWorld (hub w) (remotes w) (faults w) (future w) (calls w) (slept w) (logs w) e.

Definition cluster_of (cl : ClientRef) (w : World) : option Cluster :=
  match cl with
  | Hub => Some (hub w)
  | Remote kc => remotes w !! kc
  end.

Definition set_cluster (cl : ClientRef) (c : Cluster) (w : World) : World :=
  match cl with
  | Hub => set_hub c w
  | Remote kc => set_remotes (<[kc := c]> (remotes w)) w
  end.

(** ** The monad of operator code *)

(** A Go function that may return an error and acts on clusters: the
    state is kept when the function fails, as the effects of the calls
    already made are. *)
Definition M (A : Type) : Type := World → Result A * World.

Definition ret {A} (a : A) : M A := fun w => (Ok a, w).
Definition fail {A} (e : Error) : M A := fun w => (Err e, w).
Definition bind {A B} (m : M A) (f : A → M B) : M B :=
  fun w => match m w with
           | (Ok a, w') => f a w'
           | (Err e, w') => (Err e, w')
           end.

(** [r, err := f()] followed by a test of [err]: the error becomes a
    value. *)
Definition try {A} (m : M A) : M (Result A) :=
  fun w => let (r, w') := m w in (Ok r, w').

Declare Scope go_scope.
Delimit Scope go_scope with go.
Bind Scope go_scope with M.
Notation "x <- m ;; k" := (bind m (fun x => k))
  (at level 100, m at next level, right associativity) : go_scope.
Notation "m ;; k" := (bind m (fun _ => k))
  (at level 100, right associativity) : go_scope.
Open Scope go_scope.

Definition result {A} (m : M A) (w : World) : Result A := fst (m w).
Definition after {A} (m : M A) (w : World) : World := snd (m w).

(** *** Logging, events, sleeping *)

Module log.
Definition Info (msg : string) (kv : list (string * Val)) : M unit :=
  fun w => (Ok tt, set_logs (logs w ++ [mkLogEntry LInfo None msg kv]) w).
Definition Error (err : Error) (msg : string) (kv : list (string * Val)) : M unit :=
  fun w => (Ok tt, set_logs (logs w ++ [mkLogEntry LError (Some err) msg kv]) w).
End log.

Definition emit (e : Event) : M unit :=
  fun w => (Ok tt, set_events (events w ++ [e]) w).

Definition apply_env (a : EnvAction) (w : World) : World :=
  match a with
  | EnvPutSecret cl s =>
      match cluster_of cl w with
      | Some c =>
          set_cluster cl
            (mkCluster (<[(Namespace (secretMeta s), Name (secretMeta s)) := s]> (secrets c))
               (serviceAccounts c) (certificates c) (multiClusterServices c)
               (clusterDeployments c) (credentials c) (regions c) (serverVersion c)
               (kubeSystemUID c) (restHost c) (rawConfig c) (files c) (issuedToken c)) w
      | None => w
      end
  | EnvDeleteSecret cl ns n =>
      match cluster_of cl w with
      | Some c =>
          set_cluster cl
            (mkCluster (delete (ns, n) (secrets c))
               (serviceAccounts c) (certificates c) (multiClusterServices c)
               (clusterDeployments c) (credentials c) (regions c) (serverVersion c)
               (kubeSystemUID c) (restHost c) (rawConfig c) (files c) (issuedToken c)) w
      | None => w
      end
  end.

(** Blocking for [d] nanoseconds: the environment takes its next turn. *)
Definition Sleep (d : Z) : M unit :=
  fun w =>
    let w1 := set_slept (slept w ++ [d]) w in
    match future w1 with
    | [] => (Ok tt, w1)
    | acts :: rest => (Ok tt, foldl (fun w a => apply_env a w) (set_future rest w1) acts)
    end.

Module time.
Definition Second : Z := 1000000000.
End time.

(** *** The Kubernetes client *)

(** The kinds of object a client reads and writes ([client.Object] with
    its registration in the scheme). *)
Class ApiObject (T : Type) := mkApiObject {
  kind : string;
  objects : Cluster → gmap (string * string) T;
  set_objects : gmap (string * string) T → Cluster → Cluster;
  object_meta : T → ObjectMeta;
}.

#[global] Instance Secret_resource : ApiObject Secret := {|
  kind := "Secret";
  objects := secrets;
  set_objects m c :=
    mkCluster m (serviceAccounts c) (certificates c) (multiClusterServices c)
      (clusterDeployments c) (credentials c) (regions c) (serverVersion c)
      (kubeSystemUID c) (restHost c) (rawConfig c) (files c) (issuedToken c);
  object_meta := secretMeta;
|}.

#[global] Instance ServiceAccount_resource : ApiObject ServiceAccount := {|
  kind := "ServiceAccount";
  objects := serviceAccounts;
  set_objects m c :=
    mkCluster (secrets c) m (certificates c) (multiClusterServices c)
      (clusterDeployments c) (credentials c) (regions c) (serverVersion c)
      (kubeSystemUID c) (restHost c) (rawConfig c) (files c) (issuedToken c);
  object_meta := saMeta;
|}.

#[global] Instance Certificate_resource : ApiObject Certificate := {|
  kind := "Certificate";
  objects := certificates;
  set_objects m c :=
    mkCluster (secrets c) (serviceAccounts c) m (multiClusterServices c)
      (clusterDeployments c) (credentials c) (regions c) (serverVersion c)
      (kubeSystemUID c) (restHost c) (rawConfig c) (files c) (issuedToken c);
  object_meta := certMeta;
|}.

#[global] Instance MultiClusterService_resource : ApiObject MultiClusterService := {|
  kind := "MultiClusterService";
  objects := multiClusterServices;
  set_objects m c :=
    mkCluster (secrets c) (serviceAccounts c) (certificates c) m
      (clusterDeployments c) (credentials c) (regions c) (serverVersion c)
      (kubeSystemUID c) (restHost c) (rawConfig c) (files c) (issuedToken c);
  object_meta := mcsMeta;
|}.

#[global] Instance ClusterDeployment_resource : ApiObject ClusterDeployment := {|
  kind := "ClusterDeployment";
  objects := clusterDeployments;
  set_objects m c :=
    mkCluster (secrets c) (serviceAccounts c) (certificates c) (multiClusterServices c)
      m (credentials c) (regions c) (serverVersion c)
      (kubeSystemUID c) (restHost c) (rawConfig c) (files c) (issuedToken c);
  object_meta := cdMeta;
|}.

#[global] Instance Credential_resource : ApiObject CredentialCR := {|
  kind := "Credential";
  objects := credentials;
  set_objects m c :=
    mkCluster (secrets c) (serviceAccounts c) (certificates c) (multiClusterServices c)
      (clusterDeployments c) m (regions c) (serverVersion c)
      (kubeSystemUID c) (restHost c) (rawConfig c) (files c) (issuedToken c);
  object_meta := credMeta;
|}.

#[global] Instance Region_resource : ApiObject Region := {|
  kind := "Region";
  objects := regions;
  set_objects m c :=
    mkCluster (secrets c) (serviceAccounts c) (certificates c) (multiClusterServices c)
      (clusterDeployments c) (credentials c) m (serverVersion c)
      (kubeSystemUID c) (restHost c) (rawConfig c) (files c) (issuedToken c);
  object_meta := regionMeta;
|}.

Definition key_of `{ApiObject T} (obj : T) : string * string :=
  (Namespace (object_meta obj), Name (object_meta obj)).

Module client.

(** Every call is recorded and consumes one entry of the failure plan;
    a planned failure leaves the cluster untouched. *)
Definition call (c : Call) : M Cluster :=
  fun w =>
    let w1 := set_calls (calls w ++ [c]) w in
    let w2 := set_faults (tail (faults w)) w1 in
    match head (faults w) with
    | Some (Some msg) => (Err (StatusError ReasonInternalError msg), w2)
    | _ =>
        match cluster_of (target c) w with
        | Some cl => (Ok cl, w2)
        | None => (Err (StatusError ReasonInternalError "cluster unreachable"), w2)
        end
    end.

Definition store (cl : ClientRef) (c : Cluster) : M unit :=
  fun w => (Ok tt, set_cluster cl c w).

Definition Get `{ApiObject T} (cl : ClientRef) (namespace name : string) : M T :=
  c <- call (mkCall VGet cl kind namespace name) ;;
  match objects c !! (namespace, name) with
  | Some obj => ret obj
  | None => fail (StatusError ReasonNotFound name)
  end.

Definition Create `{ApiObject T} (cl : ClientRef) (obj : T) : M unit :=
  c <- call (mkCall VCreate cl kind (fst (key_of obj)) (snd (key_of obj))) ;;
  match objects c !! key_of obj with
  | Some _ => fail (StatusError ReasonAlreadyExists (snd (key_of obj)))
  | None => store cl (set_objects (<[key_of obj := obj]> (objects c)) c)
  end.

Definition Update `{ApiObject T} (cl : ClientRef) (obj : T) : M T :=
  c <- call (mkCall VUpdate cl kind (fst (key_of obj)) (snd (key_of obj))) ;;
  match objects c !! key_of obj with
  | Some _ => store cl (set_objects (<[key_of obj := obj]> (objects c)) c) ;; ret obj
  | None => fail (StatusError ReasonNotFound (snd (key_of obj)))
  end.

Definition Delete `{ApiObject T} (cl : ClientRef) (obj : T) : M unit :=
  c <- call (mkCall VDelete cl kind (fst (key_of obj)) (snd (key_of obj))) ;;
  match objects c !! key_of obj with
  | Some _ => store cl (set_objects (delete (key_of obj) (objects c)) c)
  | None => fail (StatusError ReasonNotFound (snd (key_of obj)))
  end.

(** [List] over all namespaces, filtered by a selector on the labels. *)
Definition List `{ApiObject T} (cl : ClientRef) (selector : gmap string string → bool)
  : M (list T) :=
  c <- call (mkCall VList cl kind "" "") ;;
  ret (filter (fun obj => selector (Labels (object_meta obj)) = true)
         (snd <$> map_to_list (objects c))).

End client.

(** [labels.NewRequirement(key, selection.Exists, nil)] as a selector. *)
Definition label_exists (key : string) (labels : gmap string string) : bool :=
  bool_decide (is_Some (labels !! key)).

Definition everything (labels : gmap string string) : bool := true.

(** ** Library functions the operator calls *)

(** Functions of client-go and apimachinery whose result the operator
    only passes on, and one helper of package k8s whose definition is
    not part of the sources at hand; they are parameters of the
    development. *)
Class Externals := mkExternals {
  (** [latest.Codec.Encode] on a kubeconfig document *)
  Encode : ApiConfig → Result Bytes;
  (** [clientcmd.Validate] *)
  Validate : ApiConfig → option Error;
  (** [version.ParseGeneric]: the numeric components of a version *)
  ParseGeneric : string → option (list nat);
  (** [k8s.GetSecretName]: the name of the secret that holds the
      kubeconfig of a cluster deployment *)
  GetSecretName : ClusterDeployment → string;
}.

(** ** Package record: events *)

(** The package is a thin wrapper around an event recorder; an event is
    appended to the events of the world. *)
Module record.

Definition Eventf (obj : ClusterDeployment) (annotations : gmap string string)
    (reason message : string) : M unit :=
  emit (mkEvent Normal (Namespace (cdMeta obj), Name (cdMeta obj)) annotations reason message []).

Definition Event (obj : ClusterDeployment) (annotations : gmap string string)
    (reason message : string) (details : list (string * Val)) : M unit :=
  emit (mkEvent Normal (Namespace (cdMeta obj), Name (cdMeta obj)) annotations reason message details).

Definition Warn (obj : ClusterDeployment) (annotations : gmap string string)
    (reason message : string) (details : list (string * Val)) : M unit :=
  emit (mkEvent Warning (Namespace (cdMeta obj), Name (cdMeta obj)) annotations reason message details).

End record.

(** ** Package utils *)

Module utils.

Definition IstioMeshLabel : string := "k0rdent.mirantis.com/istio-mesh".
Definition ManagedByLabel : string := "app.kubernetes.io/managed-by".
Definition ManagedByValue : string := "istio-operator".

Definition GetEventsAnnotations (obj : ClusterDeployment) : gmap string string :=
  let generation :=
    if (Generation (cdMeta obj) =? 0)%Z then "nil"
    else pretty (Generation (cdMeta obj)) in
  {[ "generation" := generation ]}.

Definition GetClusterDeploymentStub (name namespace : string) : ClusterDeployment :=
  {| cdMeta := meta name namespace;
     cdAPIVersion := "k0rdent.mirantis.com/v1beta1";
     cdKind := kcmv1beta1.ClusterDeploymentKind;
     Template := "";
     Credential := "";
     Conditions := [] |}.

(** One log line and one event from the same arguments; the key/value
    pairs, which the Go code renders into the message with [%v] and
    [%#v], are kept as the details of the event. *)
Definition LogEvent (reason message : string) (obj : ClusterDeployment)
    (err : option Error) (keysAndValues : list (string * Val)) : M unit :=
  match err with
  | None =>
      log.Info message keysAndValues ;;
      record.Event obj (GetEventsAnnotations obj) reason message keysAndValues
  | Some e =>
      log.Error e message keysAndValues ;;
      record.Warn obj (GetEventsAnnotations obj) reason message
        (("err", VErr e) :: keysAndValues)
  end.

Definition IsAdopted (cluster : ClusterDeployment) : bool :=
  HasPrefix (Template cluster) "adopted-".

Definition GetNameHash (prefix name : string) : string :=
  prefix ++ "-" ++ fmt_x32 (fnv.Sum32a name).

Definition IsResourceExists `{ApiObject T} (cl : ClientRef) (name namespace : string)
  : M bool :=
  r <- try (client.Get (T := T) cl namespace name) ;;
  match r with
  | Err err => if IsNotFound err then ret false else fail err
  | Ok _ => ret true
  end.

Definition IsInMesh (cd : ClusterDeployment) : bool :=
  bool_decide (is_Some (Labels (cdMeta cd) !! IstioMeshLabel)).

(** The loop over the conditions: [readiness] starts false and is set
    by every condition of the type that indicates a kubeconfig. *)
Definition IsClusterDeploymentReady (cd : ClusterDeployment) : bool :=
  foldl (fun readiness condition =>
           if IsAdopted cd then
             if String.eqb (Type_ condition) kcmv1beta1.ReadyCondition
             then true else readiness
           else
             if String.eqb (Type_ condition) kcmv1beta1.CAPIClusterSummaryCondition
             then true else readiness)
        false (Conditions cd).

End utils.

(** ** Package k8s *)

Module k8s.
Section k8s.
Context {ext : Externals}.

Definition DefaultKCMSystemNamespace : string := "kcm-system".
Definition ClusterSecretSuffix : string := "kubeconfig".

Definition GetSecret (cl : ClientRef) (name namespace : string) : M Secret :=
  client.Get cl namespace name.

(** nil when the secret has no key [value] *)
Definition GetSecretValue (secret : Secret) : option Bytes :=
  Data secret !! "value".

Definition GetCloudClusterSecretName (cd : ClusterDeployment) : string :=
  Name (cdMeta cd) ++ "-" ++ ClusterSecretSuffix.

Definition GetKubeconfigFromSecret (cl : ClientRef) (secretName : string) : M Bytes :=
  r <- try (GetSecret cl secretName DefaultKCMSystemNamespace) ;;
  match r with
  | Err err => fail (Errorf "failed to get secret" err)
  | Ok secret =>
      match GetSecretValue secret with
      | None => fail (ErrorsNew "kubeconfig is empty")
      | Some kubeconfig => ret kubeconfig
      end
  end.

Definition GetKubeconfigFromClusterDeployment (cl : ClientRef) (cd : ClusterDeployment)
  : M Bytes :=
  GetKubeconfigFromSecret cl (GetSecretName cd).

(** A client for the cluster behind a kubeconfig; the kubeconfigs that
    parse are those of the clusters of the world. *)
Definition NewKubeClientFromKubeconfig (kubeconfig : Bytes) : M ClientRef :=
  fun w =>
    match remotes w !! kubeconfig with
    | Some _ => (Ok (Remote kubeconfig), w)
    | None => (Err (ErrorsNew "invalid kubeconfig"), w)
    end.

(** The secret named by the identity of the credential of an adopted
    cluster; the credential is read in the namespace of the cluster
    deployment, and its identity reference is taken as set. *)
Definition GetAdoptedClusterSecretName (cl : ClientRef) (cd : ClusterDeployment) : M string :=
  r <- try (client.Get (T := CredentialCR) cl (Namespace (cdMeta cd)) (Credential cd)) ;;
  match r with
  | Err err => fail (Wrapf "failed to get credential" err)
  | Ok cred =>
      if negb (String.eqb (refKind (credIdentityRef cred)) "Secret") then
        fail (ErrorsNew ("unsupported Credential IdentityRef kind "
                           ++ refKind (credIdentityRef cred) ++ " for adopted cluster"))
      else ret (refName (credIdentityRef cred))
  end.

(** The name of the secret that holds the kubeconfig of a cluster
    deployment. *)
Definition GetKubeconfigSecretName (cl : ClientRef) (cd : ClusterDeployment) : M string :=
  if utils.IsAdopted cd then GetAdoptedClusterSecretName cl cd
  else ret (GetCloudClusterSecretName cd).

Definition NewKubeClientFromSecret (cl : ClientRef) (secretName namespace : string)
  : M ClientRef :=
  r <- try (GetSecret cl secretName namespace) ;;
  match r with
  | Err err => fail (Errorf "failed to get secret" err)
  | Ok secret =>
      match GetSecretValue secret with
      | None => fail (ErrorsNew "kubeconfig is empty")
      | Some kubeconfig =>
          r <- try (NewKubeClientFromKubeconfig kubeconfig) ;;
          match r with
          | Err err => fail (Errorf "failed to create new client from kubeconfig" err)
          | Ok kubeClient => ret kubeClient
          end
      end
  end.

(** If a Credential has a non-empty region field, the cluster was
    created in that KCM region. *)
Definition CreatedInKCMRegion (cl : ClientRef) (cd : ClusterDeployment) : M bool :=
  cred <- client.Get (T := CredentialCR) cl DefaultKCMSystemNamespace (Credential cd) ;;
  if negb (String.eqb (credRegion cred) "") then ret true else ret false.

Definition GetKcmRegionClusterNameRelatedToClusterDeployment (cl : ClientRef)
    (cd : ClusterDeployment) : M string :=
  credList <- client.List (T := CredentialCR) cl everything ;;
  match List.find (fun cred => String.eqb (Name (credMeta cred)) (Credential cd)) credList with
  | Some cred => ret (credRegion cred)
  | None => ret ""
  end.

(** The kubeconfig of a region; nil without error when the region names
    neither a cluster deployment nor a kubeconfig secret. *)
Definition GetKubeconfigByRegionName (cl : ClientRef) (regionName : string)
  : M (option Bytes) :=
  if String.eqb regionName "" then fail (ErrorsNew "region name is empty") else
  r <- try (client.Get (T := Region) cl "" regionName) ;;
  match r with
  | Err err => fail (Errorf ("failed to get Region " ++ regionName) err)
  | Ok region =>
      match regionClusterDeployment region with
      | Some ref =>
          r <- try (client.Get (T := ClusterDeployment) cl (cdrefNamespace ref) (cdrefName ref)) ;;
          match r with
          | Err err => fail (Errorf ("failed to get ClusterDeployment " ++ cdrefName ref) err)
          | Ok cd =>
              r <- try (GetKubeconfigFromClusterDeployment cl cd) ;;
              match r with
              | Err err => fail (Errorf "failed to get kubeconfig from ClusterDeployment" err)
              | Ok kubeconfig => ret (Some kubeconfig)
              end
          end
      | None =>
          match regionKubeConfig region with
          | Some ref => kubeconfig <- GetKubeconfigFromSecret cl (skrName ref) ;; ret (Some kubeconfig)
          | None => ret None
          end
      end
  end.

(** [Clientset.Discovery().ServerVersion()] *)
Definition GetKubernetesVersion (cl : ClientRef) : M (string * string) :=
  c <- client.call (mkCall VServerVersion cl "" "" "") ;;
  ret (serverVersion c).

(** [version.Version.AtLeast] on the numeric components. *)
Fixpoint version_at_least (cv ev : list nat) : bool :=
  match cv, ev with
  | c :: cv', e :: ev' =>
      if (e <? c)%nat then true
      else if (c <? e)%nat then false
      else version_at_least cv' ev'
  | [], _ :: _ => false
  | _, [] => true
  end.

Definition IsKubeAtLeastOrLessThanVersion (clusterVersion : string * string)
    (minorVersion : nat) (atLeast : bool) : bool :=
  match ParseGeneric ("v" ++ fst clusterVersion ++ "." ++ snd clusterVersion ++ ".0") with
  | None => true
  | Some cv =>
      match ParseGeneric ("v1." ++ pretty minorVersion ++ ".0") with
      | None => true
      | Some ev => if atLeast then version_at_least cv ev else negb (version_at_least cv ev)
      end
  end.

(** True when the version cannot be read. *)
Definition IsAtLeastVersion (cl : ClientRef) (minorVersion : nat) : M bool :=
  r <- try (GetKubernetesVersion cl) ;;
  match r with
  | Err _ => ret true
  | Ok clusterVersion => ret (IsKubeAtLeastOrLessThanVersion clusterVersion minorVersion true)
  end.

End k8s.
End k8s.

(** [ctrl.Request]: the namespaced name of the object to reconcile. *)
Record Request := mkRequest {
  reqNamespace : string;
  reqName : string;
}.

(** ** Package cert: the certificate manager *)

Module cert.
Section cert.
Context {cfg : Config} {ext : Externals}.

Record CertManager := mkCertManager {
  k8sClient : ClientRef;
}.

Definition New (cl : ClientRef) : CertManager := {| k8sClient := cl |}.

Definition GetCertName (clusterName namespace : string) : string :=
  IstioReleaseName ++ "-" ++ namespace ++ "-" ++ clusterName ++ "-ca".

Definition GetCertNameHash (clusterName namespace : string) : string :=
  utils.GetNameHash "ca-cert-propagation" (GetCertName clusterName namespace).

Definition sendCreationEvent (cm : CertManager) (cd : ClusterDeployment) : M unit :=
  record.Eventf cd (utils.GetEventsAnnotations cd) "CertificateCreated"
    ("Istio certificate '" ++ GetCertName (Name (cdMeta cd)) (Namespace (cdMeta cd))
       ++ "' is successfully created").

Definition sendDeletionEvent (cm : CertManager) (req : Request) : M unit :=
  let cd := utils.GetClusterDeploymentStub (reqName req) (reqNamespace req) in
  record.Eventf cd ∅ "CertificateDeleted"
    ("Istio certificate '" ++ GetCertName (Name (cdMeta cd)) (Namespace (cdMeta cd))
       ++ "' is successfully deleted").

Definition generateClusterCACertificate (cm : CertManager) (cd : ClusterDeployment)
  : Certificate :=
  let certName := GetCertName (Name (cdMeta cd)) (Namespace (cdMeta cd)) in
  {| certMeta :=
       {| Name := certName;
          Namespace := IstioSystemNamespace;
          Labels := {[ "app.kubernetes.io/managed-by" := "istio-operator" ]};
          Annotations := ∅;
          Generation := 0 |};
     certSpec :=
       {| IsCA := true;
          CommonName := Name (cdMeta cd) ++ " CA";
          Organizations := ["Istio"];
          PrivateKeyAlg := ECDSAKeyAlgorithm;
          PrivateKeySize := 521;
          SecretName := certName;
          IssuerRef :=
            {| issuerName := IstioReleaseName ++ "-root";
               issuerKind := "Issuer";
               issuerGroup := "cert-manager.io" |} |} |}.

Definition createCertificate (cm : CertManager) (cert : Certificate)
    (clusterDeployment : ClusterDeployment) : M unit :=
  log.Info "Creating Intermediate Istio CA certificate"
    [("certificateName", VStr (Name (certMeta cert)))] ;;
  r <- try (client.Create (k8sClient cm) cert) ;;
  match r with
  | Err err =>
      if IsAlreadyExists err then
        log.Info "Istio CA certificate already exists"
          [("certificateName", VStr (Name (certMeta cert)))] ;;
        ret tt
      else fail err
  | Ok _ => sendCreationEvent cm clusterDeployment ;; ret tt
  end.

(** The MultiClusterService that propagates the CA certificate to the
    KCM region clusters of the mesh of [cd]. *)
Definition caMultiClusterService (cd : ClusterDeployment) : MultiClusterService :=
  {| mcsMeta :=
       {| Name := GetCertNameHash (Name (cdMeta cd)) (Namespace (cdMeta cd));
          Namespace := "";
          Labels := {[ utils.ManagedByLabel := utils.ManagedByValue;
                       "cluster-name" := Name (cdMeta cd);
                       "cluster-namespace" := Namespace (cdMeta cd) ]};
          Annotations := ∅;
          Generation := 0 |};
     MatchLabels :=
       {[ utils.IstioMeshLabel := index (Labels (cdMeta cd)) utils.IstioMeshLabel;
          "k0rdent.mirantis.com/kcm-region-cluster" := "true" ]};
     Services :=
       [ {| svcName := "istio-secret-propagation";
            svcNamespace := IstioSystemNamespace;
            svcTemplate := IstioReleaseName ++ "-base-propagation" |} ];
     TemplateResourceRefs :=
       [ {| Identifier := "Data";
            Resource :=
              {| refAPIVersion := "v1";
                 refKind := "Secret";
                 refName := GetCertName (Name (cdMeta cd)) (Namespace (cdMeta cd));
                 refNamespace := IstioSystemNamespace |} |} ] |}.

Definition createCaMultiClusterService (cm : CertManager) (cd : ClusterDeployment) : M unit :=
  r <- try (client.Create (k8sClient cm) (caMultiClusterService cd)) ;;
  match r with
  | Err err => if IsAlreadyExists err then ret tt else fail err
  | Ok _ => ret tt
  end.

Definition TryCreate (cm : CertManager) (clusterDeployment : ClusterDeployment) : M unit :=
  log.Info "Trying to create certificate" [] ;;
  let cert := generateClusterCACertificate cm clusterDeployment in
  r <- try (createCertificate cm cert clusterDeployment) ;;
  match r with
  | Err err => fail (Errorf "failed to create istio certificate" err)
  | Ok _ =>
      if negb (utils.IsClusterDeploymentReady clusterDeployment) then
        log.Info "Cluster deployment is not ready" [] ;;
        ret tt
      else if negb (utils.IsInMesh clusterDeployment) then ret tt
      else
        r <- try (k8s.CreatedInKCMRegion (k8sClient cm) clusterDeployment) ;;
        match r with
        | Err err => fail (Errorf "failed to determine cluster region" err)
        | Ok createdInKCMRegion =>
            if negb createdInKCMRegion then ret tt
            else
              log.Info
                "Trying to create MultiClusterService for certificate propagation to region clusters"
                [] ;;
              r <- try (createCaMultiClusterService cm clusterDeployment) ;;
              match r with
              | Err err =>
                  fail (Errorf
                          "failed to create MultiClusterService for certificate propagation" err)
              | Ok _ => ret tt
              end
        end
  end.

Definition TryDelete (cm : CertManager) (req : Request) : M unit :=
  let certName := GetCertName (reqName req) (reqNamespace req) in
  log.Info "Trying to delete istio certificate" [("certificateName", VStr certName)] ;;
  r <- try (client.Delete (k8sClient cm)
              {| certMeta := meta certName IstioSystemNamespace;
                 certSpec := mkCertificateSpec false "" [] RSAKeyAlgorithm 0 ""
                               (mkIssuerReference "" "" "") |}) ;;
  match r with
  | Err err =>
      if IsNotFound err then
        log.Info "Istio Certificate already deleted" [("certificateName", VStr certName)] ;;
        ret tt
      else fail (ErrorsNew "failed to delete istio certificate")
  | Ok _ =>
      log.Info "Trying to delete MultiClusterService for certificate propagation" [] ;;
      r <- try (client.Delete (k8sClient cm)
                  {| mcsMeta := meta (GetCertNameHash (reqName req) (reqNamespace req)) "";
                     MatchLabels := ∅; Services := []; TemplateResourceRefs := [] |}) ;;
      match r with
      | Err err =>
          if IsNotFound err then
            log.Info "MultiClusterService for certificate propagation already deleted" [] ;;
            ret tt
          else fail (Errorf "failed to delete MultiClusterService" err)
      | Ok _ =>
          log.Info "Istio Certificate successfully deleted" [("certificateName", VStr certName)] ;;
          sendDeletionEvent cm req ;;
          ret tt
      end
  end.

End cert.
End cert.

(** ** Package backoff (github.com/cenkalti/backoff/v4) *)

(** [WithMaxRetries(NewConstantBackOff(d), max)] and [Retry], as the
    library defines them: [Retry] runs the operation, and after a
    failure asks the policy for the next delay; the policy answers
    [Stop] once it has handed out [max] delays. *)
Module backoff.

Record BackOff := mkBackOff {
  Interval : Z;
  maxTries : nat;
  numTries : nat;
}.

Definition NewConstantBackOff (d : Z) : Z := d.

Definition WithMaxRetries (d : Z) (max : nat) : BackOff :=
  {| Interval := d; maxTries := max; numTries := 0 |}.

Definition Reset (b : BackOff) : BackOff :=
  {| Interval := Interval b; maxTries := maxTries b; numTries := 0 |}.

(** [None] is [Stop]. *)
Definition NextBackOff (b : BackOff) : option Z * BackOff :=
  if (maxTries b =? 0)%nat then (None, b)
  else if (maxTries b <=? numTries b)%nat then (None, b)
  else (Some (Interval b),
        {| Interval := Interval b; maxTries := maxTries b; numTries := S (numTries b) |}).

(** The loop of [Retry].  The operation is a closure over variables of
    its caller: [St] is the type of their values, and the operation
    returns their new values with its error.  [fuel] bounds the number
    of delays; [Retry] provides as much as the policy can hand out. *)
Fixpoint doRetry {St} (fuel : nat) (operation : St → M (St * option Error))
    (b : BackOff) (s : St) : M (St * option Error) :=
  r <- operation s ;;
  match r with
  | (s', None) => ret (s', None)
  | (s', Some err) =>
      match NextBackOff b with
      | (None, _) => ret (s', Some err)
      | (Some next, b') =>
          match fuel with
          | O => ret (s', Some err)
          | S fuel' => Sleep next ;; doRetry fuel' operation b' s'
          end
      end
  end.

Definition Retry {St} (operation : St → M (St * option Error)) (b : BackOff) (s : St)
  : M (St * option Error) :=
  doRetry (maxTries b) operation (Reset b) s.

End backoff.

(** ** Package remotesecret: building the remote secret *)

Module remotesecret.
Section remotesecret.
Context {cfg : Config} {ext : Externals}.

Definition remoteSecretPrefix : string := "istio-remote-secret".
Definition configSecretName : string := "istio-kubeconfig".
Definition configSecretKey : string := "config".
Definition clusterNameAnnotationKey : string := "networking.istio.io/cluster".

Definition serviceAccountTokenExpirationSeconds : Z := 60 * 120.

Definition tokenWaitBackoff : Z := time.Second.

(** Names of client-go, Kubernetes and Istio. *)
Definition ServiceAccountRootCAKey : string := "ca.crt".
Definition ServiceAccountTokenKey : string := "token".
Definition ServiceAccountNameKey : string := "kubernetes.io/service-account.name".
Definition SecretTypeOpaque : string := "Opaque".
Definition MultiClusterSecretLabel : string := "istio/multiCluster".
Definition DefaultServiceAccountName : string := "istio-reader-service-account".
Definition DefaultConfigServiceAccountName : string := "istiod".

Definition RemoteSecretAuthTypeBearerToken : string := "bearer-token".
Definition RemoteSecretAuthTypePlugin : string := "plugin".
Definition SecretTypeRemote : string := "remote".
Definition SecretTypeConfig : string := "config".

Record RemoteSecretOptions := mkRemoteSecretOptions {
  optNamespace : string;
  ClusterName : string;
  ServiceAccountName : string;
  AuthType : string;
  AuthPluginName : string;
  AuthPluginConfig : gmap string string;
  optType : string;
  ServerOverride : string;
  optSecretName : string;
  optAllowOverwrite : bool;
}.

Definition with_ClusterName (n : string) (o : RemoteSecretOptions) : RemoteSecretOptions :=
  mkRemoteSecretOptions (optNamespace o) n (ServiceAccountName o) (AuthType o)
    (AuthPluginName o) (AuthPluginConfig o) (optType o) (ServerOverride o)
    (optSecretName o) (optAllowOverwrite o).

Definition with_ServiceAccountName (n : string) (o : RemoteSecretOptions) : RemoteSecretOptions :=
  mkRemoteSecretOptions (optNamespace o) (ClusterName o) n (AuthType o)
    (AuthPluginName o) (AuthPluginConfig o) (optType o) (ServerOverride o)
    (optSecretName o) (optAllowOverwrite o).

(** The typed clientset: [Get] refuses an empty name before any
    request is made, and on failure the caller is left with an empty
    object. *)
Definition emptySecret : Secret :=
  {| secretMeta := meta "" ""; secretType := ""; Data := ∅; StringData := ∅ |}.

Definition SecretsGet (cl : ClientRef) (namespace name : string) : M Secret :=
  if String.eqb name "" then fail (ErrorsNew "resource name may not be empty")
  else client.Get cl namespace name.

Definition GetRemoteSecretName (clusterName namespace : string) : string :=
  let name : string := namespace ++ "-" ++ clusterName in
  utils.GetNameHash remoteSecretPrefix name.

Definition tokenSecretName (saName : string) : string :=
  saName ++ "-istio-remote-secret-token".

Definition tokenDataFromSecret (tokenSecret : Secret) : Result (Bytes * Bytes) :=
  match Data tokenSecret !! ServiceAccountRootCAKey with
  | None => Err errMissingRootCAKey
  | Some ca =>
      match Data tokenSecret !! ServiceAccountTokenKey with
      | None => Err errMissingTokenKey
      | Some token => Ok (ca, token)
      end
  end.

(** The variables the retried closure of [waitForTokenData] assigns:
    [secret], and [ca] and [token] of the named results. *)
Definition WaitState : Type := Secret * Bytes * Bytes.

Definition waitOperation (cl : ClientRef) (st : WaitState) : M (WaitState * option Error) :=
  let '(secret, ca, token) := st in
  r <- try (SecretsGet cl (Namespace (secretMeta secret)) (Name (secretMeta secret))) ;;
  match r with
  | Err err => ret ((emptySecret, ca, token), Some err)
  | Ok secret' =>
      match tokenDataFromSecret secret' with
      | Err err =>
          (* the assignment sets [ca] (and [token]) even when a key is missing *)
          ret ((secret', default "" (Data secret' !! ServiceAccountRootCAKey),
                default "" (Data secret' !! ServiceAccountTokenKey)), Some err)
      | Ok (ca', token') => ret ((secret', ca', token'), None)
      end
  end.

Definition waitForTokenData (cl : ClientRef) (secret : Secret) : M (Bytes * Bytes) :=
  match tokenDataFromSecret secret with
  | Ok (ca, token) => ret (ca, token)
  | Err _ =>
      log.Info "Waiting for data to be populated"
        [("secret name", VStr (Name (secretMeta secret)))] ;;
      r <- backoff.Retry (waitOperation cl)
             (backoff.WithMaxRetries (backoff.NewConstantBackOff tokenWaitBackoff) 5)
             (secret, default "" (Data secret !! ServiceAccountRootCAKey),
              default "" (Data secret !! ServiceAccountTokenKey)) ;;
      match r with
      | (_, Some err) => fail err
      | ((_, ca, token), None) => ret (ca, token)
      end
  end.

Definition getServerFromKubeconfig (cl : ClientRef) : M (string * option Error) :=
  fun w =>
    match cluster_of cl w with
    | None => (Err (Errorf "failed getting REST config from client" (ErrorsNew "no configuration")), w)
    | Some c =>
        let server := restHost c in
        if Contains server "127.0.0.1" || Contains server "localhost" then
          (Ok (server,
               Some (ErrorsNew ("server in Kubeconfig is " ++ server ++
                 ". This is likely not reachable from inside the cluster, " ++
                 "if you're using Kubernetes in Docker, pass --server with the container IP for the API Server"))),
           w)
        else (Ok (server, None), w)
    end.

Definition createBaseKubeconfig (caData : Bytes) (clusterName server : string) : ApiConfig :=
  {| Clusters := {[ clusterName :=
                      {| CertificateAuthorityData := caData;
                         CertificateAuthority := "";
                         Server := server |} ]};
     AuthInfos := ∅;
     Contexts := {[ clusterName := {| ctxCluster := clusterName; ctxAuthInfo := clusterName |} ]};
     CurrentContext := clusterName |}.

Definition set_AuthInfo (k : string) (a : AuthInfo) (c : ApiConfig) : ApiConfig :=
  {| Clusters := Clusters c; AuthInfos := <[k := a]> (AuthInfos c);
     Contexts := Contexts c; CurrentContext := CurrentContext c |}.

Definition createPluginKubeconfig (caData : Bytes) (clusterName server : string)
    (authProviderConfig : AuthProviderConfig) : ApiConfig :=
  let c := createBaseKubeconfig caData clusterName server in
  set_AuthInfo (CurrentContext c) {| Token := ""; AuthProvider := Some authProviderConfig |} c.

Definition createBearerTokenKubeconfig (caData token : Bytes) (clusterName server : string)
  : ApiConfig :=
  let c := createBaseKubeconfig caData clusterName server in
  set_AuthInfo (CurrentContext c) {| Token := token; AuthProvider := None |} c.

Definition createRemoteServiceAccountSecret (kubeconfig : ApiConfig)
    (clusterName secName : string) : Result Secret :=
  match Encode kubeconfig with
  | Err err => Err err
  | Ok data =>
      let key := if String.eqb secName configSecretName then configSecretKey else clusterName in
      Ok {| secretMeta :=
              {| Name := secName;
                 Namespace := "";
                 Labels := {[ MultiClusterSecretLabel := "true" ]};
                 Annotations := {[ clusterNameAnnotationKey := clusterName ]};
                 Generation := 0 |};
            secretType := "";
            Data := {[ key := data ]};
            StringData := ∅ |}
  end.

Definition lift {A} (r : Result A) : M A :=
  match r with Ok a => ret a | Err e => fail e end.

Definition createRemoteSecretFromPlugin (tokenSecret : Secret)
    (server clusterName secName : string) (authProviderConfig : AuthProviderConfig)
  : M Secret :=
  match Data tokenSecret !! ServiceAccountRootCAKey with
  | None => fail errMissingRootCAKey
  | Some caData =>
      let kubeconfig := createPluginKubeconfig caData clusterName server authProviderConfig in
      match Validate kubeconfig with
      | Some err => fail (Errorf "invalid kubeconfig" err)
      | None => lift (createRemoteServiceAccountSecret kubeconfig clusterName secName)
      end
  end.

Definition createRemoteSecretFromTokenAndServer (cl : ClientRef) (tokenSecret : Secret)
    (clusterName server secName : string) : M Secret :=
  data <- waitForTokenData cl tokenSecret ;;
  let '(caData, token) := data in
  let kubeconfig := createBearerTokenKubeconfig caData token clusterName server in
  match Validate kubeconfig with
  | Some err => fail (Errorf "invalid kubeconfig" err)
  | None => lift (createRemoteServiceAccountSecret kubeconfig clusterName secName)
  end.

Definition getOrCreateServiceAccount (cl : ClientRef) (opt : RemoteSecretOptions)
  : M ServiceAccount :=
  r <- try (client.Get (T := ServiceAccount) cl (optNamespace opt) (ServiceAccountName opt)) ;;
  match r with
  | Err err =>
      if IsNotFound err then
        fail (ErrorsNew "service account not found, it should be created by K0rdent Istio helm chart")
      else fail (Errorf "failed to get ServiceAccount" err)
  | Ok sa => ret sa
  end.

(** The choice of the legacy path: which of the secrets the service
    account lists is read, as (namespace, name). *)
Definition legacySelectSecret (serviceAccount : ServiceAccount) (opt : RemoteSecretOptions)
  : Result (string * string) :=
  if (length (Secrets serviceAccount) =? 0)%nat then
    Err (ErrorsNew ("no secret found in the service account: " ++ Name (saMeta serviceAccount)))
  else
    let selected : Result (string * string) :=
      if negb (String.eqb (optSecretName opt) "") then
        match List.find (fun secret => String.eqb (refName secret) (optSecretName opt))
                (Secrets serviceAccount) with
        | Some secret => Ok (refNamespace secret, refName secret)
        | None => Err (ErrorsNew ("provided secret does not exist: " ++ optSecretName opt))
        end
      else
        match Secrets serviceAccount with
        | [secret] => Ok (refNamespace secret, refName secret)
        | _ =>
            Err (ErrorsNew ("wrong number of secrets (" ++ pretty (length (Secrets serviceAccount))
                   ++ ") in serviceaccount " ++ optNamespace opt ++ "/" ++ ServiceAccountName opt
                   ++ ", please use --secret-name to specify one"))
        end in
    match selected with
    | Err err => Err err
    | Ok (secretNamespace, secretName) =>
        Ok (if String.eqb secretNamespace "" then optNamespace opt else secretNamespace,
            secretName)
    end.

Definition legacyGetServiceAccountSecret (serviceAccount : ServiceAccount) (cl : ClientRef)
    (opt : RemoteSecretOptions) : M Secret :=
  match legacySelectSecret serviceAccount opt with
  | Err err => fail err
  | Ok (secretNamespace, secretName) => SecretsGet cl secretNamespace secretName
  end.

Definition getCAcert (cl : ClientRef) : M Bytes :=
  fun w =>
    match cluster_of cl w with
    | None => (Err (Wrapf "failed to get raw config" (ErrorsNew "no configuration")), w)
    | Some c =>
        let rawConfig := rawConfig c in
        match Contexts rawConfig !! CurrentContext rawConfig with
        | None => (Err (ErrorsNew "no current context found"), w)
        | Some ctx =>
            match Clusters rawConfig !! ctxCluster ctx with
            | None => (Err (ErrorsNew ("no cluster info for " ++ ctxCluster ctx)), w)
            | Some cluster =>
                if (0 <? String.length (CertificateAuthorityData cluster))%nat then
                  (Ok (CertificateAuthorityData cluster), w)
                else if negb (String.eqb (CertificateAuthority cluster) "") then
                  match files c !! CertificateAuthority cluster with
                  | Some content => (Ok content, w)
                  | None => (Err (ErrorsNew ("open " ++ CertificateAuthority cluster)), w)
                  end
                else (Err (ErrorsNew ("no CA certificate found for cluster " ++ ctxCluster ctx)), w)
            end
        end
    end.

Definition getServiceAccountToken (cl : ClientRef) (saName namespace : string) : M string :=
  r <- try (client.call (mkCall VCreateToken cl "ServiceAccount" namespace saName)) ;;
  match r with
  | Err err =>
      fail (Wrapf ("failed to create token for service account " ++ namespace ++ "/" ++ saName) err)
  | Ok c =>
      match serviceAccounts c !! (namespace, saName) with
      | None =>
          fail (Wrapf ("failed to create token for service account " ++ namespace ++ "/" ++ saName)
                  (StatusError ReasonNotFound saName))
      | Some _ => ret (issuedToken c)
      end
  end.

Definition set_token_contents (saToken : string) (caCert : Bytes) (namespace saName : string)
    (s : Secret) : Secret :=
  {| secretMeta :=
       {| Name := Name (secretMeta s); Namespace := Namespace (secretMeta s);
          Labels := Labels (secretMeta s);
          Annotations := {[ ServiceAccountNameKey := saName ]};
          Generation := Generation (secretMeta s) |};
     secretType := SecretTypeOpaque;
     Data := {[ "token" := saToken; "namespace" := namespace; "ca.crt" := caCert ]};
     StringData := StringData s |}.

Definition getOrCreateServiceAccountSecret (serviceAccount : ServiceAccount) (cl : ClientRef)
    (opt : RemoteSecretOptions) : M Secret :=
  let secretName :=
    if String.eqb (optSecretName opt) "" then tokenSecretName (Name (saMeta serviceAccount))
    else optSecretName opt in
  r <- try (SecretsGet cl (optNamespace opt) secretName) ;;
  let existingSecret := match r with Ok s => s | Err _ => emptySecret end in
  match r with
  | Err err =>
      if negb (IsNotFound err) then
        fail (Wrapf ("failed to get existing secret " ++ optNamespace opt ++ "/" ++ secretName) err)
      else ret tt
  | Ok _ => ret tt
  end ;;
  if negb (optAllowOverwrite opt) && negb (String.eqb (Name (secretMeta existingSecret)) "") then
    log.Info "Found existing service account secret"
      [("secret", VStr secretName); ("namespace", VStr (optNamespace opt))] ;;
    ret existingSecret
  else
    r <- try (getCAcert cl) ;;
    match r with
    | Err err => fail (Wrapf "failed to get CA certificate" err)
    | Ok caCert =>
        r <- try (getServiceAccountToken cl (Name (saMeta serviceAccount)) (optNamespace opt)) ;;
        match r with
        | Err err => fail (Wrapf "failed to get service account token" err)
        | Ok saToken =>
            log.Info "Service Account token was successfully generated"
              [("serviceAccount", VStr (Name (saMeta serviceAccount)));
               ("namespace", VStr (optNamespace opt))] ;;
            if optAllowOverwrite opt && negb (String.eqb (Name (secretMeta existingSecret)) "") then
              let existingSecret :=
                set_token_contents saToken caCert (optNamespace opt)
                  (Name (saMeta serviceAccount)) existingSecret in
              log.Info "Updating existing secret with new token"
                [("secret", VStr secretName); ("namespace", VStr (optNamespace opt))] ;;
              r <- try (client.Update cl existingSecret) ;;
              match r with
              | Err err =>
                  fail (Wrapf ("failed to update existing secret " ++ optNamespace opt ++ "/"
                                 ++ Name (secretMeta existingSecret)) err)
              | Ok updatedSecret => ret updatedSecret
              end
            else
              let secret :=
                {| secretMeta :=
                     {| Name := secretName; Namespace := optNamespace opt; Labels := ∅;
                        Annotations := {[ ServiceAccountNameKey := Name (saMeta serviceAccount) ]};
                        Generation := 0 |};
                   secretType := SecretTypeOpaque;
                   Data := {[ "token" := saToken; "namespace" := optNamespace opt;
                              "ca.crt" := caCert ]};
                   StringData := ∅ |} in
              log.Info "Creating new secret with token"
                [("secret", VStr secretName); ("namespace", VStr (optNamespace opt))] ;;
              client.Create cl secret ;;
              ret secret
        end
    end.

Definition getServiceAccountSecret (cl : ClientRef) (opt : RemoteSecretOptions) : M Secret :=
  serviceAccount <- getOrCreateServiceAccount cl opt ;;
  atLeast <- k8s.IsAtLeastVersion cl 24 ;;
  if negb atLeast then legacyGetServiceAccountSecret serviceAccount cl opt
  else getOrCreateServiceAccountSecret serviceAccount cl opt.

Definition clusterUID (cl : ClientRef) : M string :=
  c <- client.call (mkCall VGet cl "Namespace" "" "kube-system") ;;
  ret (kubeSystemUID c).

Definition set_secret_namespace (ns : string) (s : Secret) : Secret :=
  {| secretMeta :=
       {| Name := Name (secretMeta s); Namespace := ns; Labels := Labels (secretMeta s);
          Annotations := Annotations (secretMeta s); Generation := Generation (secretMeta s) |};
     secretType := secretType s; Data := Data s; StringData := StringData s |}.

(** The secret and the warning; the warning is dropped with the error
    when the function fails. *)
Definition CreateRemoteSecret (opt : RemoteSecretOptions) (clusterNamespace : string)
    (cl : ClientRef) : M (Secret * option Error) :=
  opt <- (if String.eqb (ClusterName opt) "" then
            uid <- clusterUID cl ;; ret (with_ClusterName uid opt)
          else ret opt) ;;
  named <-
    (if String.eqb (optType opt) SecretTypeRemote then
       ret (GetRemoteSecretName (ClusterName opt) clusterNamespace,
            if String.eqb (ServiceAccountName opt) ""
            then with_ServiceAccountName DefaultServiceAccountName opt else opt)
     else if String.eqb (optType opt) SecretTypeConfig then
       ret (configSecretName,
            if String.eqb (ServiceAccountName opt) ""
            then with_ServiceAccountName DefaultConfigServiceAccountName opt else opt)
     else fail (ErrorsNew ("unsupported type: " ++ optType opt))) ;;
  let '(secretName, opt) := named in
  r <- try (getServiceAccountSecret cl opt) ;;
  match r with
  | Err err =>
      fail (Errorf "could not get access token to read resources from local kube-apiserver" err)
  | Ok tokenSecret =>
      sw <- (if negb (String.eqb (ServerOverride opt) "") then ret (ServerOverride opt, None)
             else getServerFromKubeconfig cl) ;;
      let '(server, warn) := sw in
      remoteSecret <-
        (if String.eqb (AuthType opt) RemoteSecretAuthTypeBearerToken then
           createRemoteSecretFromTokenAndServer cl tokenSecret (ClusterName opt) server secretName
         else if String.eqb (AuthType opt) RemoteSecretAuthTypePlugin then
           createRemoteSecretFromPlugin tokenSecret server (ClusterName opt) secretName
             {| apName := AuthPluginName opt; apConfig := AuthPluginConfig opt |}
         else fail (ErrorsNew ("unsupported authentication type: " ++ AuthType opt))) ;;
      ret (set_secret_namespace (optNamespace opt) remoteSecret, warn)
  end.

(** *** The remote secret manager *)

Record CreateOptions := mkCreateOptions {
  (** AllowOverwrite enforces creation of a new remote secret and
      service account token secret even if they already exist. *)
  AllowOverwrite : bool;
}.

(** The interface [IIstioRemoteSecretCreator]. *)
Record IIstioRemoteSecretCreator := mkCreator {
  GetRemoteSecret : Bytes → ClusterDeployment → CreateOptions → M Secret;
}.

Record RemoteSecretManager := mkRemoteSecretManager {
  rsClient : ClientRef;
  creator : IIstioRemoteSecretCreator;
}.

(** [IstioRemoteSecretCreator.GetRemoteSecret]: a remote secret for
    Istio from the kubeconfig of the cluster. *)
Definition IstioRemoteSecretCreator_GetRemoteSecret (kubeconfig : Bytes)
    (clusterDeployment : ClusterDeployment) (opt : CreateOptions) : M Secret :=
  r <- try (k8s.NewKubeClientFromKubeconfig kubeconfig) ;;
  match r with
  | Err err => log.Error err "failed to create kube client from kubeconfig" [] ;; fail err
  | Ok kubeClient =>
      r <- try (CreateRemoteSecret
                  {| optNamespace := IstioSystemNamespace;
                     ClusterName := Name (cdMeta clusterDeployment);
                     ServiceAccountName := "";
                     AuthType := RemoteSecretAuthTypeBearerToken;
                     AuthPluginName := "";
                     AuthPluginConfig := ∅;
                     optType := SecretTypeRemote;
                     ServerOverride := "";
                     optSecretName := "";
                     optAllowOverwrite := AllowOverwrite opt |}
                  (Namespace (cdMeta clusterDeployment)) kubeClient) ;;
      match r with
      | Err err => log.Error err "failed to create remote secret" [] ;; fail err
      | Ok (secret, warn) =>
          match warn with
          | Some warning =>
              log.Info "warning when generating remote secret" [("warning", VErr warning)]
          | None => ret tt
          end ;;
          ret secret
      end
  end.

Definition NewIstioRemoteSecret : IIstioRemoteSecretCreator :=
  {| GetRemoteSecret := IstioRemoteSecretCreator_GetRemoteSecret |}.

Definition New (c : ClientRef) : RemoteSecretManager :=
  {| rsClient := c; creator := NewIstioRemoteSecret |}.

(** [FakeRemoteSecretCreator] of the tests. *)
Definition FakeRemoteSecretCreator_GetRemoteSecret (kubeconfig : Bytes)
    (cd : ClusterDeployment) (opt : CreateOptions) : M Secret :=
  ret {| secretMeta :=
           meta (GetRemoteSecretName (Name (cdMeta cd)) (Namespace (cdMeta cd)))
             IstioSystemNamespace;
         secretType := "";
         Data := ∅;
         StringData := {[ "value" := "Fake values" ]} |}.

Definition NewFakeRemoteSecretCreator : IIstioRemoteSecretCreator :=
  {| GetRemoteSecret := FakeRemoteSecretCreator_GetRemoteSecret |}.

Definition NewFakeManager (c : ClientRef) : RemoteSecretManager :=
  {| rsClient := c; creator := NewFakeRemoteSecretCreator |}.

Definition sendCreationEvent (rs : RemoteSecretManager) (cd : ClusterDeployment) : M unit :=
  record.Eventf cd (utils.GetEventsAnnotations cd) "SecretCreated"
    ("Istio remote secret '" ++ GetRemoteSecretName (Name (cdMeta cd)) (Namespace (cdMeta cd))
       ++ "' is successfully created").

Definition sendDeletionEvent (rs : RemoteSecretManager) (req : Request) : M unit :=
  let cd := utils.GetClusterDeploymentStub (reqName req) (reqNamespace req) in
  record.Eventf cd ∅ "SecretDeleted"
    ("Istio remote secret '" ++ GetRemoteSecretName (Name (cdMeta cd)) (Namespace (cdMeta cd))
       ++ "' is successfully deleted").

(** Tries to delete the remote secret. *)
Definition TryDelete (rs : RemoteSecretManager) (request : Request) : M unit :=
  log.Info "Trying to delete remote secret" [] ;;
  r <- try (client.Delete (rsClient rs)
              {| secretMeta :=
                   meta (GetRemoteSecretName (reqName request) (reqNamespace request))
                     IstioSystemNamespace;
                 secretType := ""; Data := ∅; StringData := ∅ |}) ;;
  match r with
  | Err err =>
      if IsNotFound err then log.Info "Remote secret already deleted" [] ;; ret tt
      else fail err
  | Ok _ =>
      sendDeletionEvent rs request ;;
      log.Info "Remote secret successfully deleted" [] ;;
      ret tt
  end.

Definition remoteSecretExists (rs : RemoteSecretManager) (cd : ClusterDeployment) : M bool :=
  let secretName := GetRemoteSecretName (Name (cdMeta cd)) (Namespace (cdMeta cd)) in
  utils.IsResourceExists (T := Secret) (rsClient rs) secretName IstioSystemNamespace.

(** Creates the remote secret resource in k8s. *)
Definition createSecretResource (rs : RemoteSecretManager) (secret : Secret)
    (cd : ClusterDeployment) : M unit :=
  r <- try (client.Delete (rsClient rs) secret) ;;
  match r with
  | Err err => if negb (IsNotFound err) then fail err else ret tt
  | Ok _ => ret tt
  end ;;
  r <- try (client.Create (rsClient rs) secret) ;;
  match r with
  | Err err => fail err
  | Ok _ => ret tt
  end.

(** Handles the creation of a remote secret.  [build] is the part of
    the function after the two early returns. *)
Definition TryCreate (rs : RemoteSecretManager) (clusterDeployment : ClusterDeployment)
    (opt : CreateOptions) : M unit :=
  let build : M unit :=
    r <- try (k8s.CreatedInKCMRegion (rsClient rs) clusterDeployment) ;;
    match r with
    | Err err => fail (Errorf "failed to determine cluster region" err)
    | Ok createdInKCMRegion =>
        kubeconfig <-
          (if createdInKCMRegion then
             r <- try (k8s.GetKcmRegionClusterNameRelatedToClusterDeployment (rsClient rs)
                         clusterDeployment) ;;
             match r with
             | Err err => fail (Errorf "failed to get cluster region" err)
             | Ok regionClusterName =>
                 r <- try (k8s.GetKubeconfigByRegionName (rsClient rs) regionClusterName) ;;
                 match r with
                 | Err err => fail (Errorf "failed to get kubeconfig by region name" err)
                 | Ok None =>
                     fail (ErrorsNew ("no kubeconfig found for region cluster name: "
                                        ++ regionClusterName))
                 | Ok (Some regionKubeconfig) =>
                     r <- try (k8s.NewKubeClientFromKubeconfig regionKubeconfig) ;;
                     match r with
                     | Err err =>
                         fail (Errorf "failed to create kube client from region kubeconfig" err)
                     | Ok regionclient =>
                         r <- try (k8s.GetKubeconfigFromSecret regionclient
                                     (GetSecretName clusterDeployment)) ;;
                         match r with
                         | Err err => fail (Errorf "failed to get kubeconfig from secret" err)
                         | Ok kubeconfig => ret kubeconfig
                         end
                     end
                 end
             end
           else
             r <- try (k8s.GetKubeconfigFromSecret (rsClient rs)
                         (GetSecretName clusterDeployment)) ;;
             match r with
             | Err err => fail (Errorf "failed to get kubeconfig from secret" err)
             | Ok kubeconfig => ret kubeconfig
             end) ;;
        r <- try (GetRemoteSecret (creator rs) kubeconfig clusterDeployment opt) ;;
        match r with
        | Err err => fail (Errorf "failed to create remote secret" err)
        | Ok remoteSecret =>
            r <- try (createSecretResource rs remoteSecret clusterDeployment) ;;
            match r with
            | Err err =>
                log.Error err "failed to create remote secret" [] ;;
                fail (Errorf "failed to create remote secret" err)
            | Ok _ =>
                sendCreationEvent rs clusterDeployment ;;
                log.Info "Remote secret successfully created" [] ;;
                ret tt
            end
        end
    end in
  log.Info "Trying to create remote secret" [] ;;
  if negb (utils.IsClusterDeploymentReady clusterDeployment) then
    log.Info "Cluster deployment is not ready" [] ;;
    ret tt
  else if negb (AllowOverwrite opt) then
    r <- try (remoteSecretExists rs clusterDeployment) ;;
    match r with
    | Err err => fail (Errorf "failed to check remote secret" err)
    | Ok exists_ =>
        if exists_ then log.Info "Remote secret already exists" [] ;; ret tt
        else build
    end
  else build.

End remotesecret.
End remotesecret.

(** *** The remote secret manager before the create options *)

(** The earlier revision of the manager that the sources also hold: its
    [TryCreate] takes no options, reads the kubeconfig in the namespace
    of the cluster deployment and never replaces a secret.  The creator
    of that revision builds the secret with functions of istioctl; the
    manager only sees it through its interface. *)
Module remotesecret_prev.
Section remotesecret_prev.
Context {cfg : Config} {ext : Externals}.

Record IIstioRemoteSecretCreator := mkCreator {
  GetRemoteSecret : Bytes → ClusterDeployment → M Secret;
}.

Record RemoteSecretManager := mkRemoteSecretManager {
  rsClient : ClientRef;
  creator : IIstioRemoteSecretCreator;
}.

Definition sendCreationEvent (rs : RemoteSecretManager) (cd : ClusterDeployment) : M unit :=
  record.Eventf cd (utils.GetEventsAnnotations cd) "SecretCreated"
    ("Istio remote secret '"
       ++ remotesecret.GetRemoteSecretName (Name (cdMeta cd)) (Namespace (cdMeta cd))
       ++ "' is successfully created").

(** Checks if the cluster deployment is in a ready state. *)
Definition isClusterDeploymentReady (rs : RemoteSecretManager) (cd : ClusterDeployment) : bool :=
  foldl (fun readiness condition =>
           if utils.IsAdopted cd then
             if String.eqb (Type_ condition) kcmv1beta1.ReadyCondition
             then true else readiness
           else
             if String.eqb (Type_ condition) kcmv1beta1.CAPIClusterSummaryCondition
             then true else readiness)
        false (Conditions cd).

(** Generates the secret name based on the cluster name. *)
Definition getFullSecretName (rs : RemoteSecretManager) (cd : ClusterDeployment) : string :=
  if utils.IsAdopted cd then Name (cdMeta cd) ++ "-kubeconf"
  else Name (cdMeta cd) ++ "-kubeconfig".

(** Retrieves a kubeconfig from a Secret. *)
Definition GetKubeconfigFromSecret (rs : RemoteSecretManager) (clusterDeployment : ClusterDeployment)
  : M Bytes :=
  let secretFullName := getFullSecretName rs clusterDeployment in
  r <- try (k8s.GetSecret (rsClient rs) secretFullName (Namespace (cdMeta clusterDeployment))) ;;
  match r with
  | Err err =>
      log.Error err ("Unable to fetch Secret '" ++ secretFullName ++ "'") [] ;;
      fail err
  | Ok secret =>
      log.Info "Secret found"
        [("name", VStr (Name (secretMeta secret)));
         ("namespace", VStr (Namespace (secretMeta secret)))] ;;
      match k8s.GetSecretValue secret with
      | None => fail (ErrorsNew "kubeconfig secret does not contain 'value' key")
      | Some kubeconfigRaw => ret kubeconfigRaw
      end
  end.

Definition remoteSecretExists (rs : RemoteSecretManager) (cd : ClusterDeployment) : M bool :=
  let secretName := remotesecret.GetRemoteSecretName (Name (cdMeta cd)) (Namespace (cdMeta cd)) in
  utils.IsResourceExists (T := Secret) (rsClient rs) secretName IstioSystemNamespace.

(** Creates the remote secret resource in k8s. *)
Definition createSecretResource (rs : RemoteSecretManager) (secret : Secret) : M unit :=
  r <- try (client.Create (rsClient rs) secret) ;;
  match r with
  | Err err => if IsAlreadyExists err then ret tt else fail err
  | Ok _ => ret tt
  end.

(** Handles the creation of a remote secret. *)
Definition TryCreate (rs : RemoteSecretManager) (clusterDeployment : ClusterDeployment)
  : M unit :=
  log.Info "Trying to create remote secret" [] ;;
  if negb (isClusterDeploymentReady rs clusterDeployment) then
    log.Info "Cluster deployment is not ready" [] ;;
    ret tt
  else
    r <- try (remoteSecretExists rs clusterDeployment) ;;
    match r with
    | Err err => fail (Errorf "failed to check remote secret" err)
    | Ok exists_ =>
        if exists_ then log.Info "Remote secret already exists" [] ;; ret tt
        else
          r <- try (GetKubeconfigFromSecret rs clusterDeployment) ;;
          match r with
          | Err err => fail (Errorf "failed to get kubeconfig from secret" err)
          | Ok kubeconfig =>
              r <- try (GetRemoteSecret (creator rs) kubeconfig clusterDeployment) ;;
              match r with
              | Err err => fail (Errorf "failed to create remote secret" err)
              | Ok remoteSecret =>
                  r <- try (createSecretResource rs remoteSecret) ;;
                  match r with
                  | Err err =>
                      log.Error err "failed to create remote secret" [] ;;
                      fail (Errorf "failed to create remote secret" err)
                  | Ok _ =>
                      sendCreationEvent rs clusterDeployment ;;
                      log.Info "Remote secret successfully created" [] ;;
                      ret tt
                  end
              end
          end
    end.

End remotesecret_prev.
End remotesecret_prev.

(** ** Package multicluster: propagation of the remote secret *)

Module multicluster.
Section multicluster.
Context {cfg : Config} {ext : Externals}.

Record RemoteSecretPropagationManager := mkPropagationManager {
  mClient : ClientRef;
}.

Definition New (c : ClientRef) : RemoteSecretPropagationManager := {| mClient := c |}.

Definition GetMultiClusterServiceName (clusterName namespace : string) : string :=
  let name : string := namespace ++ "-" ++ clusterName in
  utils.GetNameHash "remote-secret-propagation" name.

Definition sendCreationEvent (m : RemoteSecretPropagationManager) (cd : ClusterDeployment)
  : M unit :=
  record.Eventf cd (utils.GetEventsAnnotations cd) "MultiClusterServiceCreated"
    ("MultiClusterService '"
       ++ GetMultiClusterServiceName (Name (cdMeta cd)) (Namespace (cdMeta cd))
       ++ "' for secret propagation is successfully created").

Definition sendDeletionEvent (m : RemoteSecretPropagationManager) (req : Request) : M unit :=
  let cd := utils.GetClusterDeploymentStub (reqName req) (reqNamespace req) in
  record.Eventf cd ∅ "MultiClusterServiceDeleted"
    ("MultiClusterService '" ++ GetMultiClusterServiceName (reqName req) (reqNamespace req)
       ++ "' for secret propagation is successfully deleted").

Definition multiClusterServiceExists (m : RemoteSecretPropagationManager)
    (cd : ClusterDeployment) : M bool :=
  let mcsName := GetMultiClusterServiceName (Name (cdMeta cd)) (Namespace (cdMeta cd)) in
  utils.IsResourceExists (T := MultiClusterService) (mClient m) mcsName "".

(** The MultiClusterService that propagates the remote secret of [cd]
    to the clusters of the mesh. *)
Definition remoteSecretMultiClusterService (cd : ClusterDeployment) : MultiClusterService :=
  {| mcsMeta :=
       {| Name := GetMultiClusterServiceName (Name (cdMeta cd)) (Namespace (cdMeta cd));
          Namespace := "";
          Labels := {[ utils.ManagedByLabel := utils.ManagedByValue;
                       "cluster-name" := Name (cdMeta cd);
                       "cluster-namespace" := Namespace (cdMeta cd) ]};
          Annotations := ∅;
          Generation := 0 |};
     MatchLabels := {[ istio.IstioRoleLabel := "member" ]};
     Services :=
       [ {| svcName := "istio-secret-propagation";
            svcNamespace := IstioSystemNamespace;
            svcTemplate := IstioReleaseName ++ "-base-propagation" |} ];
     TemplateResourceRefs :=
       [ {| Identifier := "Secret";
            Resource :=
              {| refAPIVersion := "v1";
                 refKind := "Secret";
                 refName := remotesecret.GetRemoteSecretName (Name (cdMeta cd))
                              (Namespace (cdMeta cd));
                 refNamespace := IstioSystemNamespace |} |} ] |}.

Definition createMultiClusterService (m : RemoteSecretPropagationManager)
    (cd : ClusterDeployment) : M unit :=
  r <- try (client.Create (mClient m) (remoteSecretMultiClusterService cd)) ;;
  match r with
  | Err err => if IsAlreadyExists err then ret tt else fail err
  | Ok _ => ret tt
  end.

Definition TryCreate (m : RemoteSecretPropagationManager) (clusterDeployment : ClusterDeployment)
  : M unit :=
  r <- try (multiClusterServiceExists m clusterDeployment) ;;
  match r with
  | Err err => fail (Errorf "failed to check MultiClusterService existence" err)
  | Ok exists_ =>
      if exists_ then log.Info "MultiClusterService already exists" [] ;; ret tt
      else
        log.Info "Trying to create MultiClusterService for secret propagation" [] ;;
        r <- try (createMultiClusterService m clusterDeployment) ;;
        match r with
        | Err err => fail (Errorf "failed to create MultiClusterService resource" err)
        | Ok _ =>
            sendCreationEvent m clusterDeployment ;;
            log.Info "MultiClusterService successfully created" [] ;;
            ret tt
        end
  end.

Definition TryDelete (m : RemoteSecretPropagationManager) (req : Request) : M unit :=
  let mcs :=
    {| mcsMeta := meta (GetMultiClusterServiceName (reqName req) (reqNamespace req)) "";
       MatchLabels := ∅; Services := []; TemplateResourceRefs := [] |} in
  log.Info "Trying to delete MultiClusterService for secret propagation" [] ;;
  r <- try (client.Delete (mClient m) mcs) ;;
  match r with
  | Err err =>
      if IsNotFound err then log.Info "MultiClusterService already deleted" [] ;; ret tt
      else fail (Errorf "failed to delete MultiClusterService" err)
  | Ok _ =>
      sendDeletionEvent m req ;;
      log.Info "MultiClusterService successfully deleted" [] ;;
      ret tt
  end.

End multicluster.
End multicluster.

(** ** Package controller: the cluster deployment reconciler *)

Module controller.
Section controller.
Context {cfg : Config} {ext : Externals}.

Definition MinRetryDelay : Z := 1 * time.Second.
Definition MaxRetryDelay : Z := 15 * time.Second.

Record ClusterDeploymentReconciler := mkReconciler {
  Client : ClientRef;
  RemoteSecretManager : remotesecret.RemoteSecretManager;
  IstioCertManager : cert.CertManager;
  RemoteSecretPropagationManager : multicluster.RemoteSecretPropagationManager;
}.

(** The event filter of [SetupWithManager]: only objects whose role
    label has an expected value are reconciled. *)
Definition eventFilter (labels : gmap string string) : bool :=
  bool_decide (index labels istio.IstioRoleLabel ∈ istio.IstioRoleLabelExpectedValues).

Definition tryDeleteResources (r : ClusterDeploymentReconciler) (req : Request) : M unit :=
  let clusterDeployment := utils.GetClusterDeploymentStub (reqName req) (reqNamespace req) in
  e <- try (remotesecret.TryDelete (RemoteSecretManager r) req) ;;
  match e with
  | Err err =>
      utils.LogEvent "SecretDeletionFailed" "Failed to delete remote secret"
        clusterDeployment (Some err)
        [("remoteSecretName",
          VStr (remotesecret.GetRemoteSecretName (reqName req) (reqNamespace req)))] ;;
      fail err
  | Ok _ =>
  e <- try (cert.TryDelete (IstioCertManager r) req) ;;
  match e with
  | Err err =>
      utils.LogEvent "IstioCertDeletionFailed" "Failed to delete istio certificate"
        clusterDeployment (Some err)
        [("certName", VStr (cert.GetCertName (reqName req) (reqNamespace req)))] ;;
      fail err
  | Ok _ =>
  e <- try (multicluster.TryDelete (RemoteSecretPropagationManager r) req) ;;
  match e with
  | Err err =>
      utils.LogEvent "MultiClusterServiceDeletionFailed" "Failed to delete MultiClusterService"
        clusterDeployment (Some err)
        [("multiClusterServiceName",
          VStr (multicluster.GetMultiClusterServiceName (reqName req) (reqNamespace req)))] ;;
      fail err
  | Ok _ => ret tt
  end end end.

(** The reconciler of the sources calls [TryCreate] of the remote
    secret manager without options: it belongs to the revision of the
    manager before the create options ([remotesecret_prev]).  It is
    run here with the manager that takes options, without overwrite.
    For a cluster that is not ready, and for a ready one whose remote
    secret exists or cannot be read, the two revisions of [TryCreate]
    are the same computation ([revisions_agree_on_skips]); what each
    does when it builds a secret is stated for the managers on their
    own. *)
Definition tryCreateResources (r : ClusterDeploymentReconciler) (req : Request)
    (clusterDeployment : ClusterDeployment) : M unit :=
  e <- try (remotesecret.TryCreate (RemoteSecretManager r) clusterDeployment
              {| remotesecret.AllowOverwrite := false |}) ;;
  match e with
  | Err err =>
      utils.LogEvent "SecretCreationFailed" "Failed to create remote secret"
        clusterDeployment (Some err)
        [("remoteSecretName",
          VStr (remotesecret.GetRemoteSecretName (reqName req) (reqNamespace req)))] ;;
      fail err
  | Ok _ =>
  e <- try (cert.TryCreate (IstioCertManager r) clusterDeployment) ;;
  match e with
  | Err err =>
      utils.LogEvent "IstioCertCreationFailed" "Failed to create istio CA certificate"
        clusterDeployment (Some err)
        [("certName", VStr (cert.GetCertName (reqName req) (reqNamespace req)))] ;;
      fail err
  | Ok _ =>
  e <- try (multicluster.TryCreate (RemoteSecretPropagationManager r) clusterDeployment) ;;
  match e with
  | Err err =>
      utils.LogEvent "MultiClusterServiceCreationFailed" "Failed to create MultiClusterService"
        clusterDeployment (Some err)
        [("multiClusterServiceName",
          VStr (multicluster.GetMultiClusterServiceName (reqName req) (reqNamespace req)))] ;;
      fail err
  | Ok _ => ret tt
  end end end.

Definition Reconcile (r : ClusterDeploymentReconciler) (req : Request) : M unit :=
  e <- try (client.Get (T := ClusterDeployment) (Client r) (reqNamespace req) (reqName req)) ;;
  match e with
  | Err err =>
      if IsNotFound err then tryDeleteResources r req
      else log.Error err "cannot read clusterDeployment" [] ;; fail err
  | Ok clusterDeployment => tryCreateResources r req clusterDeployment
  end.

End controller.
End controller.

(** ** Package secretrotation: periodic rotation of the remote secrets *)

Module secretrotation.
Section secretrotation.
Context {cfg : Config} {ext : Externals}.

(** RotationInterval defines how often secrets should be rotated. *)
Definition RotationInterval : Z := 1 * (3600 * time.Second).

Record Manager := mkManager {
  kubeClient : ClientRef;
  remoteSecretManager : remotesecret.RemoteSecretManager;
}.

Definition NewManager (kubeClient : ClientRef) : Manager :=
  {| kubeClient := kubeClient; remoteSecretManager := remotesecret.New kubeClient |}.

Definition getIstioClusters (m : Manager) : M (list ClusterDeployment) :=
  let selector := label_exists istio.IstioRoleLabel in
  r <- try (client.List (T := ClusterDeployment) (kubeClient m) selector) ;;
  match r with
  | Err err => fail (Wrapf "failed to list clusters" err)
  | Ok items => ret items
  end.

(** The loop of [rotateSecrets] over the clusters; the result is
    [successCount]. *)
Fixpoint rotateEach (m : Manager) (opt : remotesecret.CreateOptions)
    (clusters : list ClusterDeployment) (successCount : nat) : M nat :=
  match clusters with
  | [] => ret successCount
  | cluster :: rest =>
      r <- try (remotesecret.TryCreate (remoteSecretManager m) cluster opt) ;;
      match r with
      | Err err =>
          log.Error err "Failed to rotate secret for cluster"
            [("cluster", VStr (Name (cdMeta cluster)));
             ("namespace", VStr (Namespace (cdMeta cluster)))] ;;
          rotateEach m opt rest successCount
      | Ok _ => rotateEach m opt rest (S successCount)
      end
  end.

Definition rotateSecrets (m : Manager) : M unit :=
  log.Info "Starting secret rotation cycle" [] ;;
  r <- try (getIstioClusters m) ;;
  match r with
  | Err err => log.Error err "Failed to get Istio clusters for secret rotation" [] ;; ret tt
  | Ok clusters =>
      if (length clusters =? 0)%nat then
        log.Info "No Istio clusters found for secret rotation" [] ;; ret tt
      else
        log.Info "Rotating secrets for clusters" [("count", VNat (length clusters))] ;;
        (* Rotate secrets for each cluster using AllowOverwrite option *)
        let opt := {| remotesecret.AllowOverwrite := true |} in
        successCount <- rotateEach m opt clusters 0 ;;
        log.Info "Secret rotation cycle completed"
          [("total", VNat (length clusters)); ("successful", VNat successCount);
           ("failed", VNat (length clusters - successCount))]
  end.

(** What the worker receives: a tick of its ticker, or the end of its
    context. *)
Inductive Signal := Tick | Done.

(** The loop of the worker, run on the signals that arrive: it rotates
    on every tick until the context is done. *)
Fixpoint rotationLoop (m : Manager) (signals : list Signal) : M unit :=
  match signals with
  | [] => ret tt
  | Tick :: rest => rotateSecrets m ;; rotationLoop m rest
  | Done :: _ => log.Info "Secret rotation worker stopped" [] ;; ret tt
  end.

Definition StartRotationWorker (m : Manager) (signals : list Signal) : M unit :=
  log.Info "Starting secret rotation worker" [("interval", VStr (pretty RotationInterval))] ;;
  rotationLoop m signals.

End secretrotation.
End secretrotation.

(** * Properties *)

(** ** Vocabulary of the statements *)

(** The condition type whose presence makes a cluster deployment
    ready: [Ready] for an adopted cluster, [CAPIClusterSummary] for a
    provisioned one. *)
Definition readinessConditionType (cd : ClusterDeployment) : string :=
  if utils.IsAdopted cd then kcmv1beta1.ReadyCondition
  else kcmv1beta1.CAPIClusterSummaryCondition.

Definition with_Conditions (cs : list Condition) (cd : ClusterDeployment) : ClusterDeployment :=
  {| cdMeta := cdMeta cd; cdAPIVersion := cdAPIVersion cd; cdKind := cdKind cd;
     Template := Template cd; Credential := Credential cd; Conditions := cs |}.

Definition with_Status (st : ConditionStatus) (c : Condition) : Condition :=
  {| Type_ := Type_ c; Status := st; Reason := Reason c; Message := Message c |}.

(** A label selector matches the labels that carry all its pairs. *)
Definition selector_matches (matchLabels labels : gmap string string) : bool :=
  bool_decide (matchLabels ⊆ labels).

(** The API calls that change a cluster. *)
Definition is_write (c : Call) : bool :=
  match verb c with
  | VCreate | VUpdate | VPatch | VDelete => true
  | _ => false
  end.

(** The calls a run of [m] from [w] adds to the record. *)
Definition calls_of {A} (m : M A) (w : World) : list Call :=
  drop (length (calls w)) (calls (after m w)).

Definition sleeps_of {A} (m : M A) (w : World) : list Z :=
  drop (length (slept w)) (slept (after m w)).

(** No backend failure is planned for the next API call. *)
Definition next_call_succeeds (w : World) : Prop :=
  match head (faults w) with
  | Some (Some _) => False
  | _ => True
  end.

(** The world after an API call was recorded. *)
Definition called (c : Call) (w : World) : World :=
  set_faults (tail (faults w)) (set_calls (calls w ++ [c]) w).

(** A read of a secret through the client [cl]. *)
Definition reads_secret (cl : ClientRef) (c : Call) : Prop :=
  verb c = VGet ∧ ckind c = "Secret" ∧ target c = cl.

Section vocabulary.
Context {cfg : Config} {ext : Externals}.

(** The world in which the re-read number [i] (counted from 0) of the
    secret [(namespace, name)] takes place, when every earlier re-read
    was followed by a wait of one second: a re-read is a call to the
    server, and during a wait the environment takes its turn. *)
Fixpoint at_reread (cl : ClientRef) (namespace name : string) (i : nat) (w : World) : World :=
  match i with
  | O => w
  | S j =>
      at_reread cl namespace name j
        (after (Sleep time.Second) (called (mkCall VGet cl "Secret" namespace name) w))
  end.

(** What the re-read number [i] is answered. *)
Definition reread_answer (cl : ClientRef) (namespace name : string) (w : World) (i : nat)
  : Result Secret :=
  result (remotesecret.SecretsGet cl namespace name) (at_reread cl namespace name i w).

(** The data of the token in that answer, or the error of the re-read. *)
Definition reread_outcome (cl : ClientRef) (namespace name : string) (w : World) (i : nat)
  : Result (Bytes * Bytes) :=
  match reread_answer cl namespace name w i with
  | Ok s => remotesecret.tokenDataFromSecret s
  | Err e => Err e
  end.

(** The re-read number [i] is answered with the secret, which still
    lacks the data of the token. *)
Definition still_empty (cl : ClientRef) (namespace name : string) (w : World) (i : nat)
  : Prop :=
  ∃ s, reread_answer cl namespace name w i = Ok s
       ∧ Namespace (secretMeta s) = namespace ∧ Name (secretMeta s) = name
       ∧ is_ok (remotesecret.tokenDataFromSecret s) = false.

(** The data are those of the secret that the last call read, and the
    cluster holds that secret. *)
Definition data_of_last_read (cl : ClientRef) (w : World) (d : list Call) (ca token : Bytes)
  : Prop :=
  ∃ c namespace name s,
    last d = Some (mkCall VGet cl "Secret" namespace name)
    ∧ cluster_of cl w = Some c
    ∧ secrets c !! (namespace, name) = Some s
    ∧ remotesecret.tokenDataFromSecret s = Ok (ca, token).


(** The attempts of a rotation cycle: the credential builder is run
    with the overwrite directive on every cluster in turn, each time in
    the world the previous attempt left, whatever its outcome. *)
Fixpoint attempts (rs : remotesecret.RemoteSecretManager) (clusters : list ClusterDeployment)
    (w : World) : list (ClusterDeployment * Result unit) * World :=
  match clusters with
  | [] => ([], w)
  | cluster :: rest =>
      let (r, w1) :=
        remotesecret.TryCreate rs cluster {| remotesecret.AllowOverwrite := true |} w in
      let w2 :=
        match r with
        | Ok _ => w1
        | Err err =>
            after (log.Error err "Failed to rotate secret for cluster"
                     [("cluster", VStr (Name (cdMeta cluster)));
                      ("namespace", VStr (Namespace (cdMeta cluster)))]) w1
        end in
      let (tr, w3) := attempts rs rest w2 in
      ((cluster, r) :: tr, w3)
  end.

Definition successes (tr : list (ClusterDeployment * Result unit)) : nat :=
  length (filter (fun a => is_ok (snd a) = true) tr).

Definition rotation_report (total successful : nat) : LogEntry :=
  mkLogEntry LInfo None "Secret rotation cycle completed"
    [("total", VNat total); ("successful", VNat successful);
     ("failed", VNat (total - successful))].

(** The cluster deployments of the management cluster that carry the
    role label, whatever its value. *)
Definition listed_clusters (w : World) : list ClusterDeployment :=
  filter (fun cd => label_exists istio.IstioRoleLabel (Labels (cdMeta cd)) = true)
    (snd <$> map_to_list (clusterDeployments (hub w))).

(** A write to the management cluster. *)
Definition hub_write (c : Call) : bool :=
  is_write c && bool_decide (target c = Hub).

(** [m] only appends calls that satisfy [P] to the record, and what it
    returns satisfies [Q]. *)
Definition spec {A} (P : Call → Prop) (Q : A → Prop) (m : M A) : Prop :=
  ∀ w, ∃ d, calls (snd (m w)) = (calls w ++ d)%list ∧ Forall P d
            ∧ ∀ a, fst (m w) = Ok a → Q a.

Definition on (cl : ClientRef) (c : Call) : Prop := target c = cl.

Definition no_hub_write (c : Call) : Prop := hub_write c = false.

Definition derived_key (cd : ClusterDeployment) : string * string :=
  (IstioSystemNamespace,
   remotesecret.GetRemoteSecretName (Name (cdMeta cd)) (Namespace (cdMeta cd))).

(** What the remote secret manager relies on in a creator: it does not
    write to the management cluster, and the secret it returns for a
    cluster deployment has the derived name, in the system namespace. *)
Definition creates_derived (creator : remotesecret.IIstioRemoteSecretCreator)
    (cd : ClusterDeployment) : Prop :=
  ∀ kubeconfig opt,
    spec no_hub_write (fun s => key_of s = derived_key cd)
      (remotesecret.GetRemoteSecret creator kubeconfig cd opt).

(** The calls of a run of the credential builder: calls that do not
    write to the management cluster, followed by nothing, by the delete
    of the secret, or by the delete and then the create of the secret. *)
Definition delete_then_create (key : string * string) (post : list Call) : Prop :=
  post = []
  ∨ post = [mkCall VDelete Hub "Secret" (fst key) (snd key)]
  ∨ post = [mkCall VDelete Hub "Secret" (fst key) (snd key);
            mkCall VCreate Hub "Secret" (fst key) (snd key)].

Definition credential_trace (key : string * string) (d : list Call) : Prop :=
  ∃ pre post, d = (pre ++ post)%list ∧ Forall no_hub_write pre ∧ delete_then_create key post.

Definition tspec {A} (S : list Call → Prop) (m : M A) : Prop :=
  ∀ w, ∃ d, calls (snd (m w)) = (calls w ++ d)%list ∧ S d.

(** The calls the create path may issue for a cluster deployment that
    is not ready. *)
Definition not_ready_calls (cd : ClusterDeployment) : list Call :=
  [ mkCall VCreate Hub "Certificate" IstioSystemNamespace
      (cert.GetCertName (Name (cdMeta cd)) (Namespace (cdMeta cd)));
    mkCall VGet Hub "MultiClusterService" ""
      (multicluster.GetMultiClusterServiceName (Name (cdMeta cd)) (Namespace (cdMeta cd)));
    mkCall VCreate Hub "MultiClusterService" ""
      (multicluster.GetMultiClusterServiceName (Name (cdMeta cd)) (Namespace (cdMeta cd))) ].

(** What a run appends to the log and to the events. *)
Definition logs_of {A} (m : M A) (w : World) : list LogEntry :=
  drop (length (logs w)) (logs (after m w)).

Definition events_of {A} (m : M A) (w : World) : list Event :=
  drop (length (events w)) (events (after m w)).

(** The outcome of a read that reaches the cluster [c]. *)
Definition found `{ApiObject T} (c : Cluster) (namespace name : string) : Result T :=
  match objects c !! (namespace, name) with
  | Some obj => Ok obj
  | None => Err (StatusError ReasonNotFound name)
  end.

(** The clusters are those of [w]. *)
Definition same_clusters (w' w : World) : Prop := hub w' = hub w ∧ remotes w' = remotes w.





(** A read issued through the client [cl]. *)
Definition reads_on (cl : ClientRef) (c : Call) : Prop := verb c = VGet ∧ target c = cl.

(** The events the managers record. *)
Definition certificateDeleted (req : Request) : Event :=
  mkEvent Normal (reqNamespace req, reqName req) ∅ "CertificateDeleted"
    ("Istio certificate '" ++ cert.GetCertName (reqName req) (reqNamespace req)
       ++ "' is successfully deleted") [].

Definition multiClusterServiceCreated (cd : ClusterDeployment) : Event :=
  mkEvent Normal (Namespace (cdMeta cd), Name (cdMeta cd)) (utils.GetEventsAnnotations cd)
    "MultiClusterServiceCreated"
    ("MultiClusterService '"
       ++ multicluster.GetMultiClusterServiceName (Name (cdMeta cd)) (Namespace (cdMeta cd))
       ++ "' for secret propagation is successfully created") [].

Definition multiClusterServiceDeleted (req : Request) : Event :=
  mkEvent Normal (reqNamespace req, reqName req) ∅ "MultiClusterServiceDeleted"
    ("MultiClusterService '"
       ++ multicluster.GetMultiClusterServiceName (reqName req) (reqNamespace req)
       ++ "' for secret propagation is successfully deleted") [].

Definition secretDeleted (req : Request) : Event :=
  mkEvent Normal (reqNamespace req, reqName req) ∅ "SecretDeleted"
    ("Istio remote secret '"
       ++ remotesecret.GetRemoteSecretName (reqName req) (reqNamespace req)
       ++ "' is successfully deleted") [].

(** The secret that the creator of the tests returns. *)
Definition fakeSecret (cd : ClusterDeployment) : Secret :=
  {| secretMeta :=
       meta (remotesecret.GetRemoteSecretName (Name (cdMeta cd)) (Namespace (cdMeta cd)))
         IstioSystemNamespace;
     secretType := "";
     Data := ∅;
     StringData := {[ "value" := "Fake values" ]} |}.

End vocabulary.

(** ** Scenarios *)

Module scenario.

#[local] Instance cfg : Config :=
  {| IstioSystemNamespace := "istio-system"; IstioReleaseName := "rel" |}.

#[local] Instance ext : Externals :=
  {| Encode := fun _ => Ok "kubeconfig";
     Validate := fun _ => None;
     ParseGeneric := fun _ => None;
     GetSecretName := k8s.GetCloudClusterSecretName |}.

Definition emptyCluster : Cluster :=
  {| secrets := ∅; serviceAccounts := ∅; certificates := ∅; multiClusterServices := ∅;
     clusterDeployments := ∅; credentials := ∅; regions := ∅;
     serverVersion := ("1", "30"); kubeSystemUID := "uid";
     restHost := "https://c1.example:6443";
     rawConfig := {| Clusters := ∅; AuthInfos := ∅; Contexts := ∅; CurrentContext := "" |};
     files := ∅; issuedToken := "token" |}.

Definition world (h : Cluster) : World :=
  {| hub := h; remotes := ∅; faults := []; future := []; calls := []; slept := [];
     logs := []; events := [] |}.

Definition request : Request := {| reqNamespace := "ns1"; reqName := "c1" |}.

(** A cluster deployment (c1, ns1) labelled as mesh member, without
    any condition: not ready. *)
Definition notReady : ClusterDeployment :=
  {| cdMeta := {| Name := "c1"; Namespace := "ns1";
                  Labels := {[ istio.IstioRoleLabel := "member" ]};
                  Annotations := ∅; Generation := 1 |};
     cdAPIVersion := "k0rdent.mirantis.com/v1beta1";
     cdKind := kcmv1beta1.ClusterDeploymentKind;
     Template := "aws-standalone-cp"; Credential := "aws-credential";
     Conditions := [] |}.

(** The same cluster with the condition that makes it ready, its
    status being False. *)
Definition ready : ClusterDeployment :=
  with_Conditions
    [ {| Type_ := kcmv1beta1.CAPIClusterSummaryCondition; Status := ConditionFalse;
         Reason := "IssuesReported"; Message := "" |} ] notReady.

(** A cluster whose role label has a value that is not expected. *)
Definition observer : ClusterDeployment :=
  {| cdMeta := {| Name := "c2"; Namespace := "ns1";
                  Labels := {[ istio.IstioRoleLabel := "observer" ]};
                  Annotations := ∅; Generation := 1 |};
     cdAPIVersion := "k0rdent.mirantis.com/v1beta1";
     cdKind := kcmv1beta1.ClusterDeploymentKind;
     Template := "aws-standalone-cp"; Credential := "aws-credential";
     Conditions := [] |}.

Definition reconciler : controller.ClusterDeploymentReconciler :=
  {| controller.Client := Hub;
     controller.RemoteSecretManager := remotesecret.New Hub;
     controller.IstioCertManager := cert.New Hub;
     controller.RemoteSecretPropagationManager := multicluster.New Hub |}.

(** The management cluster holds the cluster deployment that is not
    ready and nothing else. *)
Definition notReadyWorld : World :=
  world (set_objects (T := ClusterDeployment) {[ ("ns1", "c1") := notReady ]} emptyCluster).

(** The cluster deployment is gone and so is its certificate, but the
    descriptor that propagates its CA certificate is still there. *)
Definition leftoverWorld : World :=
  world (set_objects (T := MultiClusterService)
           {[ ("", cert.GetCertNameHash "c1" "ns1") := cert.caMultiClusterService notReady ]}
           emptyCluster).

(** The cluster is ready and its remote secret exists. *)
Definition existingSecret : Secret :=
  {| secretMeta := meta (remotesecret.GetRemoteSecretName "c1" "ns1") "istio-system";
     secretType := ""; Data := {[ "c1" := "kubeconfig" ]}; StringData := ∅ |}.

Definition secretWorld : World :=
  world (set_objects (T := Secret)
           {[ ("istio-system", remotesecret.GetRemoteSecretName "c1" "ns1") := existingSecret ]}
           (set_objects (T := ClusterDeployment) {[ ("ns1", "c1") := ready ]} emptyCluster)).

(** The same, the next call of the client failing in the backend. *)
Definition unreadableWorld : World := set_faults [Some "backend unavailable"] secretWorld.

(** Two labelled clusters, one of them with an unexpected value. *)
Definition rotationWorld : World :=
  world (set_objects (T := ClusterDeployment)
           {[ ("ns1", "c1") := notReady; ("ns1", "c2") := observer ]} emptyCluster).

Definition observerWorld : World :=
  world (set_objects (T := ClusterDeployment) {[ ("ns1", "c2") := observer ]} emptyCluster).

(** A member cluster behind the kubeconfig [kc]: its token secret
    exists without data, and the data arrive during the second or the
    seventh second of waiting. *)
Definition tokenSecret (data : gmap string Bytes) : Secret :=
  {| secretMeta := meta "istio-reader-service-account-istio-remote-secret-token" "istio-system";
     secretType := "Opaque"; Data := data; StringData := ∅ |}.

Definition tokenData : gmap string Bytes :=
  {[ "ca.crt" := "CA"; "token" := "TOKEN"; "namespace" := "istio-system" ]}.

Definition memberCluster : Cluster :=
  set_objects (T := Secret)
    {[ ("istio-system", "istio-reader-service-account-istio-remote-secret-token")
         := tokenSecret ∅ ]} emptyCluster.

Definition waitingWorld (arrival : nat) : World :=
  {| hub := emptyCluster; remotes := {[ "kc" := memberCluster ]}; faults := [];
     future := replicate arrival [] ++ [[EnvPutSecret (Remote "kc") (tokenSecret tokenData)]];
     calls := []; slept := []; logs := []; events := [] |}.

(** The cluster (c1, ns1) is ready and everything derived from it
    exists: its remote secret, its certificate and the descriptor that
    propagates the remote secret. *)
Definition convergedWorld : World :=
  world (set_objects (T := MultiClusterService)
           {[ ("", multicluster.GetMultiClusterServiceName "c1" "ns1")
                := multicluster.remoteSecretMultiClusterService ready ]}
           (set_objects (T := Certificate)
              {[ ("istio-system", cert.GetCertName "c1" "ns1")
                   := cert.generateClusterCACertificate (cert.New Hub) ready ]}
              (hub secretWorld))).

(** The cluster deployment is gone; what was derived from it is left,
    with the descriptor that propagates its CA certificate. *)
Definition orphanWorld : World :=
  world (set_objects (T := ClusterDeployment) ∅
           (set_objects (T := MultiClusterService)
              {[ ("", multicluster.GetMultiClusterServiceName "c1" "ns1")
                   := multicluster.remoteSecretMultiClusterService ready;
                 ("", cert.GetCertNameHash "c1" "ns1") := cert.caMultiClusterService ready ]}
              (hub convergedWorld))).

(** The next call of the client fails. *)
Definition failingWorld : World := set_faults [Some "boom"] notReadyWorld.

(** The credential of the cluster, of no region and of region r1. *)
Definition credential (region : string) : CredentialCR :=
  {| credMeta := meta "aws-credential" "kcm-system";
     credRegion := region;
     credIdentityRef := {| refAPIVersion := "v1"; refKind := "Secret";
                           refName := "aws-identity"; refNamespace := "kcm-system" |} |}.

Definition kubeconfigSecret : Secret :=
  {| secretMeta := meta "c1-kubeconfig" "kcm-system";
     secretType := "Opaque"; Data := {[ "value" := "kc" ]}; StringData := ∅ |}.

(** The cluster is ready, its credential and the secret of its
    kubeconfig are there, and nothing has been derived from it yet. *)
Definition freshWorld : World :=
  world (set_objects (T := Secret) {[ ("kcm-system", "c1-kubeconfig") := kubeconfigSecret ]}
           (set_objects (T := CredentialCR)
              {[ ("kcm-system", "aws-credential") := credential "" ]}
              (set_objects (T := ClusterDeployment) {[ ("ns1", "c1") := ready ]}
                 emptyCluster))).

Definition regionWorld : World :=
  world (set_objects (T := CredentialCR)
           {[ ("kcm-system", "aws-credential") := credential "r1" ]} emptyCluster).

(** The member cluster behind the kubeconfig [kc] holds the reader
    service account and its token secret, with its data. *)
Definition tokenWorld : World :=
  {| hub := emptyCluster;
     remotes := {[ "kc" := set_objects (T := ServiceAccount)
                             {[ ("istio-system", "istio-reader-service-account")
                                  := {| saMeta := meta "istio-reader-service-account"
                                                    "istio-system";
                                        Secrets := [] |} ]}
                             (set_objects (T := Secret)
                                {[ ("istio-system",
                                    "istio-reader-service-account-istio-remote-secret-token")
                                     := tokenSecret tokenData ]} emptyCluster) ]};
     faults := []; future := []; calls := []; slept := []; logs := []; events := [] |}.

Definition remoteOptions : remotesecret.RemoteSecretOptions :=
  {| remotesecret.optNamespace := "istio-system";
     remotesecret.ClusterName := "c1";
     remotesecret.ServiceAccountName := "";
     remotesecret.AuthType := remotesecret.RemoteSecretAuthTypeBearerToken;
     remotesecret.AuthPluginName := "";
     remotesecret.AuthPluginConfig := ∅;
     remotesecret.optType := remotesecret.SecretTypeRemote;
     remotesecret.ServerOverride := "";
     remotesecret.optSecretName := "";
     remotesecret.optAllowOverwrite := false |}.

(** The options of the builder once the reader service account is
    named, and that service account. *)
Definition readerOptions : remotesecret.RemoteSecretOptions :=
  remotesecret.with_ServiceAccountName remotesecret.DefaultServiceAccountName remoteOptions.

Definition readerAccount : ServiceAccount :=
  {| saMeta := meta "istio-reader-service-account" "istio-system"; Secrets := [] |}.



(** A remote secret for (c1, ns1) with other data than the one that
    exists. *)
Definition renewedSecret : Secret :=
  {| secretMeta := meta (remotesecret.GetRemoteSecretName "c1" "ns1") "istio-system";
     secretType := ""; Data := {[ "c1" := "renewed" ]}; StringData := ∅ |}.

End scenario.

(** ** Running operator code symbolically *)

(** Unfold the monad, the client and the world updates, then reduce
    the projections of the records that appear. *)
Ltac exec_unfold :=
  cbv beta iota zeta delta
      [bind try ret fail remotesecret.lift result after emit
       log.Info log.Error record.Eventf record.Event record.Warn
       client.Get client.Create client.Update client.Delete client.List client.call client.store
       utils.IsResourceExists utils.LogEvent
       set_hub set_remotes set_faults set_future set_calls set_slept set_logs set_events
       cluster_of set_cluster key_of
       negb andb orb IsNotFound IsAlreadyExists].

Ltac exec_proj :=
  cbn [hub remotes faults future calls slept logs events target verb ckind cnamespace cname
       object_meta objects set_objects kind
       Secret_resource ServiceAccount_resource Certificate_resource
       MultiClusterService_resource ClusterDeployment_resource Credential_resource
       Region_resource
       secrets serviceAccounts certificates multiClusterServices clusterDeployments
       credentials regions serverVersion kubeSystemUID restHost rawConfig files issuedToken
       secretMeta certMeta mcsMeta cdMeta saMeta credMeta regionMeta
       meta Name Namespace fst snd head tail].

Ltac exec := repeat (progress (exec_unfold; exec_proj)).

Lemma next_call_cases (w : World) :
  next_call_succeeds w → head (faults w) = None ∨ head (faults w) = Some None.
Proof.
  unfold next_call_succeeds. destruct (head (faults w)) as [[msg|]|]; tauto.
Qed.

Lemma calls_of_app {A} (m : M A) (w : World) (delta : list Call) :
  calls (after m w) = (calls w ++ delta)%list → calls_of m w = delta.
Proof. unfold calls_of. intros ->. apply drop_app_length. Qed.

(** *** The environment leaves the outputs alone *)

Lemma apply_env_outputs (a : EnvAction) (w : World) :
  calls (apply_env a w) = calls w ∧ slept (apply_env a w) = slept w.
Proof.
  destruct a as [cl s | cl ns n]; simpl;
    (destruct (cluster_of cl w); [|done]); by destruct cl.
Qed.

Lemma apply_envs_outputs (acts : list EnvAction) (w : World) :
  calls (foldl (fun w a => apply_env a w) w acts) = calls w
  ∧ slept (foldl (fun w a => apply_env a w) w acts) = slept w.
Proof.
  revert w. induction acts as [|a acts IH]; intros w; simpl; [done|].
  destruct (IH (apply_env a w)) as [-> ->]. apply apply_env_outputs.
Qed.

Lemma Sleep_outputs (d : Z) (w : World) :
  fst (Sleep d w) = Ok tt
  ∧ calls (snd (Sleep d w)) = calls w
  ∧ slept (snd (Sleep d w)) = (slept w ++ [d])%list.
Proof.
  unfold Sleep. simpl. destruct (future w) as [|acts rest]; simpl; [done|].
  split; [done|]. destruct (apply_envs_outputs acts
    (set_future rest (set_slept (slept w ++ [d]) w))) as [-> ->]. done.
Qed.

(** *** One read *)

Lemma Get_spec `{ApiObject T} (cl : ClientRef) (ns n : string) (w : World) :
  ∃ r, client.Get (T := T) cl ns n w = (r, called (mkCall VGet cl kind ns n) w)
       ∧ (∀ obj, r = Ok obj →
            ∃ c, cluster_of cl w = Some c ∧ objects c !! (ns, n) = Some obj).
Proof.
  unfold client.Get, client.call, bind, called. simpl.
  destruct (head (faults w)) as [[msg|]|].
  { eexists; split; [done|]. done. }
  all: destruct (cluster_of cl w) as [c0|].
  2,4: eexists; split; [done|]; done.
  all: destruct (objects c0 !! (ns, n)) as [obj|] eqn:Hobj; unfold ret, fail.
  2,4: eexists; split; [done|]; done.
  all: eexists; split; [done|]; intros ? [= <-]; eauto.
Qed.

Lemma cluster_of_called (cl : ClientRef) (c : Call) (w : World) :
  cluster_of cl (called c w) = cluster_of cl w.
Proof. by destruct cl. Qed.


(** ** Readiness *)

Lemma ready_fold (adopted : bool) (cs : list Condition) (acc : bool) :
  foldl (fun readiness condition =>
           if adopted then
             if String.eqb (Type_ condition) kcmv1beta1.ReadyCondition
             then true else readiness
           else
             if String.eqb (Type_ condition) kcmv1beta1.CAPIClusterSummaryCondition
             then true else readiness) acc cs
  = acc || existsb (fun c => String.eqb (Type_ c)
                       (if adopted then kcmv1beta1.ReadyCondition
                        else kcmv1beta1.CAPIClusterSummaryCondition)) cs.
Proof.
  revert acc. induction cs as [|c cs IH]; intros acc; simpl.
  - by rewrite orb_false_r.
  - rewrite IH. destruct adopted.
    + by destruct (Type_ c =? kcmv1beta1.ReadyCondition)%string, acc.
    + by destruct (Type_ c =? kcmv1beta1.CAPIClusterSummaryCondition)%string, acc.
Qed.

Lemma ready_existsb (cd : ClusterDeployment) :
  utils.IsClusterDeploymentReady cd
  = existsb (fun c => String.eqb (Type_ c) (readinessConditionType cd)) (Conditions cd).
Proof.
  unfold utils.IsClusterDeploymentReady, readinessConditionType.
  rewrite ready_fold. simpl. by destruct (utils.IsAdopted cd).
Qed.

Lemma existsb_with_Status (ty : string) (st : Condition → ConditionStatus)
    (l : list Condition) :
  existsb (fun c => String.eqb (Type_ c) ty) ((fun c => with_Status (st c) c) <$> l)
  = existsb (fun c => String.eqb (Type_ c) ty) l.
Proof. induction l as [|c l IH]; csimpl; [done|]. by rewrite IH. Qed.

(** C10. [IsClusterDeploymentReady] is true exactly when a condition
    of the expected type ([CAPIClusterSummary] for a provisioned
    cluster, [Ready] for an adopted one) is present in the conditions
    list; the statuses of the conditions play no role, so a cluster
    whose relevant condition has status False is ready; with an empty
    conditions list the cluster is not ready. *)
Theorem readiness_is_presence_of_condition (cd : ClusterDeployment) :
  (utils.IsClusterDeploymentReady cd = true ↔
     ∃ c, c ∈ Conditions cd ∧ Type_ c = readinessConditionType cd)
  ∧ (∀ (st : Condition → ConditionStatus),
       utils.IsClusterDeploymentReady
         (with_Conditions ((fun c => with_Status (st c) c) <$> Conditions cd) cd)
       = utils.IsClusterDeploymentReady cd)
  ∧ (∀ (reason message : string) (rest : list Condition),
       utils.IsClusterDeploymentReady
         (with_Conditions
            (mkCondition (readinessConditionType cd) ConditionFalse reason message :: rest) cd)
       = true)
  ∧ utils.IsClusterDeploymentReady (with_Conditions [] cd) = false.
Proof.
  split; [|split; [|split]].
  - rewrite ready_existsb, existsb_exists. split.
    + intros (c & Hin & Heq). exists c. split; [by apply list_elem_of_In|].
      by apply String.eqb_eq.
    + intros (c & Hin & Heq). exists c. split; [by apply list_elem_of_In|].
      by apply String.eqb_eq.
  - intros st. rewrite !ready_existsb. apply existsb_with_Status.
  - intros reason message rest. rewrite ready_existsb. simpl.
    unfold readinessConditionType, utils.IsAdopted. simpl.
    by rewrite String.eqb_refl.
  - done.
Qed.

Example ready_with_status_false :
  utils.IsClusterDeploymentReady scenario.ready = true
  ∧ Status <$> Conditions scenario.ready = [ConditionFalse]
  ∧ utils.IsClusterDeploymentReady scenario.notReady = false.
Proof. done. Qed.

(** ** Names and the CA request *)

Section names.
Context {cfg : Config} {ext : Externals}.

(** C7. The CA request generated for a cluster deployment is named
    [{releaseName}-{namespace}-{clusterName}-ca], is a CA certificate
    with common name [{clusterName} CA] and organization [Istio], asks
    for an ECDSA key of size 521, stores its key pair in the secret of
    its own name, and refers to the issuer [{releaseName}-root]. *)
Theorem ca_request_record (cm : cert.CertManager) (cd : ClusterDeployment) :
  let crt := cert.generateClusterCACertificate cm cd in
  Name (certMeta crt)
    = IstioReleaseName ++ "-" ++ Namespace (cdMeta cd) ++ "-" ++ Name (cdMeta cd) ++ "-ca"
  ∧ IsCA (certSpec crt) = true
  ∧ CommonName (certSpec crt) = Name (cdMeta cd) ++ " CA"
  ∧ Organizations (certSpec crt) = ["Istio"]
  ∧ PrivateKeyAlg (certSpec crt) = ECDSAKeyAlgorithm
  ∧ PrivateKeySize (certSpec crt) = 521%Z
  ∧ SecretName (certSpec crt) = Name (certMeta crt)
  ∧ issuerName (IssuerRef (certSpec crt)) = IstioReleaseName ++ "-root"
  ∧ issuerKind (IssuerRef (certSpec crt)) = "Issuer"
  ∧ Namespace (certMeta crt) = IstioSystemNamespace.
Proof. repeat split. Qed.

Lemma propagation_names_differ (a b c d : string) :
  cert.GetCertNameHash a b ≠ multicluster.GetMultiClusterServiceName c d.
Proof.
  unfold cert.GetCertNameHash, multicluster.GetMultiClusterServiceName, utils.GetNameHash.
  simpl. discriminate.
Qed.

End names.

(** C6. With release name [rel], the cluster (name c1, namespace ns1)
    has the CA request [rel-ns1-c1-ca], the credential
    [istio-remote-secret-] followed by the lower-case hexadecimal
    32-bit FNV-1a hash of [ns1-c1], which is 3f132440, the propagation
    descriptor [remote-secret-propagation-] followed by the same hash,
    and the selector of the descriptor matches exactly the clusters
    whose role label has the current value [member]. *)
Theorem end_to_end_names (systemNamespace : string) (ext : Externals) :
  let cfg := {| IstioSystemNamespace := systemNamespace; IstioReleaseName := "rel" |} in
  let cd := utils.GetClusterDeploymentStub "c1" "ns1" in
  cert.GetCertName "c1" "ns1" = "rel-ns1-c1-ca"
  ∧ remotesecret.GetRemoteSecretName "c1" "ns1"
      = "istio-remote-secret-" ++ fmt_x32 (fnv.Sum32a "ns1-c1")
  ∧ multicluster.GetMultiClusterServiceName "c1" "ns1"
      = "remote-secret-propagation-" ++ fmt_x32 (fnv.Sum32a "ns1-c1")
  ∧ fmt_x32 (fnv.Sum32a "ns1-c1") = "3f132440"
  ∧ MatchLabels (multicluster.remoteSecretMultiClusterService cd)
      = {[ istio.IstioRoleLabel := "member" ]}
  ∧ head istio.IstioRoleLabelExpectedValues = Some "member"
  ∧ (∀ labels : gmap string string,
       selector_matches (MatchLabels (multicluster.remoteSecretMultiClusterService cd)) labels
       = bool_decide (labels !! istio.IstioRoleLabel = Some "member")).
Proof.
  repeat split.
  intros labels. unfold selector_matches. simpl.
  apply bool_decide_ext. by rewrite map_singleton_subseteq_l.
Qed.

(** The hash is the FNV-1a of the reference vectors. *)
Example fnv_vectors :
  fmt_x32 (fnv.Sum32a "") = "811c9dc5" ∧ fmt_x32 (fnv.Sum32a "a") = "e40c292c".
Proof. done. Qed.

(** ** A logic of calls *)

(** Rules to bound the calls of operator code function by function,
    through its binds and case distinctions. *)
Section logic.
Context {cfg : Config} {ext : Externals}.

Lemma spec_ret {A} (P : Call → Prop) (Q : A → Prop) (a : A) : Q a → spec P Q (ret a).
Proof.
  intros HQ w. exists []. rewrite app_nil_r. repeat split; [done|].
  by intros ? [= <-].
Qed.

Lemma spec_fail {A} (P : Call → Prop) (Q : A → Prop) (e : Error) : spec P Q (fail e).
Proof. intros w. exists []. rewrite app_nil_r. repeat split; done. Qed.

Lemma spec_bind {A B} (P : Call → Prop) (Q1 : A → Prop) (Q : B → Prop)
    (m : M A) (f : A → M B) :
  spec P Q1 m → (∀ a, Q1 a → spec P Q (f a)) → spec P Q (bind m f).
Proof.
  intros Hm Hf w. unfold bind.
  destruct (Hm w) as (d1 & Hc1 & Hd1 & Hq1).
  destruct (m w) as [[a|e] w1]; simpl in *.
  - destruct (Hf a (Hq1 a eq_refl) w1) as (d2 & Hc2 & Hd2 & Hq2).
    exists (d1 ++ d2)%list. rewrite Hc2, Hc1, app_assoc. repeat split; [|done].
    by apply Forall_app.
  - exists d1. repeat split; done.
Qed.

Lemma spec_try {A} (P : Call → Prop) (Q : A → Prop) (m : M A) :
  spec P Q m →
  spec P (fun r => match r with Ok a => Q a | Err _ => True end) (try m).
Proof.
  intros Hm w. unfold try. destruct (Hm w) as (d & Hc & Hd & Hq).
  destruct (m w) as [r w1]; simpl in *. exists d. repeat split; try done.
  intros ? [= <-]. destruct r; auto.
Qed.

Lemma spec_weaken {A} (P P' : Call → Prop) (Q Q' : A → Prop) (m : M A) :
  spec P Q m → (∀ c, P c → P' c) → (∀ a, Q a → Q' a) → spec P' Q' m.
Proof.
  intros Hm HP HQ w. destruct (Hm w) as (d & Hc & Hd & Hq). exists d.
  repeat split; [done| |by auto]. eapply Forall_impl; eauto.
Qed.

(** Functions that only look at the world or add to its logs and
    events. *)
Lemma spec_silent {A} (P : Call → Prop) (Q : A → Prop) (m : M A) :
  (∀ w, calls (snd (m w)) = calls w) → (∀ w a, fst (m w) = Ok a → Q a) → spec P Q m.
Proof.
  intros Hc Hq w. exists []. rewrite app_nil_r. repeat split; eauto.
Qed.

Lemma spec_log_Info (P : Call → Prop) msg kv : spec P (fun _ => True) (log.Info msg kv).
Proof. by apply spec_silent. Qed.

Lemma spec_log_Error (P : Call → Prop) e msg kv : spec P (fun _ => True) (log.Error e msg kv).
Proof. by apply spec_silent. Qed.

Lemma spec_emit (P : Call → Prop) ev : spec P (fun _ => True) (emit ev).
Proof. by apply spec_silent. Qed.

Lemma spec_store (P : Call → Prop) cl c : spec P (fun _ => True) (client.store cl c).
Proof. apply spec_silent; [|done]. intros w. by destruct cl. Qed.

Lemma spec_Sleep (P : Call → Prop) d : spec P (fun _ => True) (Sleep d).
Proof. apply spec_silent; [|done]. intros w. apply Sleep_outputs. Qed.

Lemma spec_call (P : Call → Prop) (c : Call) : P c → spec P (fun _ => True) (client.call c).
Proof.
  intros HP w. exists [c]. unfold client.call. simpl.
  destruct (head (faults w)) as [[msg|]|]; [|destruct (cluster_of (target c) w)..];
    simpl; repeat split; try done; by constructor.
Qed.

Ltac spec_step :=
  lazymatch goal with
  | |- spec _ _ (bind _ _) => eapply spec_bind; [|intros ? ?]
  | |- spec _ _ (try _) => eapply spec_weaken; [apply spec_try| |]
  | |- spec _ _ (ret _) => apply spec_ret
  | |- spec _ _ (fail _) => apply spec_fail
  | |- spec _ _ (log.Info _ _) => eapply spec_weaken; [apply spec_log_Info|auto|auto]
  | |- spec _ _ (log.Error _ _ _) => eapply spec_weaken; [apply spec_log_Error|auto|auto]
  | |- spec _ _ (emit _) => eapply spec_weaken; [apply spec_emit|auto|auto]
  | |- spec _ _ (client.store _ _) => eapply spec_weaken; [apply spec_store|auto|auto]
  | |- spec _ _ (Sleep _) => eapply spec_weaken; [apply spec_Sleep|auto|auto]
  | |- spec _ _ (client.call _) => eapply spec_weaken; [apply spec_call| |]
  | |- spec _ _ (match ?x with _ => _ end) => destruct x eqn:?
  | |- spec _ _ (if ?b then _ else _) => destruct b eqn:?
  | |- spec _ _ (let '(_, _) := ?x in _) => destruct x eqn:?
  end.

Lemma spec_Get `{ApiObject T} (P : Call → Prop) (cl : ClientRef) (ns n : string) :
  P (mkCall VGet cl kind ns n) → spec P (fun _ : T => True) (client.Get cl ns n).
Proof.
  intros HP. unfold client.Get.
  eapply spec_bind; [by apply spec_call|]. intros c _.
  destruct (objects c !! (ns, n)); [by apply spec_ret | apply spec_fail].
Qed.

Lemma spec_Create `{ApiObject T} (P : Call → Prop) (cl : ClientRef) (obj : T) :
  P (mkCall VCreate cl kind (fst (key_of obj)) (snd (key_of obj))) →
  spec P (fun _ => True) (client.Create cl obj).
Proof.
  intros HP. unfold client.Create.
  eapply spec_bind; [by apply spec_call|]. intros c _.
  destruct (objects c !! key_of obj); [apply spec_fail | apply spec_store].
Qed.

Lemma spec_Update `{ApiObject T} (P : Call → Prop) (cl : ClientRef) (obj : T) :
  P (mkCall VUpdate cl kind (fst (key_of obj)) (snd (key_of obj))) →
  spec P (fun _ => True) (client.Update cl obj).
Proof.
  intros HP. unfold client.Update.
  eapply spec_bind; [by apply spec_call|]. intros c _.
  destruct (objects c !! key_of obj); [|apply spec_fail].
  eapply spec_bind; [apply spec_store|]. intros _ _. by apply spec_ret.
Qed.

Lemma spec_List `{ApiObject T} (P : Call → Prop) (cl : ClientRef) sel :
  P (mkCall VList cl kind "" "") →
  spec P (fun _ : list T => True) (client.List cl sel).
Proof.
  intros HP. unfold client.List.
  eapply spec_bind; [by apply spec_call|]. intros c _. by apply spec_ret.
Qed.

Lemma spec_SecretsGet (cl : ClientRef) (ns n : string) :
  spec (on cl) (fun _ => True) (remotesecret.SecretsGet cl ns n).
Proof.
  unfold remotesecret.SecretsGet. destruct (n =? "")%string; [apply spec_fail|].
  by apply spec_Get.
Qed.

Lemma spec_waitOperation (cl : ClientRef) (st : remotesecret.WaitState) :
  spec (on cl) (fun _ => True) (remotesecret.waitOperation cl st).
Proof.
  destruct st as [[secret ca] token]. unfold remotesecret.waitOperation.
  eapply spec_bind; [apply spec_try, spec_SecretsGet|]. intros [s|e] _.
  - destruct (remotesecret.tokenDataFromSecret s) as [[ca' token']|e]; by apply spec_ret.
  - by apply spec_ret.
Qed.

Lemma spec_doRetry {St} (P : Call → Prop) (operation : St → M (St * option Error))
    (fuel : nat) (b : backoff.BackOff) (s : St) :
  (∀ s, spec P (fun _ => True) (operation s)) →
  spec P (fun _ => True) (backoff.doRetry fuel operation b s).
Proof.
  intros Hop. revert b s. induction fuel as [|fuel IH]; intros b s; simpl.
  - eapply spec_bind; [apply Hop|]. intros [s' [err|]] _; [|by apply spec_ret].
    destruct (backoff.NextBackOff b) as [[next|] b']; by apply spec_ret.
  - eapply spec_bind; [apply Hop|]. intros [s' [err|]] _; [|by apply spec_ret].
    destruct (backoff.NextBackOff b) as [[next|] b']; [|by apply spec_ret].
    eapply spec_bind; [apply spec_Sleep|]. intros _ _. apply IH.
Qed.

Lemma spec_waitForTokenData (cl : ClientRef) (secret : Secret) :
  spec (on cl) (fun _ => True) (remotesecret.waitForTokenData cl secret).
Proof.
  unfold remotesecret.waitForTokenData.
  destruct (remotesecret.tokenDataFromSecret secret) as [[ca token]|e]; [by apply spec_ret|].
  eapply spec_bind; [apply spec_log_Info|]. intros _ _.
  eapply spec_bind; [apply spec_doRetry, spec_waitOperation|].
  intros [[[s ca] token] [err|]] _; [apply spec_fail | by apply spec_ret].
Qed.

Lemma createRemoteServiceAccountSecret_name (kubeconfig : ApiConfig)
    (clusterName secName : string) (s : Secret) :
  remotesecret.createRemoteServiceAccountSecret kubeconfig clusterName secName = Ok s →
  Name (secretMeta s) = secName.
Proof.
  unfold remotesecret.createRemoteServiceAccountSecret.
  destruct (Encode kubeconfig); [|done]. by intros [= <-].
Qed.

Lemma spec_lift_secret (P : Call → Prop) (kubeconfig : ApiConfig)
    (clusterName secName : string) :
  spec P (fun s => Name (secretMeta s) = secName)
    (remotesecret.lift
       (remotesecret.createRemoteServiceAccountSecret kubeconfig clusterName secName)).
Proof.
  destruct (remotesecret.createRemoteServiceAccountSecret _ _ _) as [s|e] eqn:Hs; simpl.
  - apply spec_ret. by eapply createRemoteServiceAccountSecret_name.
  - apply spec_fail.
Qed.

Lemma spec_createRemoteSecretFromTokenAndServer (cl : ClientRef) (tokenSecret : Secret)
    (clusterName server secName : string) :
  spec (on cl) (fun s => Name (secretMeta s) = secName)
    (remotesecret.createRemoteSecretFromTokenAndServer cl tokenSecret clusterName server
       secName).
Proof.
  unfold remotesecret.createRemoteSecretFromTokenAndServer.
  eapply spec_bind; [apply spec_waitForTokenData|]. intros [ca token] _.
  destruct (Validate _); [apply spec_fail | apply spec_lift_secret].
Qed.

Lemma spec_createRemoteSecretFromPlugin (P : Call → Prop) (tokenSecret : Secret)
    (server clusterName secName : string) (ap : AuthProviderConfig) :
  spec P (fun s => Name (secretMeta s) = secName)
    (remotesecret.createRemoteSecretFromPlugin tokenSecret server clusterName secName ap).
Proof.
  unfold remotesecret.createRemoteSecretFromPlugin.
  destruct (Data tokenSecret !! _); [|apply spec_fail].
  destruct (Validate _); [apply spec_fail | apply spec_lift_secret].
Qed.

Lemma spec_getOrCreateServiceAccount (cl : ClientRef) (opt : remotesecret.RemoteSecretOptions) :
  spec (on cl) (fun _ => True) (remotesecret.getOrCreateServiceAccount cl opt).
Proof.
  unfold remotesecret.getOrCreateServiceAccount.
  eapply spec_bind; [by apply spec_try, spec_Get|]. intros [sa|e] _; [by apply spec_ret|].
  destruct (IsNotFound e); apply spec_fail.
Qed.

Lemma spec_legacyGetServiceAccountSecret (sa : ServiceAccount) (cl : ClientRef)
    (opt : remotesecret.RemoteSecretOptions) :
  spec (on cl) (fun _ => True) (remotesecret.legacyGetServiceAccountSecret sa cl opt).
Proof.
  unfold remotesecret.legacyGetServiceAccountSecret.
  destruct (remotesecret.legacySelectSecret sa opt) as [[ns n]|e];
    [apply spec_SecretsGet | apply spec_fail].
Qed.

Lemma spec_getCAcert (P : Call → Prop) (cl : ClientRef) :
  spec P (fun _ => True) (remotesecret.getCAcert cl).
Proof.
  apply spec_silent; [|done]. intros w. unfold remotesecret.getCAcert.
  repeat (match goal with |- context [match ?x with _ => _ end] => destruct x end;
          try done).
Qed.

Lemma spec_getServerFromKubeconfig (P : Call → Prop) (cl : ClientRef) :
  spec P (fun _ => True) (remotesecret.getServerFromKubeconfig cl).
Proof.
  apply spec_silent; [|done]. intros w. unfold remotesecret.getServerFromKubeconfig.
  repeat (match goal with |- context [match ?x with _ => _ end] => destruct x end;
          try done).
Qed.

Lemma spec_getServiceAccountToken (cl : ClientRef) (saName ns : string) :
  spec (on cl) (fun _ => True) (remotesecret.getServiceAccountToken cl saName ns).
Proof.
  unfold remotesecret.getServiceAccountToken.
  eapply spec_bind; [by apply spec_try, spec_call|]. intros [c|e] _; [|apply spec_fail].
  destruct (serviceAccounts c !! _); [by apply spec_ret | apply spec_fail].
Qed.

Lemma spec_getOrCreateServiceAccountSecret (sa : ServiceAccount) (cl : ClientRef)
    (opt : remotesecret.RemoteSecretOptions) :
  spec (on cl) (fun _ => True) (remotesecret.getOrCreateServiceAccountSecret sa cl opt).
Proof.
  unfold remotesecret.getOrCreateServiceAccountSecret.
  eapply spec_bind; [apply spec_try, spec_SecretsGet|]. intros r _.
  eapply spec_bind.
  { instantiate (1 := fun _ => True).
    destruct r as [s|e]; [by apply spec_ret|].
    destruct (negb (IsNotFound e)); [apply spec_fail | by apply spec_ret]. }
  intros _ _.
  match goal with |- spec _ _ (if ?b then _ else _) => destruct b end.
  { eapply spec_bind; [apply spec_log_Info|]. intros _ _. by apply spec_ret. }
  eapply spec_bind; [apply spec_try, spec_getCAcert|]. intros [caCert|e] _; [|apply spec_fail].
  eapply spec_bind; [apply spec_try, spec_getServiceAccountToken|].
  intros [saToken|e] _; [|apply spec_fail].
  eapply spec_bind; [apply spec_log_Info|]. intros _ _.
  match goal with |- spec _ _ (if ?b then _ else _) => destruct b end.
  - eapply spec_bind; [apply spec_log_Info|]. intros _ _.
    eapply spec_bind; [by apply spec_try, spec_Update|].
    intros [u|e] _; [by apply spec_ret | apply spec_fail].
  - eapply spec_bind; [apply spec_log_Info|]. intros _ _.
    eapply spec_bind; [by apply spec_Create|]. intros _ _. by apply spec_ret.
Qed.

Lemma spec_IsAtLeastVersion (cl : ClientRef) (minor : nat) :
  spec (on cl) (fun _ => True) (k8s.IsAtLeastVersion cl minor).
Proof.
  unfold k8s.IsAtLeastVersion, k8s.GetKubernetesVersion.
  eapply spec_bind.
  { apply spec_try. eapply spec_bind; [by apply spec_call|]. intros c _.
    apply spec_ret. instantiate (1 := fun _ => True). done. }
  intros [v|e] _; by apply spec_ret.
Qed.

Lemma spec_getServiceAccountSecret (cl : ClientRef) (opt : remotesecret.RemoteSecretOptions) :
  spec (on cl) (fun _ => True) (remotesecret.getServiceAccountSecret cl opt).
Proof.
  unfold remotesecret.getServiceAccountSecret.
  eapply spec_bind; [apply spec_getOrCreateServiceAccount|]. intros sa _.
  eapply spec_bind; [apply spec_IsAtLeastVersion|]. intros atLeast _.
  destruct (negb atLeast);
    [apply spec_legacyGetServiceAccountSecret | apply spec_getOrCreateServiceAccountSecret].
Qed.

(** The remote secret built for a named cluster has the derived name
    and the namespace of the options; all the calls of the builder go
    to the cluster behind the kubeconfig. *)
Lemma spec_CreateRemoteSecret (opt : remotesecret.RemoteSecretOptions)
    (clusterNamespace : string) (cl : ClientRef) :
  remotesecret.ClusterName opt ≠ "" →
  remotesecret.optType opt = remotesecret.SecretTypeRemote →
  spec (on cl)
    (fun p => Name (secretMeta (fst p))
              = remotesecret.GetRemoteSecretName (remotesecret.ClusterName opt) clusterNamespace
              ∧ Namespace (secretMeta (fst p)) = remotesecret.optNamespace opt)
    (remotesecret.CreateRemoteSecret opt clusterNamespace cl).
Proof.
  intros Hname Htype. unfold remotesecret.CreateRemoteSecret.
  apply String.eqb_neq in Hname. rewrite Hname.
  eapply spec_bind; [apply spec_ret; instantiate (1 := fun o => o = opt); done|].
  intros ? ->. rewrite Htype. simpl (remotesecret.SecretTypeRemote =? _)%string.
  eapply spec_bind.
  { apply spec_ret.
    instantiate (1 := fun p =>
      fst p = remotesecret.GetRemoteSecretName (remotesecret.ClusterName opt) clusterNamespace
      ∧ remotesecret.ClusterName (snd p) = remotesecret.ClusterName opt
      ∧ remotesecret.optNamespace (snd p) = remotesecret.optNamespace opt).
    simpl. by destruct (remotesecret.ServiceAccountName opt =? "")%string. }
  intros [secretName opt'] (Hs & Hc & Hn). simpl in Hs, Hc, Hn. subst secretName.
  eapply spec_bind; [apply spec_try, spec_getServiceAccountSecret|].
  intros [tokenSecret|e] _; [|apply spec_fail].
  eapply spec_bind.
  { instantiate (1 := fun _ => True).
    spec_step; [by apply spec_ret | apply spec_getServerFromKubeconfig]. }
  intros [server warn] _.
  eapply spec_bind.
  { instantiate (1 := fun s => Name (secretMeta s)
      = remotesecret.GetRemoteSecretName (remotesecret.ClusterName opt) clusterNamespace).
    spec_step; [apply spec_createRemoteSecretFromTokenAndServer|].
    spec_step; [apply spec_createRemoteSecretFromPlugin | apply spec_fail]. }
  intros s Hs. apply spec_ret. simpl. by rewrite Hn.
Qed.

Lemma on_remote_no_hub_write (kc : Bytes) (c : Call) : on (Remote kc) c → no_hub_write c.
Proof.
  unfold on, no_hub_write, hub_write. intros ->.
  rewrite bool_decide_eq_false_2 by done. apply andb_false_r.
Qed.

Lemma fake_creator_creates_derived (cd : ClusterDeployment) :
  creates_derived remotesecret.NewFakeRemoteSecretCreator cd.
Proof. intros kc opt. by apply spec_ret. Qed.

Lemma istio_creator_creates_derived (cd : ClusterDeployment) :
  Name (cdMeta cd) ≠ "" →
  creates_derived remotesecret.NewIstioRemoteSecret cd.
Proof.
  intros Hname kc opt. simpl. unfold remotesecret.IstioRemoteSecretCreator_GetRemoteSecret.
  eapply spec_bind.
  { apply spec_try. apply spec_silent with (Q := fun cl => cl = Remote kc).
    - intros w. unfold k8s.NewKubeClientFromKubeconfig. by destruct (remotes w !! kc).
    - intros w a. unfold k8s.NewKubeClientFromKubeconfig.
      destruct (remotes w !! kc); [|done]. by intros [= <-]. }
  intros [kubeClient|e] Hcl.
  2: { eapply spec_bind; [apply spec_log_Error|]. intros _ _. apply spec_fail. }
  subst kubeClient.
  eapply spec_bind.
  { apply spec_try. eapply spec_weaken.
    - by apply (spec_CreateRemoteSecret _ (Namespace (cdMeta cd)) (Remote kc)).
    - apply on_remote_no_hub_write.
    - intros a Ha. exact Ha. }
  intros [[secret warn]|e] Hs.
  2: { eapply spec_bind; [apply spec_log_Error|]. intros _ _. apply spec_fail. }
  simpl in Hs. destruct Hs as [Hn Hns].
  eapply spec_bind.
  { instantiate (1 := fun _ => True).
    destruct warn; [apply spec_log_Info | by apply spec_ret]. }
  intros _ _. apply spec_ret. unfold key_of, derived_key. simpl. by rewrite Hn, Hns.
Qed.

Lemma tspec_of_spec {A} (key : string * string) (Q : A → Prop) (m : M A) :
  spec no_hub_write Q m → tspec (credential_trace key) m.
Proof.
  intros Hm w. destruct (Hm w) as (d & Hc & Hd & _). exists d. split; [done|].
  exists d, []. rewrite app_nil_r. repeat split; [done|]. by left.
Qed.

Lemma tspec_bind_pre {A B} (key : string * string) (Q : A → Prop) (m : M A) (f : A → M B) :
  spec no_hub_write Q m → (∀ a, Q a → tspec (credential_trace key) (f a)) →
  tspec (credential_trace key) (bind m f).
Proof.
  intros Hm Hf w. unfold bind. destruct (Hm w) as (d1 & Hc1 & Hd1 & Hq).
  destruct (m w) as [[a|e] w1]; simpl in *.
  - destruct (Hf a (Hq a eq_refl) w1) as (d2 & Hc2 & pre & post & -> & Hpre & Hpost).
    exists (d1 ++ pre ++ post)%list. rewrite Hc2, Hc1, <- !app_assoc. split; [done|].
    exists (d1 ++ pre)%list, post. rewrite <- app_assoc. repeat split; [|done].
    by apply Forall_app.
  - exists d1. split; [done|]. exists d1, []. rewrite app_nil_r. repeat split; [done|].
    by left.
Qed.

Lemma tspec_bind_post {A B} (S : list Call → Prop) (m : M A) (f : A → M B) :
  tspec S m → (∀ a, spec (fun _ => False) (fun _ => True) (f a)) → tspec S (bind m f).
Proof.
  intros Hm Hf w. unfold bind. destruct (Hm w) as (d1 & Hc1 & Hs).
  destruct (m w) as [[a|e] w1]; simpl in *; [|by exists d1].
  destruct (Hf a w1) as (d2 & Hc2 & Hd2 & _).
  destruct d2 as [|c d2]; [|by inversion Hd2].
  exists d1. rewrite Hc2, app_nil_r. done.
Qed.

Lemma tspec_try {A} (S : list Call → Prop) (m : M A) : tspec S m → tspec S (try m).
Proof.
  intros Hm w. unfold try. destruct (Hm w) as (d & Hc & Hs).
  destruct (m w) as [r w1]. by exists d.
Qed.

(** The runs of [createSecretResource]. *)
Lemma createSecretResource_run (creator : remotesecret.IIstioRemoteSecretCreator)
    (secret : Secret) (cd : ClusterDeployment) (w : World)
    (P : Result unit * World → Prop) :
  let rs := remotesecret.mkRemoteSecretManager Hub creator in
  let key := (Namespace (secretMeta secret), Name (secretMeta secret)) in
  let del := mkCall VDelete Hub "Secret" (fst key) (snd key) in
  let cre := mkCall VCreate Hub "Secret" (fst key) (snd key) in
  (∀ r w', calls w' = (calls w ++ [del; cre])%list →
           (is_ok r = true → secrets (hub w') !! key = Some secret) →
           (faults w = [] → r = Ok tt) →
           P (r, w')) →
  (∀ e w', calls w' = (calls w ++ [del])%list →
           ¬ next_call_succeeds w →
           P (Err e, w')) →
  P (remotesecret.createSecretResource rs secret cd w).
Proof.
  intros rs key del cre HP1 HP2.
  unfold rs, remotesecret.createSecretResource, remotesecret.rsClient.
  unfold next_call_succeeds in *. exec. fold key.
  destruct (faults w) as [|[m1|] [|[m2|] fs]] eqn:Hf; exec;
    destruct (secrets (hub w) !! key) as [s0|] eqn:Hs; exec;
    rewrite ?lookup_delete_eq, ?Hs; exec.
  all: first [ eapply HP2; exec; [rewrite <- ?app_assoc; reflexivity | tauto]
             | eapply HP1; exec;
               [rewrite <- ?app_assoc; reflexivity
               | intros; rewrite ?lookup_insert_eq; done
               | intros; done] ].
Qed.

Lemma tspec_createSecretResource (creator : remotesecret.IIstioRemoteSecretCreator)
    (secret : Secret) (cd : ClusterDeployment) :
  tspec (credential_trace (key_of secret))
    (remotesecret.createSecretResource (remotesecret.mkRemoteSecretManager Hub creator)
       secret cd).
Proof.
  intros w. apply createSecretResource_run.
  - intros r w' Hc _ _. eexists. split; [exact Hc|].
    eexists [], _. split; [reflexivity|]. split; [done|]. right. right. done.
  - intros e w' Hc _. eexists. split; [exact Hc|].
    eexists [], _. split; [reflexivity|]. split; [done|]. right. left. done.
Qed.

Lemma no_hub_write_read (v : Verb) (cl : ClientRef) (k ns n : string) :
  is_write (mkCall v cl k ns n) = false → no_hub_write (mkCall v cl k ns n).
Proof. unfold no_hub_write, hub_write. by intros ->. Qed.

Lemma spec_IsResourceExists `{ApiObject T} (cl : ClientRef) (n ns : string) :
  spec no_hub_write (fun _ => True) (utils.IsResourceExists (T := T) cl n ns).
Proof.
  unfold utils.IsResourceExists.
  eapply spec_bind; [by apply spec_try, spec_Get, no_hub_write_read|].
  intros [o|e] _; [by apply spec_ret|].
  destruct (IsNotFound e); [by apply spec_ret | apply spec_fail].
Qed.

Lemma spec_GetKubeconfigFromSecret (cl : ClientRef) (secretName : string) :
  spec no_hub_write (fun _ => True) (k8s.GetKubeconfigFromSecret cl secretName).
Proof.
  unfold k8s.GetKubeconfigFromSecret, k8s.GetSecret.
  eapply spec_bind; [by apply spec_try, spec_Get, no_hub_write_read|].
  intros [s|e] _; [|apply spec_fail].
  destruct (k8s.GetSecretValue s); [by apply spec_ret | apply spec_fail].
Qed.

Lemma spec_CreatedInKCMRegion (cl : ClientRef) (cd : ClusterDeployment) :
  spec no_hub_write (fun _ => True) (k8s.CreatedInKCMRegion cl cd).
Proof.
  unfold k8s.CreatedInKCMRegion.
  eapply spec_bind; [by apply spec_Get, no_hub_write_read|]. intros cred _.
  destruct (negb _); by apply spec_ret.
Qed.

Lemma spec_GetKcmRegionClusterName (cl : ClientRef) (cd : ClusterDeployment) :
  spec no_hub_write (fun _ => True)
    (k8s.GetKcmRegionClusterNameRelatedToClusterDeployment cl cd).
Proof.
  unfold k8s.GetKcmRegionClusterNameRelatedToClusterDeployment.
  eapply spec_bind; [by apply spec_List, no_hub_write_read|]. intros l _.
  destruct (find _ l); by apply spec_ret.
Qed.

Lemma spec_GetKubeconfigByRegionName (cl : ClientRef) (regionName : string) :
  spec no_hub_write (fun _ => True) (k8s.GetKubeconfigByRegionName cl regionName).
Proof.
  unfold k8s.GetKubeconfigByRegionName, k8s.GetKubeconfigFromClusterDeployment.
  destruct (regionName =? "")%string; [apply spec_fail|].
  eapply spec_bind; [by apply spec_try, spec_Get, no_hub_write_read|].
  intros [region|e] _; [|apply spec_fail].
  destruct (regionClusterDeployment region) as [ref|].
  - eapply spec_bind; [by apply spec_try, spec_Get, no_hub_write_read|].
    intros [cd|e] _; [|apply spec_fail].
    eapply spec_bind; [apply spec_try, spec_GetKubeconfigFromSecret|].
    intros [kc|e] _; [by apply spec_ret | apply spec_fail].
  - destruct (regionKubeConfig region) as [ref|]; [|by apply spec_ret].
    eapply spec_bind; [apply spec_GetKubeconfigFromSecret|]. intros kc _. by apply spec_ret.
Qed.

Lemma spec_NewKubeClientFromKubeconfig (P : Call → Prop) (kc : Bytes) :
  spec P (fun _ => True) (k8s.NewKubeClientFromKubeconfig kc).
Proof.
  apply spec_silent; [|done]. intros w. unfold k8s.NewKubeClientFromKubeconfig.
  by destruct (remotes w !! kc).
Qed.

Lemma tspec_TryCreate (creator : remotesecret.IIstioRemoteSecretCreator)
    (cd : ClusterDeployment) (opt : remotesecret.CreateOptions) :
  creates_derived creator cd →
  tspec (credential_trace (derived_key cd))
    (remotesecret.TryCreate (remotesecret.mkRemoteSecretManager Hub creator) cd opt).
Proof.
  intros Hcreator. unfold remotesecret.TryCreate.
  cbv zeta.
  match goal with
  | |- context [if negb (remotesecret.AllowOverwrite opt) then _ else ?X] =>
      assert (tspec (credential_trace (derived_key cd)) X) as Hbuild
  end.
  { eapply tspec_bind_pre; [apply spec_try, spec_CreatedInKCMRegion|].
    intros [region|e] _; [|apply (tspec_of_spec _ (fun _ => True)), spec_fail].
    eapply tspec_bind_pre.
    { instantiate (1 := fun _ => True). cbn [remotesecret.rsClient]. destruct region.
      - eapply spec_bind; [apply spec_try, spec_GetKcmRegionClusterName|].
        intros [name|e] _; [|apply spec_fail].
        eapply spec_bind; [apply spec_try, spec_GetKubeconfigByRegionName|].
        intros [[kc|]|e] _; [|apply spec_fail..].
        eapply spec_bind; [apply spec_try, spec_NewKubeClientFromKubeconfig|].
        intros [regionclient|e] _; [|apply spec_fail].
        eapply spec_bind; [apply spec_try, spec_GetKubeconfigFromSecret|].
        intros [k|e] _; [by apply spec_ret | apply spec_fail].
      - eapply spec_bind; [apply spec_try, spec_GetKubeconfigFromSecret|].
        intros [k|e] _; [by apply spec_ret | apply spec_fail]. }
    intros kubeconfig _.
    eapply tspec_bind_pre; [apply spec_try, Hcreator|].
    intros [remoteSecret|e] Hkey; [|apply (tspec_of_spec _ (fun _ => True)), spec_fail].
    cbn [remotesecret.creator remotesecret.rsClient]. rewrite <- Hkey.
    eapply tspec_bind_post; [apply tspec_try, tspec_createSecretResource|].
    intros [[]|e].
    - unfold remotesecret.sendCreationEvent, record.Eventf.
      eapply spec_bind; [apply spec_emit|]. intros _ _.
      eapply spec_bind; [apply spec_log_Info|]. intros _ _. by apply spec_ret.
    - eapply spec_bind; [apply spec_log_Error|]. intros _ _. apply spec_fail. }
  eapply tspec_bind_pre; [apply spec_log_Info|]. intros _ _.
  destruct (negb (utils.IsClusterDeploymentReady cd)).
  { apply (tspec_of_spec _ (fun _ => True)). eapply spec_bind; [apply spec_log_Info|]. intros _ _.
    by apply spec_ret. }
  destruct (negb (remotesecret.AllowOverwrite opt)); [|exact Hbuild].
  eapply tspec_bind_pre; [apply spec_try, spec_IsResourceExists|].
  intros [[|]|e] _; [|exact Hbuild|apply (tspec_of_spec _ (fun _ => True)), spec_fail].
  apply (tspec_of_spec _ (fun _ => True)). eapply spec_bind; [apply spec_log_Info|]. intros _ _.
  by apply spec_ret.
Qed.

Lemma Get_hub_found `{ApiObject T} (ns n : string) (obj : T) (w : World) :
  objects (hub w) !! (ns, n) = Some obj →
  client.Get (T := T) Hub ns n w = (Ok obj, called (mkCall VGet Hub kind ns n) w)
  ∨ ∃ msg, client.Get (T := T) Hub ns n w
           = (Err (StatusError ReasonInternalError msg), called (mkCall VGet Hub kind ns n) w).
Proof.
  intros Hobj. unfold client.Get, client.call, bind, called. simpl.
  destruct (head (faults w)) as [[msg|]|]; [by eauto| |]; rewrite Hobj; by left.
Qed.

Lemma spec_ret_any {A} (P : Call → Prop) (a : A) : spec P (fun _ => True) (ret a).
Proof. by apply spec_ret. Qed.

Lemma spec_LogEvent (P : Call → Prop) reason message obj err kv :
  spec P (fun _ => True) (utils.LogEvent reason message obj err kv).
Proof. apply spec_silent; [|done]. intros w. by destruct err. Qed.

Lemma spec_tryCreateResources_not_ready (creator : remotesecret.IIstioRemoteSecretCreator)
    (req : Request) (cd : ClusterDeployment) :
  utils.IsClusterDeploymentReady cd = false →
  spec (fun c => c ∈ not_ready_calls cd) (fun _ => True)
    (controller.tryCreateResources
       (controller.mkReconciler Hub (remotesecret.mkRemoteSecretManager Hub creator)
          (cert.New Hub) (multicluster.New Hub)) req cd).
Proof.
  intros Hnr. unfold controller.tryCreateResources.
  cbn [controller.RemoteSecretManager controller.IstioCertManager
       controller.RemoteSecretPropagationManager].
  eapply spec_bind.
  { apply spec_try. unfold remotesecret.TryCreate. cbv zeta. rewrite Hnr. simpl negb. cbv iota.
    eapply spec_bind; [apply spec_log_Info|]. intros _ _.
    eapply spec_bind; [apply spec_log_Info|]. intros _ _.
    apply spec_ret_any. }
  intros [[]|e] _.
  2: { eapply spec_bind; [apply spec_LogEvent|]. intros _ _. apply spec_fail. }
  eapply spec_bind.
  { apply spec_try. unfold cert.TryCreate, cert.createCertificate, cert.sendCreationEvent,
      record.Eventf.
    rewrite Hnr. simpl negb. cbv iota.
    eapply spec_bind; [apply spec_log_Info|]. intros _ _.
    eapply spec_bind.
    { apply spec_try.
      eapply spec_bind; [apply spec_log_Info|]. intros _ _.
      eapply spec_bind.
      { apply spec_try, spec_Create. unfold not_ready_calls. simpl. set_solver. }
      intros [[]|e] _.
      - eapply spec_bind; [apply spec_emit|]. intros _ _. apply spec_ret_any.
      - destruct (IsAlreadyExists e); [|apply spec_fail].
        eapply spec_bind; [apply spec_log_Info|]. intros _ _. apply spec_ret_any. }
    intros [[]|e] _; [|apply spec_fail].
    eapply spec_bind; [apply spec_log_Info|]. intros _ _. apply spec_ret_any. }
  intros [[]|e] _.
  2: { eapply spec_bind; [apply spec_LogEvent|]. intros _ _. apply spec_fail. }
  eapply spec_bind.
  { apply spec_try. unfold multicluster.TryCreate, multicluster.multiClusterServiceExists,
      multicluster.createMultiClusterService, multicluster.sendCreationEvent, record.Eventf,
      utils.IsResourceExists.
    eapply spec_bind.
    { apply spec_try. eapply spec_bind.
      { apply spec_try, spec_Get. unfold not_ready_calls. simpl. set_solver. }
      intros [o|e] _; [apply spec_ret_any|].
      destruct (IsNotFound e); [apply spec_ret_any | apply spec_fail]. }
    intros [[|]|e] _; [| |apply spec_fail].
    - eapply spec_bind; [apply spec_log_Info|]. intros _ _. apply spec_ret_any.
    - eapply spec_bind; [apply spec_log_Info|]. intros _ _.
      eapply spec_bind.
      { apply spec_try. eapply spec_bind.
        { apply spec_try, spec_Create. unfold not_ready_calls. simpl. set_solver. }
        intros [[]|e] _; [apply spec_ret_any|].
        destruct (IsAlreadyExists e); [apply spec_ret_any | apply spec_fail]. }
      intros [[]|e] _; [|apply spec_fail].
      eapply spec_bind; [apply spec_emit|]. intros _ _.
      eapply spec_bind; [apply spec_log_Info|]. intros _ _. apply spec_ret_any. }
  intros [[]|e] _.
  2: { eapply spec_bind; [apply spec_LogEvent|]. intros _ _. apply spec_fail. }
  apply spec_ret_any.
Qed.

Lemma reconcile_not_ready_calls (creator : remotesecret.IIstioRemoteSecretCreator)
    (req : Request) (cd : ClusterDeployment) (w : World) :
  let r := controller.mkReconciler Hub (remotesecret.mkRemoteSecretManager Hub creator)
             (cert.New Hub) (multicluster.New Hub) in
  clusterDeployments (hub w) !! (reqNamespace req, reqName req) = Some cd →
  utils.IsClusterDeploymentReady cd = false →
  ∃ rest, calls_of (controller.Reconcile r req) w
          = mkCall VGet Hub "ClusterDeployment" (reqNamespace req) (reqName req) :: rest
          ∧ Forall (fun c => c ∈ not_ready_calls cd) rest.
Proof.
  intros r Hcd Hnr. unfold calls_of, after, controller.Reconcile, bind, try.
  cbn [controller.Client r].
  destruct (Get_hub_found (H := ClusterDeployment_resource) (reqNamespace req) (reqName req) cd w Hcd)
    as [-> | [msg ->]].
  - destruct (spec_tryCreateResources_not_ready creator req cd Hnr
                (called (mkCall VGet Hub "ClusterDeployment" (reqNamespace req) (reqName req)) w))
      as (d & Hc & Hd & _).
    exists d. split; [|done]. fold r in Hc. cbv beta iota. cbn [kind ClusterDeployment_resource] in *.
    rewrite Hc. simpl.
    rewrite <- app_assoc. by rewrite drop_app_length.
  - exists []. split; [|done]. simpl. by rewrite drop_app_length.
Qed.

End logic.

(** ** The managers *)

Section managers.
Context {cfg : Config} {ext : Externals}.

(** C2, as the code has it.  When the certificate is already absent
    (and the backend does not fail), [CertManager.TryDelete] returns
    success after its first call, the delete of the certificate: it
    issues no delete of the descriptor that propagates the CA
    certificate and leaves the management cluster as it was, so a
    descriptor that still exists stays. *)
Theorem cert_delete_stops_at_absent_certificate (req : Request) (w : World) :
  certificates (hub w)
    !! (IstioSystemNamespace, cert.GetCertName (reqName req) (reqNamespace req)) = None →
  next_call_succeeds w →
  result (cert.TryDelete (cert.New Hub) req) w = Ok tt
  ∧ hub (after (cert.TryDelete (cert.New Hub) req) w) = hub w
  ∧ calls_of (cert.TryDelete (cert.New Hub) req) w
    = [mkCall VDelete Hub "Certificate" IstioSystemNamespace
         (cert.GetCertName (reqName req) (reqNamespace req))].
Proof.
  intros Habs Hnf. apply next_call_cases in Hnf.
  assert (∀ P : Result unit * World → Prop,
            (∀ w', hub w' = hub w →
                   calls w' = (calls w ++ [mkCall VDelete Hub "Certificate" IstioSystemNamespace
                      (cert.GetCertName (reqName req) (reqNamespace req))])%list →
                   P (Ok tt, w')) →
            P (cert.TryDelete (cert.New Hub) req w)) as Hrun.
  { intros P HP. unfold cert.TryDelete, cert.New, cert.k8sClient. exec.
    destruct Hnf as [-> | ->]; exec; rewrite Habs; exec; apply HP; done. }
  repeat split.
  - unfold result. apply Hrun. done.
  - unfold after. apply Hrun. done.
  - apply calls_of_app. unfold after. apply Hrun. done.
Qed.

(** C4, as the code has it.  Without the overwrite option,
    [RemoteSecretManager.TryCreate] creates nothing when the cluster is
    not ready or a remote secret with the derived name exists: it
    issues no write call and leaves the clusters as they were.  When
    the cluster is not ready it returns success without any API call.
    When the cluster is ready and the secret exists, its one call is
    the read that checks the existence of the secret: it returns
    success unless that read fails, and then the error [failed to
    check remote secret] with the failure of the read. *)
Theorem build_credential_skips (creator : remotesecret.IIstioRemoteSecretCreator)
    (cd : ClusterDeployment) (opt : remotesecret.CreateOptions) (w : World) :
  let rs := remotesecret.mkRemoteSecretManager Hub creator in
  remotesecret.AllowOverwrite opt = false →
  utils.IsClusterDeploymentReady cd = false
  ∨ is_Some (secrets (hub w)
       !! (IstioSystemNamespace,
           remotesecret.GetRemoteSecretName (Name (cdMeta cd)) (Namespace (cdMeta cd)))) →
  hub (after (remotesecret.TryCreate rs cd opt) w) = hub w
  ∧ remotes (after (remotesecret.TryCreate rs cd opt) w) = remotes w
  ∧ Forall (fun c => is_write c = false) (calls_of (remotesecret.TryCreate rs cd opt) w)
  ∧ (utils.IsClusterDeploymentReady cd = false ∨ next_call_succeeds w →
     result (remotesecret.TryCreate rs cd opt) w = Ok tt)
  ∧ (utils.IsClusterDeploymentReady cd = false →
     calls_of (remotesecret.TryCreate rs cd opt) w = [])
  ∧ (utils.IsClusterDeploymentReady cd = true →
     calls_of (remotesecret.TryCreate rs cd opt) w
     = [mkCall VGet Hub "Secret" IstioSystemNamespace
          (remotesecret.GetRemoteSecretName (Name (cdMeta cd)) (Namespace (cdMeta cd)))]
     ∧ ∀ msg, head (faults w) = Some (Some msg) →
         result (remotesecret.TryCreate rs cd opt) w
         = Err (Errorf "failed to check remote secret"
                  (StatusError ReasonInternalError msg))).
Proof.
  intros rs Hov Hcase.
  assert (∀ P : Result unit * World → Prop,
            (∀ r w' d, hub w' = hub w → remotes w' = remotes w →
                       calls w' = (calls w ++ d)%list →
                       Forall (fun c => is_write c = false) d →
                       (utils.IsClusterDeploymentReady cd = false ∨ next_call_succeeds w →
                        r = Ok tt) →
                       (utils.IsClusterDeploymentReady cd = false → d = []) →
                       (utils.IsClusterDeploymentReady cd = true →
                        d = [mkCall VGet Hub "Secret" IstioSystemNamespace
                               (remotesecret.GetRemoteSecretName (Name (cdMeta cd))
                                  (Namespace (cdMeta cd)))]
                        ∧ ∀ msg, head (faults w) = Some (Some msg) →
                            r = Err (Errorf "failed to check remote secret"
                                       (StatusError ReasonInternalError msg))) →
                       P (r, w')) →
            P (remotesecret.TryCreate rs cd opt w)) as Hrun.
  { intros P HP. unfold rs, remotesecret.TryCreate, remotesecret.remoteSecretExists,
      remotesecret.rsClient.
    destruct (utils.IsClusterDeploymentReady cd) eqn:Hready.
    - destruct Hcase as [?|[s Hs]]; [done|].
      rewrite Hov. unfold next_call_succeeds in *. exec.
      destruct (head (faults w)) as [[msg|]|]; exec; rewrite ?Hs; exec.
      all: eapply HP; exec; try done.
      all: try (by repeat constructor).
      all: try (intros [?|?]; done).
      all: intros _; split; [done|]; by intros ? [= <-].
    - exec. apply (HP _ _ []); exec; try done. by rewrite app_nil_r. }
  repeat split.
  - unfold after. apply Hrun. done.
  - unfold after. apply Hrun. done.
  - unfold calls_of, after. apply Hrun. intros r w' d _ _ Hc Hd _ _ _. simpl.
    by rewrite Hc, drop_app_length.
  - intros Hok. unfold result. apply Hrun. intros r w' d _ _ _ _ Hr _ _. simpl. auto.
  - intros Hnr. unfold calls_of, after. apply Hrun. intros r w' d _ _ Hc _ _ Hd _. simpl.
    rewrite Hc, drop_app_length. auto.
  - unfold calls_of, after. apply Hrun. intros r w' d _ _ Hc _ _ _ Hd. simpl.
    rewrite Hc, drop_app_length. by apply Hd.
  - intros msg Hf. unfold result. apply Hrun. intros r w' d _ _ _ _ _ _ Hd. simpl.
    destruct (Hd H) as [_ He]. by apply He.
Qed.

(** C5. The credential builder writes the remote secret to the
    management cluster in [createSecretResource] only: it first issues
    a delete of the secret by its namespace and name and then, unless
    the delete failed for another reason than not-found, a create of
    the secret; when it succeeds the cluster holds exactly the secret
    given.  For a creator that returns the secret under the derived
    name (as both creators of the sources do) the calls of a whole run
    of [TryCreate], whatever the world and the failures, are calls
    that do not write to the management cluster followed by nothing,
    by that delete, or by that delete and then that create of the
    secret with the derived name: never an update or a patch. *)
Theorem secret_is_deleted_then_created (creator : remotesecret.IIstioRemoteSecretCreator)
    (secret : Secret) (cd : ClusterDeployment) (opt : remotesecret.CreateOptions) (w : World) :
  let rs := remotesecret.mkRemoteSecretManager Hub creator in
  let m := remotesecret.createSecretResource rs secret cd in
  let key := (Namespace (secretMeta secret), Name (secretMeta secret)) in
  let del := mkCall VDelete Hub "Secret" (fst key) (snd key) in
  let cre := mkCall VCreate Hub "Secret" (fst key) (snd key) in
  (calls_of m w = [del; cre] ∨ (calls_of m w = [del] ∧ is_ok (result m w) = false))
  ∧ (is_ok (result m w) = true →
     calls_of m w = [del; cre] ∧ secrets (hub (after m w)) !! key = Some secret)
  ∧ (next_call_succeeds w → calls_of m w = [del; cre])
  ∧ (faults w = [] → result m w = Ok tt)
  ∧ (creates_derived creator cd →
     credential_trace (derived_key cd) (calls_of (remotesecret.TryCreate rs cd opt) w))
  ∧ creates_derived remotesecret.NewFakeRemoteSecretCreator cd
  ∧ (Name (cdMeta cd) ≠ "" → creates_derived remotesecret.NewIstioRemoteSecret cd).
Proof.
  intros rs m key del cre.
  split; [|split; [|split; [|split; [|split; [|split]]]]].
  - unfold calls_of, result, after. apply createSecretResource_run.
    + intros r' w' Hc _ _. simpl. rewrite Hc, drop_app_length. by left.
    + intros e w' Hc _. simpl. rewrite Hc, drop_app_length. by right.
  - intros Hok. unfold calls_of, result, after in *. revert Hok.
    apply createSecretResource_run.
    + intros r' w' Hc Hs _ Hok. simpl in *. rewrite Hc, drop_app_length. auto.
    + intros e w' _ _. simpl. done.
  - intros Hnf. unfold calls_of, after. apply createSecretResource_run.
    + intros r' w' Hc _ _. simpl. by rewrite Hc, drop_app_length.
    + intros e w' _ Hn. done.
  - intros Hf. unfold result. apply createSecretResource_run.
    + intros r' w' _ _ Hr. simpl. auto.
    + intros e w' _ Hn. exfalso. apply Hn. unfold next_call_succeeds. by rewrite Hf.
  - intros Hcreator.
    destruct (tspec_TryCreate creator cd opt Hcreator w) as (d & Hc & Hd).
    unfold calls_of, after, rs. by rewrite Hc, drop_app_length.
  - apply fake_creator_creates_derived.
  - apply istio_creator_creates_derived.
Qed.

(** C1, as the code has it.  For a cluster deployment that is in the
    store and lacks the readiness condition, a reconciliation reads
    the cluster deployment and then issues, whatever fails, no other
    call than the create of the CA request and the read and the create
    of the descriptor that propagates the remote secret: nothing about
    a secret, nothing about the descriptor that propagates the CA
    certificate.  When no backend call fails it succeeds, leaves the
    secrets and that descriptor as they were, makes the CA request
    exist (creating the generated one when it was absent), and makes
    the descriptor that propagates the remote secret exist (creating
    it when it was absent): the propagation manager does not look at
    readiness. *)
Theorem reconcile_not_ready (creator : remotesecret.IIstioRemoteSecretCreator)
    (req : Request) (cd : ClusterDeployment) (w : World) :
  let r := controller.mkReconciler Hub (remotesecret.mkRemoteSecretManager Hub creator)
             (cert.New Hub) (multicluster.New Hub) in
  let certKey := (IstioSystemNamespace,
                  cert.GetCertName (Name (cdMeta cd)) (Namespace (cdMeta cd))) in
  let caKey := ("", cert.GetCertNameHash (Name (cdMeta cd)) (Namespace (cdMeta cd))) in
  let mcsKey := ("", multicluster.GetMultiClusterServiceName (Name (cdMeta cd))
                       (Namespace (cdMeta cd))) in
  clusterDeployments (hub w) !! (reqNamespace req, reqName req) = Some cd →
  utils.IsClusterDeploymentReady cd = false →
  (∃ rest, calls_of (controller.Reconcile r req) w
           = mkCall VGet Hub "ClusterDeployment" (reqNamespace req) (reqName req) :: rest
           ∧ Forall (fun c => c ∈ not_ready_calls cd) rest)
  ∧ (faults w = [] →
     result (controller.Reconcile r req) w = Ok tt
     ∧ secrets (hub (after (controller.Reconcile r req) w)) = secrets (hub w)
     ∧ certificates (hub (after (controller.Reconcile r req) w)) !! certKey
       = Some (default (cert.generateClusterCACertificate (cert.New Hub) cd)
                 (certificates (hub w) !! certKey))
     ∧ multiClusterServices (hub (after (controller.Reconcile r req) w)) !! caKey
       = multiClusterServices (hub w) !! caKey
     ∧ multiClusterServices (hub (after (controller.Reconcile r req) w)) !! mcsKey
       = Some (default (multicluster.remoteSecretMultiClusterService cd)
                 (multiClusterServices (hub w) !! mcsKey))).
Proof.
  intros r certKey caKey mcsKey Hcd Hnr.
  split; [by apply reconcile_not_ready_calls|]. intros Hf.
  assert (∀ P : Result unit * World → Prop,
            (∀ w',
               secrets (hub w') = secrets (hub w) →
               certificates (hub w') !! certKey
                 = Some (default (cert.generateClusterCACertificate (cert.New Hub) cd)
                           (certificates (hub w) !! certKey)) →
               multiClusterServices (hub w') !! caKey = multiClusterServices (hub w) !! caKey →
               multiClusterServices (hub w') !! mcsKey
                 = Some (default (multicluster.remoteSecretMultiClusterService cd)
                           (multiClusterServices (hub w) !! mcsKey)) →
               P (Ok tt, w')) →
            P (controller.Reconcile r req w)) as Hrun.
  { intros P HP.
    unfold r, controller.Reconcile, controller.tryCreateResources, remotesecret.TryCreate,
      cert.TryCreate, multicluster.TryCreate, cert.createCertificate,
      multicluster.multiClusterServiceExists, multicluster.createMultiClusterService,
      cert.sendCreationEvent, multicluster.sendCreationEvent,
      controller.Client, controller.RemoteSecretManager, controller.IstioCertManager,
      controller.RemoteSecretPropagationManager, cert.New, multicluster.New,
      cert.k8sClient, multicluster.mClient.
    exec. rewrite Hf. exec. rewrite Hcd. exec. rewrite Hnr. exec.
    change (Namespace (certMeta (cert.generateClusterCACertificate {| cert.k8sClient := Hub |} cd)))
      with IstioSystemNamespace.
    change (Name (certMeta (cert.generateClusterCACertificate {| cert.k8sClient := Hub |} cd)))
      with (cert.GetCertName (Name (cdMeta cd)) (Namespace (cdMeta cd))).
    change (Namespace (mcsMeta (multicluster.remoteSecretMultiClusterService cd))) with "".
    change (Name (mcsMeta (multicluster.remoteSecretMultiClusterService cd)))
      with (multicluster.GetMultiClusterServiceName (Name (cdMeta cd)) (Namespace (cdMeta cd))).
    fold certKey mcsKey.
    assert (caKey ≠ mcsKey) as Hne.
    { unfold caKey, mcsKey. intros E.
      apply (propagation_names_differ _ _ _ _ (f_equal snd E)). }
    destruct (certificates (hub w) !! certKey) as [c0|] eqn:Hc; exec;
      destruct (multiClusterServices (hub w) !! mcsKey) as [m0|] eqn:Hm; exec;
      rewrite ?Hm; exec.
    all: eapply HP; exec; try reflexivity.
    all: rewrite ?lookup_insert_eq, ?Hc, ?Hm; try done.
    all: rewrite lookup_insert_ne by done; done. }
  repeat split.
  - unfold result. apply Hrun. done.
  - unfold after. apply Hrun. done.
  - unfold after. apply Hrun. done.
  - unfold after. apply Hrun. done.
  - unfold after. apply Hrun. done.
Qed.

End managers.

(** ** The remote-secret builder *)

Section builder.
Context {cfg : Config} {ext : Externals}.


(** *** Waiting for the token data *)

(** *** The log does not matter to reads and waits *)

Lemma apply_env_logs (a : EnvAction) (l : list LogEntry) (w : World) :
  apply_env a (set_logs l w) = set_logs l (apply_env a w).
Proof.
  destruct a as [cl s | cl ns n]; simpl;
    (replace (cluster_of cl (set_logs l w)) with (cluster_of cl w) by (by destruct cl));
    (destruct (cluster_of cl w); [|done]); by destruct cl.
Qed.

Lemma apply_envs_logs (acts : list EnvAction) (l : list LogEntry) (w : World) :
  foldl (fun w a => apply_env a w) (set_logs l w) acts
  = set_logs l (foldl (fun w a => apply_env a w) w acts).
Proof.
  revert w. induction acts as [|a acts IH]; intros w; simpl; [done|].
  by rewrite apply_env_logs, IH.
Qed.

Lemma Sleep_logs (d : Z) (l : list LogEntry) (w : World) :
  after (Sleep d) (set_logs l w) = set_logs l (after (Sleep d) w).
Proof.
  unfold after, Sleep. simpl. destruct (future w) as [|acts rest]; simpl; [done|].
  exact (apply_envs_logs acts l (set_future rest (set_slept (slept w ++ [d]) w))).
Qed.

Lemma SecretsGet_logs (cl : ClientRef) (namespace name : string) (l : list LogEntry)
    (w : World) :
  remotesecret.SecretsGet cl namespace name (set_logs l w)
  = (result (remotesecret.SecretsGet cl namespace name) w,
     set_logs l (after (remotesecret.SecretsGet cl namespace name) w)).
Proof.
  unfold result, after, remotesecret.SecretsGet.
  destruct (name =? "")%string; [done|].
  unfold client.Get, client.call, bind. simpl.
  replace (cluster_of cl (set_logs l w)) with (cluster_of cl w) by (by destruct cl).
  destruct (head (faults w)) as [[msg|]|]; [done|..];
    (destruct (cluster_of cl w) as [c|]; [|done]);
    by destruct (secrets c !! (namespace, name)).
Qed.

Lemma at_reread_logs (cl : ClientRef) (namespace name : string) (i : nat)
    (l : list LogEntry) (w : World) :
  at_reread cl namespace name i (set_logs l w)
  = set_logs l (at_reread cl namespace name i w).
Proof.
  revert w. induction i as [|i IH]; intros w; simpl; [done|].
  rewrite <- IH. f_equal.
  change (called (mkCall VGet cl "Secret" namespace name) (set_logs l w))
    with (set_logs l (called (mkCall VGet cl "Secret" namespace name) w)).
  apply Sleep_logs.
Qed.

Lemma reread_answer_logs (cl : ClientRef) (namespace name : string) (l : list LogEntry)
    (w : World) (i : nat) :
  reread_answer cl namespace name (set_logs l w) i = reread_answer cl namespace name w i.
Proof.
  unfold reread_answer. rewrite at_reread_logs. unfold result at 1.
  by rewrite SecretsGet_logs.
Qed.

(** *** One re-read *)

Lemma SecretsGet_run (cl : ClientRef) (namespace name : string) (w : World) :
  name ≠ "" →
  after (remotesecret.SecretsGet cl namespace name) w
  = called (mkCall VGet cl "Secret" namespace name) w.
Proof.
  intros Hn. apply String.eqb_neq in Hn. unfold after, remotesecret.SecretsGet. rewrite Hn.
  unfold client.Get, client.call, bind, called. simpl.
  destruct (head (faults w)) as [[msg|]|]; [done|..];
    (destruct (cluster_of cl w) as [c|]; [|done]);
    by destruct (secrets c !! (namespace, name)).
Qed.

Lemma SecretsGet_Ok (cl : ClientRef) (namespace name : string) (w : World) (s : Secret) :
  result (remotesecret.SecretsGet cl namespace name) w = Ok s →
  name ≠ ""
  ∧ ∃ c, cluster_of cl w = Some c ∧ secrets c !! (namespace, name) = Some s.
Proof.
  unfold result, remotesecret.SecretsGet.
  destruct (name =? "")%string eqn:Hn; [done|]. apply String.eqb_neq in Hn.
  destruct (Get_spec (T := Secret) cl namespace name w) as (r & -> & Hr). simpl.
  intros ->. split; [done|]. by apply Hr.
Qed.

(** The operation that is retried, in terms of the answer to its
    re-read. *)
Lemma waitOperation_run (cl : ClientRef) (secret : Secret) (ca token : Bytes) (w : World) :
  let get := remotesecret.SecretsGet cl (Namespace (secretMeta secret))
               (Name (secretMeta secret)) in
  remotesecret.waitOperation cl (secret, ca, token) w
  = (Ok (match result get w with
         | Err err => ((remotesecret.emptySecret, ca, token), Some err)
         | Ok secret' =>
             match remotesecret.tokenDataFromSecret secret' with
             | Err err =>
                 ((secret',
                   default "" (Data secret' !! remotesecret.ServiceAccountRootCAKey),
                   default "" (Data secret' !! remotesecret.ServiceAccountTokenKey)),
                  Some err)
             | Ok (ca', token') => ((secret', ca', token'), None)
             end
         end), after get w).
Proof.
  intros get. unfold remotesecret.waitOperation, bind, try, result, after. fold get.
  destruct (get w) as [[s|e] w1]; simpl; [|done].
  by destruct (remotesecret.tokenDataFromSecret s) as [[ca' token']|e].
Qed.

Lemma waitOperation_step (cl : ClientRef) (st : remotesecret.WaitState) (w : World) :
  ∃ st' oe dc w',
    remotesecret.waitOperation cl st w = (Ok (st', oe), w')
    ∧ calls w' = (calls w ++ dc)%list
    ∧ slept w' = slept w
    ∧ (length dc ≤ 1)%nat
    ∧ Forall (reads_secret cl) dc
    ∧ (Name (secretMeta (fst (fst st))) ≠ "" →
       dc = [mkCall VGet cl "Secret" (Namespace (secretMeta (fst (fst st))))
               (Name (secretMeta (fst (fst st))))])
    ∧ (oe = None → data_of_last_read cl w' dc (snd (fst st')) (snd st')).
Proof.
  destruct st as [[secret ca] token]. rewrite waitOperation_run. cbn [fst snd].
  destruct (decide (Name (secretMeta secret) = "")) as [Hn|Hn].
  { unfold result, after, remotesecret.SecretsGet. rewrite Hn. simpl.
    do 2 eexists. exists [], w. rewrite app_nil_r. repeat split; try done. auto. }
  rewrite (SecretsGet_run _ _ _ _ Hn).
  destruct (result _ w) as [s|e] eqn:Hr.
  - apply SecretsGet_Ok in Hr as (_ & c & Hc & Hs).
    destruct (remotesecret.tokenDataFromSecret s) as [[ca' token']|e] eqn:Hd.
    + do 2 eexists. eexists [_], _. repeat split; simpl; try done.
      * repeat constructor.
      * intros _. exists c, (Namespace (secretMeta secret)), (Name (secretMeta secret)), s.
        by rewrite cluster_of_called.
    + do 2 eexists. eexists [_], _. repeat split; simpl; try done.
      repeat constructor.
  - do 2 eexists. eexists [_], _. repeat split; simpl; try done.
    repeat constructor.
Qed.

(** *** The retry loop *)

(** In every run: the loop never fails as a whole, sleeps at most as
    often as the policy allows and always for its interval, reads at
    most once more than it sleeps, first the secret at hand, and gives
    up only when the policy hands out no further delay. *)
Lemma doRetry_wait (cl : ClientRef) (fuel : nat) (b : backoff.BackOff)
    (st : remotesecret.WaitState) (w : World) :
  ∃ st' oe dc n w',
    backoff.doRetry fuel (remotesecret.waitOperation cl) b st w = (Ok (st', oe), w')
    ∧ calls w' = (calls w ++ dc)%list
    ∧ slept w' = (slept w ++ replicate n (backoff.Interval b))%list
    ∧ (n ≤ fuel)%nat
    ∧ (n ≤ backoff.maxTries b - backoff.numTries b)%nat
    ∧ (length dc ≤ S n)%nat
    ∧ Forall (reads_secret cl) dc
    ∧ (Name (secretMeta (fst (fst st))) ≠ "" →
       head dc = Some (mkCall VGet cl "Secret" (Namespace (secretMeta (fst (fst st))))
                         (Name (secretMeta (fst (fst st))))))
    ∧ (oe = None → data_of_last_read cl w' dc (snd (fst st')) (snd st'))
    ∧ (is_Some oe → (backoff.maxTries b - backoff.numTries b ≤ fuel)%nat →
       n = (backoff.maxTries b - backoff.numTries b)%nat).
Proof.
  revert b st w. induction fuel as [|fuel IH]; intros b st w.
  - simpl. unfold bind.
    destruct (waitOperation_step cl st w)
      as (st' & oe & dc & w' & -> & Hc & Hs & Hl & Hf & Hh & Hd).
    destruct st' as [[secret' ca'] token'].
    destruct oe as [err|].
    + destruct (backoff.NextBackOff b) as [[next|] b'];
        exists (secret', ca', token'), (Some err), dc, 0%nat, w';
        rewrite app_nil_r; repeat split; simpl; try done; try lia.
      all: try (intros Hn; by rewrite (Hh Hn)).
    + exists (secret', ca', token'), None, dc, 0%nat, w'.
      rewrite app_nil_r; repeat split; simpl; try done; try lia.
      all: try (intros Hn; by rewrite (Hh Hn)).
      all: by intros [? ?].
  - simpl. unfold bind.
    destruct (waitOperation_step cl st w)
      as (st' & oe & dc & w' & -> & Hc & Hs & Hl & Hf & Hh & Hd).
    destruct st' as [[secret' ca'] token'].
    destruct oe as [err|].
    + unfold backoff.NextBackOff.
      destruct (backoff.maxTries b =? 0)%nat eqn:H0;
        [|destruct (backoff.maxTries b <=? backoff.numTries b)%nat eqn:H1].
      1,2: exists (secret', ca', token'), (Some err), dc, 0%nat, w';
        rewrite app_nil_r; repeat split; simpl; try done; try lia;
        try (intros Hn; by rewrite (Hh Hn));
        try (apply Nat.eqb_eq in H0; lia); try (apply Nat.leb_le in H1; lia).
      destruct (Sleep_outputs (backoff.Interval b) w') as (Hr & Hsc & Hss).
      destruct (Sleep (backoff.Interval b) w') as [r1 w1]. simpl in *. subst r1.
      destruct (IH {| backoff.Interval := backoff.Interval b;
                      backoff.maxTries := backoff.maxTries b;
                      backoff.numTries := S (backoff.numTries b) |} (secret', ca', token') w1)
        as (st2 & oe2 & dc2 & n2 & w2 & -> & Hc2 & Hs2 & Hl2 & Hm2 & Hn2 & Hf2 & Hh2
            & Hd2 & He2).
      simpl in *.
      apply Nat.eqb_neq in H0. apply Nat.leb_gt in H1.
      exists st2, oe2, (dc ++ dc2)%list, (S n2), w2.
      repeat split; simpl; try done.
      * by rewrite Hc2, Hsc, Hc, app_assoc.
      * by rewrite Hs2, Hss, Hs, <- app_assoc.
      * lia.
      * lia.
      * rewrite length_app. lia.
      * by apply Forall_app.
      * intros Hn. by rewrite (Hh Hn).
      * intros Hnone. destruct (Hd2 Hnone) as (c & ns' & n' & s & Hlast & Hrest).
        exists c, ns', n', s. split; [|done]. by rewrite last_app, Hlast.
      * intros Hsome Hle. rewrite He2 by (done || lia). lia.
    + exists (secret', ca', token'), None, dc, 0%nat, w'.
      rewrite app_nil_r; repeat split; simpl; try done; try lia.
      all: try (intros Hn; by rewrite (Hh Hn)).
      all: by intros [? ?].
Qed.

(** One turn of the loop of [Retry]. *)
Lemma doRetry_unfold {St} (fuel : nat) (operation : St → M (St * option Error))
    (b : backoff.BackOff) (s : St) :
  backoff.doRetry fuel operation b s
  = (r <- operation s ;;
     match r with
     | (s', None) => ret (s', None)
     | (s', Some err) =>
         match backoff.NextBackOff b with
         | (None, _) => ret (s', Some err)
         | (Some next, b') =>
             match fuel with
             | O => ret (s', Some err)
             | S fuel' => Sleep next ;; backoff.doRetry fuel' operation b' s'
             end
         end
     end).
Proof. by destruct fuel. Qed.

(** As long as the re-reads are answered with the secret, still
    without the data: the loop re-reads that secret, waits a second,
    and so on; it ends with the first re-read that has the data, or
    with the one after the last delay of the policy. *)
Lemma doRetry_rereads (cl : ClientRef) (namespace name : string) (k : nat) :
  ∀ (fuel : nat) (b : backoff.BackOff) (secret : Secret) (ca token : Bytes) (w : World),
    Namespace (secretMeta secret) = namespace →
    Name (secretMeta secret) = name →
    name ≠ "" →
    backoff.Interval b = time.Second →
    (k ≤ fuel)%nat →
    (backoff.numTries b + k ≤ backoff.maxTries b)%nat →
    (∀ i, (i < k)%nat → still_empty cl namespace name w i) →
    is_ok (reread_outcome cl namespace name w k) = true
    ∨ (backoff.numTries b + k = backoff.maxTries b)%nat →
    ∃ st' oe w',
      backoff.doRetry fuel (remotesecret.waitOperation cl) b (secret, ca, token) w
      = (Ok (st', oe), w')
      ∧ match reread_outcome cl namespace name w k with
        | Ok data => oe = None ∧ (snd (fst st'), snd st') = data
        | Err err => oe = Some err
        end
      ∧ calls w' = (calls w ++ replicate (S k) (mkCall VGet cl "Secret" namespace name))%list
      ∧ slept w' = (slept w ++ replicate k time.Second)%list.
Proof.
  induction k as [|k IH]; intros fuel b secret ca token w Hns Hname Hne Hint Hfuel Htries
    Hempty Hend.
  - rewrite doRetry_unfold.
    unfold bind. rewrite waitOperation_run, Hns, Hname, (SecretsGet_run _ _ _ _ Hne).
    unfold reread_outcome, reread_answer in *. simpl in *.
    destruct (result (remotesecret.SecretsGet cl namespace name) w) as [s|e].
    + destruct (remotesecret.tokenDataFromSecret s) as [[ca' token']|e].
      * do 3 eexists. split; [done|]. simpl. by rewrite app_nil_r.
      * destruct Hend as [?|Hend]; [done|].
        assert (backoff.NextBackOff b = (None, b)) as ->.
        { unfold backoff.NextBackOff. destruct (backoff.maxTries b =? 0)%nat; [done|].
          assert ((backoff.maxTries b <=? backoff.numTries b)%nat = true) as ->; [|done].
          apply Nat.leb_le. lia. }
        do 3 eexists. split; [done|]. simpl. by rewrite app_nil_r.
    + destruct Hend as [?|Hend]; [done|].
      assert (backoff.NextBackOff b = (None, b)) as ->.
      { unfold backoff.NextBackOff. destruct (backoff.maxTries b =? 0)%nat; [done|].
        assert ((backoff.maxTries b <=? backoff.numTries b)%nat = true) as ->; [|done].
        apply Nat.leb_le. lia. }
      do 3 eexists. split; [done|]. simpl. by rewrite app_nil_r.
  - destruct fuel as [|fuel]; [lia|]. rewrite doRetry_unfold. unfold bind.
    rewrite waitOperation_run, Hns, Hname, (SecretsGet_run _ _ _ _ Hne).
    destruct (Hempty 0%nat ltac:(lia)) as (s0 & Hs0 & Hns0 & Hname0 & Hd0).
    unfold reread_answer in Hs0. simpl in Hs0. rewrite Hs0.
    destruct (remotesecret.tokenDataFromSecret s0) as [[ca0 token0]|e0]; [done|].
    assert (backoff.NextBackOff b
            = (Some (backoff.Interval b),
               {| backoff.Interval := backoff.Interval b;
                  backoff.maxTries := backoff.maxTries b;
                  backoff.numTries := S (backoff.numTries b) |})) as ->.
    { unfold backoff.NextBackOff.
      assert ((backoff.maxTries b =? 0)%nat = false) as -> by (apply Nat.eqb_neq; lia).
      assert ((backoff.maxTries b <=? backoff.numTries b)%nat = false) as ->; [|done].
      apply Nat.leb_gt. lia. }
    rewrite Hint.
    destruct (Sleep_outputs time.Second (called (mkCall VGet cl "Secret" namespace name) w))
      as (Hr & Hsc & Hss).
    unfold after in IH.
    destruct (Sleep time.Second (called (mkCall VGet cl "Secret" namespace name) w))
      as [r1 w1] eqn:Hsleep.
    simpl in Hr, Hsc, Hss. subst r1.
    destruct (IH fuel
                {| backoff.Interval := backoff.Interval b;
                   backoff.maxTries := backoff.maxTries b;
                   backoff.numTries := S (backoff.numTries b) |}
                s0 (default "" (Data s0 !! remotesecret.ServiceAccountRootCAKey))
                (default "" (Data s0 !! remotesecret.ServiceAccountTokenKey)) w1)
      as (st' & oe & w' & Hrun & Hout & Hcalls & Hslept); try done; simpl; try lia.
    { intros i Hi. specialize (Hempty (S i) ltac:(lia)).
      unfold still_empty, reread_answer in *. simpl in Hempty. unfold after in Hempty.
      by rewrite Hsleep in Hempty. }
    { unfold reread_outcome, reread_answer in *. simpl in Hend. unfold after in Hend.
      rewrite Hsleep in Hend. destruct Hend as [?|?]; [by left | right; lia]. }
    rewrite ?Hint in Hrun.
    exists st', oe, w'. split; [done|].
    unfold reread_outcome, reread_answer in *. simpl. unfold after. rewrite Hsleep. simpl.
    split; [done|]. rewrite Hcalls, Hslept, Hsc, Hss. simpl.
    by rewrite <- !app_assoc.
Qed.

(** The fuel of [Retry] is never exhausted: the policy stops first. *)
Lemma doRetry_fuel {St} (operation : St → M (St * option Error)) (fuel : nat)
    (b : backoff.BackOff) (s : St) (w : World) :
  (backoff.maxTries b - backoff.numTries b ≤ fuel)%nat →
  backoff.doRetry fuel operation b s w
  = backoff.doRetry (backoff.maxTries b - backoff.numTries b) operation b s w.
Proof.
  revert b s w. induction fuel as [|fuel IH]; intros b s w Hle.
  - by replace (backoff.maxTries b - backoff.numTries b)%nat with 0%nat by lia.
  - destruct (backoff.maxTries b - backoff.numTries b)%nat as [|k] eqn:Hk.
    + simpl. unfold bind. destruct (operation s w) as [[[s' [err|]]|e] w']; try done.
      unfold backoff.NextBackOff.
      destruct (backoff.maxTries b =? 0)%nat; [done|].
      assert ((backoff.maxTries b <=? backoff.numTries b)%nat = true) as ->; [|done].
      apply Nat.leb_le. lia.
    + simpl. unfold bind. destruct (operation s w) as [[[s' [err|]]|e] w']; try done.
      unfold backoff.NextBackOff.
      destruct (backoff.maxTries b =? 0)%nat; [done|].
      destruct (backoff.maxTries b <=? backoff.numTries b)%nat; [done|].
      destruct (Sleep (backoff.Interval b) w') as [[[]|e] w1]; [|done].
      rewrite IH by (simpl; lia). simpl.
      by replace (backoff.maxTries b - S (backoff.numTries b))%nat with k by lia.
Qed.

(** C8, as the code has it.  When the data of the token are in the
    secret at hand, [waitForTokenData] returns them at once.  Otherwise
    it re-reads the secret at once and, as long as each re-read is
    answered with the secret still without the data, again after a
    wait of one second, up to 5 waits: it makes exactly [k + 1]
    re-reads of that secret and [k] waits, where the re-read number
    [k] (from 0) is the first that has the data, which it returns, or
    is the sixth, whose error it returns.  In every run the waits are
    at most 5, of one second each, the calls are reads of secrets
    through the client, at most one more than the waits and the first
    of them of the secret at hand, data that are returned are those of
    the secret that the last call read, and an error is returned only
    after the fifth wait. *)
Theorem token_wait_rereads (cl : ClientRef) (secret : Secret) (w : World) :
  let m := remotesecret.waitForTokenData cl secret in
  let namespace := Namespace (secretMeta secret) in
  let name := Name (secretMeta secret) in
  let read := mkCall VGet cl "Secret" namespace name in
  remotesecret.tokenWaitBackoff = 1000000000%Z
  ∧ (∀ data, remotesecret.tokenDataFromSecret secret = Ok data → m w = (Ok data, w))
  ∧ (∃ n, (n ≤ 5)%nat
          ∧ sleeps_of m w = replicate n remotesecret.tokenWaitBackoff
          ∧ (length (calls_of m w) ≤ S n)%nat
          ∧ (is_ok (result m w) = false → n = 5%nat))
  ∧ Forall (reads_secret cl) (calls_of m w)
  ∧ (is_ok (remotesecret.tokenDataFromSecret secret) = false → name ≠ "" →
     head (calls_of m w) = Some read)
  ∧ (∀ ca token, result m w = Ok (ca, token) →
       remotesecret.tokenDataFromSecret secret = Ok (ca, token)
       ∨ data_of_last_read cl (after m w) (calls_of m w) ca token)
  ∧ (∀ k, is_ok (remotesecret.tokenDataFromSecret secret) = false →
       (k ≤ 5)%nat →
       (∀ i, (i < k)%nat → still_empty cl namespace name w i) →
       is_ok (reread_outcome cl namespace name w k) = true ∨ k = 5%nat →
       result m w = reread_outcome cl namespace name w k
       ∧ calls_of m w = replicate (S k) read
       ∧ sleeps_of m w = replicate k time.Second).
Proof.
  intros m namespace name read. split; [done|].
  split.
  { intros [ca token] Hd. unfold m, remotesecret.waitForTokenData. by rewrite Hd. }
  destruct (remotesecret.tokenDataFromSecret secret) as [[ca0 token0]|e0] eqn:Hd0.
  { assert (m w = (Ok (ca0, token0), w)) as Hm
      by (unfold m, remotesecret.waitForTokenData; by rewrite Hd0).
    unfold sleeps_of, calls_of, result, after. rewrite Hm. simpl. rewrite !drop_all.
    split; [exists 0%nat; repeat split; simpl; (done || lia)|].
    split; [done|]. split; [done|].
    split; [intros ?? [= <- <-]; by left|]. done. }
  set (w0 := set_logs (logs w ++ [mkLogEntry LInfo None "Waiting for data to be populated"
                                    [("secret name", VStr name)]]) w).
  set (b := backoff.WithMaxRetries (backoff.NewConstantBackOff remotesecret.tokenWaitBackoff) 5).
  set (st := (secret, default "" (Data secret !! remotesecret.ServiceAccountRootCAKey),
              default "" (Data secret !! remotesecret.ServiceAccountTokenKey))).
  assert (m w = (r <- backoff.doRetry 5 (remotesecret.waitOperation cl) (backoff.Reset b) st ;;
                 match r with
                 | (_, Some err) => fail err
                 | ((_, ca, token), None) => ret (ca, token)
                 end) w0) as Hm
    by (unfold m, remotesecret.waitForTokenData; by rewrite Hd0).
  split; [|split; [|split; [|split]]].
  - destruct (doRetry_wait cl 5 (backoff.Reset b) st w0)
      as (st' & oe & dc & n & w' & Hrun & Hc & Hs & Hl & _ & Hn & _ & _ & _ & He).
    exists n. unfold sleeps_of, calls_of, result, after. rewrite Hm. unfold bind.
    rewrite Hrun. destruct st' as [[s' ca'] token'].
    destruct oe as [err|]; simpl; rewrite Hc, Hs, !drop_app_length;
      (split; [done|]); (split; [done|]); (split; [done|]); [|done].
    intros _. by apply He.
  - destruct (doRetry_wait cl 5 (backoff.Reset b) st w0)
      as (st' & oe & dc & n & w' & Hrun & Hc & _ & _ & _ & _ & Hf & _).
    unfold calls_of, after. rewrite Hm. unfold bind. rewrite Hrun.
    destruct st' as [[s' ca'] token'].
    destruct oe as [err|]; simpl; by rewrite Hc, drop_app_length.
  - intros _ Hne.
    destruct (doRetry_wait cl 5 (backoff.Reset b) st w0)
      as (st' & oe & dc & n & w' & Hrun & Hc & _ & _ & _ & _ & _ & Hh & _).
    unfold calls_of, after. rewrite Hm. unfold bind. rewrite Hrun.
    destruct st' as [[s' ca'] token'].
    destruct oe as [err|]; simpl; rewrite Hc, drop_app_length; by apply Hh.
  - intros ca token.
    destruct (doRetry_wait cl 5 (backoff.Reset b) st w0)
      as (st' & oe & dc & n & w' & Hrun & Hc & _ & _ & _ & _ & _ & _ & Hdata & _).
    unfold calls_of, result, after. rewrite Hm. unfold bind. rewrite Hrun.
    destruct st' as [[s' ca'] token'].
    destruct oe as [err|]; simpl; [done|].
    intros [= <- <-]. right. rewrite Hc, drop_app_length. by apply Hdata.
  - intros k _ Hk Hempty Hend.
    assert (name ≠ "") as Hne.
    { destruct k as [|k].
      - destruct Hend as [Hok|?]; [|done].
        unfold reread_outcome in Hok.
        destruct (reread_answer cl namespace name w 0) as [s|e] eqn:Ha; [|done].
        by apply SecretsGet_Ok in Ha as [? _].
      - destruct (Hempty 0%nat ltac:(lia)) as (s & Ha & _).
        by apply SecretsGet_Ok in Ha as [? _]. }
    assert (∀ i, (i < k)%nat → still_empty cl namespace name w0 i) as Hempty0.
    { intros i Hi. destruct (Hempty i Hi) as (s & Ha & Hrest).
      exists s. split; [|done]. unfold w0. by rewrite reread_answer_logs. }
    assert (is_ok (reread_outcome cl namespace name w0 k) = true
            ∨ (backoff.numTries (backoff.Reset b) + k = backoff.maxTries (backoff.Reset b))%nat)
      as Hend0.
    { unfold reread_outcome, w0. rewrite reread_answer_logs.
      destruct Hend as [? | ->]; [by left | by right]. }
    destruct (doRetry_rereads cl namespace name k 5 (backoff.Reset b) secret
                (default "" (Data secret !! remotesecret.ServiceAccountRootCAKey))
                (default "" (Data secret !! remotesecret.ServiceAccountTokenKey)) w0
                eq_refl eq_refl Hne eq_refl Hk Hk Hempty0 Hend0)
      as (st' & oe & w' & Hrun & Hout & Hc & Hs).
    unfold reread_outcome, w0 in Hout. rewrite reread_answer_logs in Hout.
    fold (reread_outcome cl namespace name w k) in Hout.
    unfold sleeps_of, calls_of, result, after. rewrite Hm. unfold bind.
    fold st in Hrun. rewrite Hrun. destruct st' as [[s' ca'] token'].
    destruct (reread_outcome cl namespace name w k) as [[ca1 token1]|e1].
    + destruct Hout as [-> [= <- <-]]. simpl. by rewrite Hc, Hs, !drop_app_length.
    + rewrite Hout. simpl. by rewrite Hc, Hs, !drop_app_length.
Qed.

End builder.

(** ** The rotation cycle *)

Section rotation.
Context {cfg : Config} {ext : Externals}.

(** The loop of the cycle makes all the attempts and counts the
    successful ones; it never stops at a failure. *)
Lemma rotateEach_attempts (m : secretrotation.Manager) (clusters : list ClusterDeployment)
    (n : nat) (w : World) :
  secretrotation.rotateEach m {| remotesecret.AllowOverwrite := true |} clusters n w
  = (Ok (n + successes (fst (attempts (secretrotation.remoteSecretManager m) clusters w)))%nat,
     snd (attempts (secretrotation.remoteSecretManager m) clusters w)).
Proof.
  revert n w. induction clusters as [|c rest IH]; intros n w; simpl.
  - unfold ret, successes. simpl. by rewrite Nat.add_0_r.
  - unfold bind, try.
    destruct (remotesecret.TryCreate _ c _ w) as [[[]|e] w1]; simpl.
    + rewrite IH. destruct (attempts _ rest w1) as [tr w3]. simpl.
      unfold successes. rewrite filter_cons_True by done. simpl. f_equal. f_equal. lia.
    + rewrite IH. unfold after. simpl.
      destruct (attempts _ rest _) as [tr w3]. simpl.
      unfold successes. rewrite filter_cons_False by done. done.
Qed.

Lemma attempts_all (rs : remotesecret.RemoteSecretManager) (clusters : list ClusterDeployment)
    (w : World) :
  fst <$> fst (attempts rs clusters w) = clusters.
Proof.
  revert w. induction clusters as [|c rest IH]; intros w; simpl; [done|].
  destruct (remotesecret.TryCreate rs c _ w) as [r w1].
  match goal with |- context [attempts rs rest ?w2] =>
    specialize (IH w2); destruct (attempts rs rest w2) as [tr w3] end.
  cbn [fst] in *. rewrite fmap_cons. by rewrite IH.
Qed.

Lemma listed_clusters_spec (w : World) (cd : ClusterDeployment) :
  cd ∈ listed_clusters w ↔
    (∃ k, clusterDeployments (hub w) !! k = Some cd)
    ∧ is_Some (Labels (cdMeta cd) !! istio.IstioRoleLabel).
Proof.
  unfold listed_clusters, label_exists.
  rewrite list_elem_of_filter, bool_decide_eq_true, list_elem_of_fmap.
  split.
  - intros [Hl ([k cd'] & -> & Hin)]. apply elem_of_map_to_list in Hin. eauto.
  - intros [[k Hk] Hl]. split; [done|]. exists (k, cd). split; [done|].
    by apply elem_of_map_to_list.
Qed.

(** C3, as the code has it.  A rotation cycle whose list call does not
    fail enumerates exactly the cluster deployments of the management
    cluster that carry the role label, whatever its value; it runs the
    credential builder with the overwrite directive on each of them in
    turn, whatever the outcomes of the earlier ones; and when it found
    at least one it ends with the report of the total, the number of
    successful attempts and their difference. *)
Theorem rotation_cycle (w : World) :
  let m := secretrotation.NewManager Hub in
  let clusters := listed_clusters w in
  let w1 := after (log.Info "Rotating secrets for clusters" [("count", VNat (length clusters))])
              (after (secretrotation.getIstioClusters m)
                 (after (log.Info "Starting secret rotation cycle" []) w)) in
  let run := attempts (secretrotation.remoteSecretManager m) clusters w1 in
  next_call_succeeds w →
  result (secretrotation.getIstioClusters m) w = Ok clusters
  ∧ (∀ cd, cd ∈ clusters ↔
       (∃ k, clusterDeployments (hub w) !! k = Some cd)
       ∧ is_Some (Labels (cdMeta cd) !! istio.IstioRoleLabel))
  ∧ fst <$> fst run = clusters
  ∧ (clusters ≠ [] →
     result (secretrotation.rotateSecrets m) w = Ok tt
     ∧ logs (after (secretrotation.rotateSecrets m) w)
       = (logs (snd run) ++ [rotation_report (length clusters) (successes (fst run))])%list).
Proof.
  intros m clusters w1 run Hnf.
  assert (secretrotation.getIstioClusters m w
          = (Ok clusters,
             set_faults (tail (faults w))
               (set_calls (calls w ++ [mkCall VList Hub "ClusterDeployment" "" ""]) w))) as Hlist.
  { unfold secretrotation.getIstioClusters, client.List, client.call, bind, try, ret. simpl.
    unfold next_call_succeeds in Hnf.
    destruct (head (faults w)) as [[msg|]|]; done. }
  split; [by unfold result; rewrite Hlist|].
  split; [by apply listed_clusters_spec|].
  split; [by apply attempts_all|].
  intros Hne.
  assert (secretrotation.rotateSecrets m w
          = (Ok tt, set_logs (logs (snd run) ++
                                [rotation_report (length clusters) (successes (fst run))])
                      (snd run))) as Hrot.
  { unfold secretrotation.rotateSecrets. unfold bind at 1. unfold log.Info at 1.
    unfold bind at 1. unfold try at 1.
    assert (secretrotation.getIstioClusters m
              (set_logs (logs w ++ [mkLogEntry LInfo None "Starting secret rotation cycle" []]) w)
            = (Ok clusters,
               after (secretrotation.getIstioClusters m)
                 (after (log.Info "Starting secret rotation cycle" []) w))) as ->.
    { unfold after, log.Info. simpl.
      unfold secretrotation.getIstioClusters, client.List, client.call, bind, try, ret. simpl.
      unfold next_call_succeeds in Hnf.
      destruct (head (faults w)) as [[msg|]|]; done. }
    assert ((length clusters =? 0)%nat = false) as ->.
    { by destruct clusters. }
    unfold bind at 1. unfold log.Info at 1.
    unfold bind. rewrite rotateEach_attempts. reflexivity. }
  unfold result, after. rewrite Hrot. done.
Qed.

End rotation.

(** ** The scenarios, run *)

Section scenarios.
#[local] Existing Instances scenario.cfg scenario.ext.

(** The reconciliation of a cluster that is not ready: the certificate
    and the descriptor of the remote secret, no secret. *)
Lemma reconcile_not_ready_witness :
  clusterDeployments (hub scenario.notReadyWorld) !! ("ns1", "c1") = Some scenario.notReady
  ∧ utils.IsClusterDeploymentReady scenario.notReady = false
  ∧ faults scenario.notReadyWorld = []
  ∧ result (controller.Reconcile scenario.reconciler scenario.request) scenario.notReadyWorld
    = Ok tt
  ∧ secrets (hub (after (controller.Reconcile scenario.reconciler scenario.request)
                    scenario.notReadyWorld)) = ∅.
Proof.
  assert (clusterDeployments (hub scenario.notReadyWorld) !! ("ns1", "c1")
          = Some scenario.notReady) as H1 by (vm_compute; reflexivity).
  assert (utils.IsClusterDeploymentReady scenario.notReady = false) as H2 by reflexivity.
  assert (faults scenario.notReadyWorld = []) as H3 by reflexivity.
  split; [exact H1|]. split; [exact H2|]. split; [exact H3|].
  pose proof (reconcile_not_ready remotesecret.NewIstioRemoteSecret scenario.request
                scenario.notReady scenario.notReadyWorld H1 H2) as (_ & Hrest).
  destruct (Hrest H3) as (Hr & Hs & _).
  split; [exact Hr | exact Hs].
Defined.

(** What C1 says does not happen, happens: the reconciliation of the
    cluster that is not ready creates the descriptor that propagates
    its remote secret. *)
Lemma reconcile_not_ready_creates_descriptor :
  let run := controller.Reconcile scenario.reconciler scenario.request in
  let key := ("", "remote-secret-propagation-3f132440") in
  clusterDeployments (hub scenario.notReadyWorld) !! ("ns1", "c1") = Some scenario.notReady
  ∧ utils.IsClusterDeploymentReady scenario.notReady = false
  ∧ multicluster.GetMultiClusterServiceName "c1" "ns1" = snd key
  ∧ multiClusterServices (hub scenario.notReadyWorld) !! key = None
  ∧ multiClusterServices (hub (after run scenario.notReadyWorld)) !! key
    = Some (multicluster.remoteSecretMultiClusterService scenario.notReady)
  ∧ calls_of run scenario.notReadyWorld
    = [ mkCall VGet Hub "ClusterDeployment" "ns1" "c1";
        mkCall VCreate Hub "Certificate" "istio-system" "rel-ns1-c1-ca";
        mkCall VGet Hub "MultiClusterService" "" "remote-secret-propagation-3f132440";
        mkCall VCreate Hub "MultiClusterService" "" "remote-secret-propagation-3f132440" ].
Proof. vm_compute. repeat split. Qed.

(** The failing input of C2: the certificate is gone, the descriptor
    that propagates it is still there, and stays. *)
Lemma cert_delete_leaves_descriptor :
  let run := cert.TryDelete (cert.New Hub) scenario.request in
  let key := ("", "ca-cert-propagation-bce0f6b9") in
  certificates (hub scenario.leftoverWorld) !! ("istio-system", "rel-ns1-c1-ca") = None
  ∧ cert.GetCertNameHash "c1" "ns1" = snd key
  ∧ result run scenario.leftoverWorld = Ok tt
  ∧ multiClusterServices (hub (after run scenario.leftoverWorld)) !! key
    = Some (cert.caMultiClusterService scenario.notReady)
  ∧ calls_of run scenario.leftoverWorld
    = [ mkCall VDelete Hub "Certificate" "istio-system" "rel-ns1-c1-ca" ].
Proof.
  assert (certificates (hub scenario.leftoverWorld)
            !! (IstioSystemNamespace,
                cert.GetCertName (reqName scenario.request) (reqNamespace scenario.request))
          = None) as H1 by (vm_compute; reflexivity).
  assert (next_call_succeeds scenario.leftoverWorld) as H2 by exact I.
  pose proof (cert_delete_stops_at_absent_certificate scenario.request
                scenario.leftoverWorld H1 H2) as (Hr & Hh & Hc).
  intros run key.
  split; [exact H1|]. split; [vm_compute; reflexivity|]. split; [exact Hr|].
  split; [|exact Hc].
  unfold run. rewrite Hh. vm_compute. reflexivity.
Defined.

(** The credential builder, without overwrite, on a ready cluster
    whose remote secret exists: one read, success. *)
Lemma build_credential_skips_witness :
  remotesecret.AllowOverwrite {| remotesecret.AllowOverwrite := false |} = false
  ∧ utils.IsClusterDeploymentReady scenario.ready = true
  ∧ secrets (hub scenario.secretWorld) !! ("istio-system", "istio-remote-secret-3f132440")
    = Some scenario.existingSecret
  ∧ result (remotesecret.TryCreate (remotesecret.New Hub) scenario.ready
              {| remotesecret.AllowOverwrite := false |}) scenario.secretWorld = Ok tt
  ∧ hub (after (remotesecret.TryCreate (remotesecret.New Hub) scenario.ready
                  {| remotesecret.AllowOverwrite := false |}) scenario.secretWorld)
    = hub scenario.secretWorld.
Proof.
  assert (secrets (hub scenario.secretWorld)
            !! (IstioSystemNamespace,
                remotesecret.GetRemoteSecretName (Name (cdMeta scenario.ready))
                  (Namespace (cdMeta scenario.ready)))
          = Some scenario.existingSecret) as H1 by (vm_compute; reflexivity).
  assert (next_call_succeeds scenario.secretWorld) as H2 by exact I.
  pose proof (build_credential_skips remotesecret.NewIstioRemoteSecret scenario.ready
                {| remotesecret.AllowOverwrite := false |} scenario.secretWorld eq_refl
                (or_intror (ex_intro _ _ H1))) as (Hh & _ & _ & Hr & _).
  split; [reflexivity|]. split; [reflexivity|]. split; [exact H1|].
  split; [exact (Hr (or_intror H2)) | exact Hh].
Defined.

(** A rotation cycle over two labelled clusters. *)
Lemma rotation_cycle_witness :
  next_call_succeeds scenario.rotationWorld
  ∧ result (secretrotation.getIstioClusters (secretrotation.NewManager Hub))
      scenario.rotationWorld = Ok (listed_clusters scenario.rotationWorld)
  ∧ length (listed_clusters scenario.rotationWorld) = 2%nat.
Proof.
  assert (next_call_succeeds scenario.rotationWorld) as H1 by exact I.
  pose proof (rotation_cycle scenario.rotationWorld H1) as (Hr & _).
  split; [exact H1|]. split; [exact Hr|]. vm_compute. reflexivity.
Defined.

(** What C3 says does not happen, happens: a cluster whose role label
    has a value that is not expected is enumerated, and the credential
    builder is run on it. *)
Lemma rotation_includes_unexpected_value :
  let m := secretrotation.NewManager Hub in
  Labels (cdMeta scenario.observer) !! istio.IstioRoleLabel = Some "observer"
  ∧ ("observer" ∉ istio.IstioRoleLabelExpectedValues)
  ∧ controller.eventFilter (Labels (cdMeta scenario.observer)) = false
  ∧ result (secretrotation.getIstioClusters m) scenario.observerWorld
    = Ok [scenario.observer]
  ∧ logMsg <$> logs (after (secretrotation.rotateSecrets m) scenario.observerWorld)
    = [ "Starting secret rotation cycle"; "Rotating secrets for clusters";
        "Trying to create remote secret"; "Cluster deployment is not ready";
        "Secret rotation cycle completed" ]
  ∧ last (logs (after (secretrotation.rotateSecrets m) scenario.observerWorld))
    = Some (rotation_report 1 1).
Proof.
  intros m. split; [vm_compute; reflexivity|].
  split; [intros H; apply list_elem_of_In in H; simpl in H; intuition discriminate|].
  split; [vm_compute; reflexivity|].
  split; [vm_compute; reflexivity|].
  split; vm_compute; reflexivity.
Qed.

(** What C8 says about the number of attempts does not hold: the
    secret is re-read a sixth time.  Data that arrive during the fifth
    second of waiting, missing at the first five re-reads, are found
    by the sixth and returned; data that arrive later are given up
    after six re-reads and five waits. *)
Lemma token_wait_reads_six_times :
  let m := remotesecret.waitForTokenData (Remote "kc") (scenario.tokenSecret ∅) in
  let read := mkCall VGet (Remote "kc") "Secret" "istio-system"
                "istio-reader-service-account-istio-remote-secret-token" in
  (result m (scenario.waitingWorld 4) = Ok ("CA", "TOKEN")
   ∧ calls_of m (scenario.waitingWorld 4) = replicate 6 read
   ∧ sleeps_of m (scenario.waitingWorld 4) = replicate 5 time.Second)
  ∧ (result m (scenario.waitingWorld 5) = Err errMissingRootCAKey
     ∧ calls_of m (scenario.waitingWorld 5) = replicate 6 read
     ∧ sleeps_of m (scenario.waitingWorld 5) = replicate 5 time.Second).
Proof. vm_compute. repeat split. Qed.

(** The data arrive during the second second of waiting: the re-reads
    number 0 and 1 are answered with the secret without data, the
    re-read number 2 has the data, and the wait re-reads three times
    and waits twice. *)
Lemma token_wait_rereads_witness :
  let m := remotesecret.waitForTokenData (Remote "kc") (scenario.tokenSecret ∅) in
  let name := "istio-reader-service-account-istio-remote-secret-token" in
  let read := mkCall VGet (Remote "kc") "Secret" "istio-system" name in
  (∀ i, (i < 2)%nat → still_empty (Remote "kc") "istio-system" name (scenario.waitingWorld 1) i)
  ∧ reread_outcome (Remote "kc") "istio-system" name (scenario.waitingWorld 1) 2
    = Ok ("CA", "TOKEN")
  ∧ result m (scenario.waitingWorld 1) = Ok ("CA", "TOKEN")
  ∧ calls_of m (scenario.waitingWorld 1) = [read; read; read]
  ∧ sleeps_of m (scenario.waitingWorld 1) = [time.Second; time.Second].
Proof.
  intros m name read.
  assert (∀ i, (i < 2)%nat →
            still_empty (Remote "kc") "istio-system" name (scenario.waitingWorld 1) i) as H1.
  { intros [|[|i]] Hi; [| |lia]; exists (scenario.tokenSecret ∅); vm_compute; done. }
  assert (reread_outcome (Remote "kc") "istio-system" name (scenario.waitingWorld 1) 2
          = Ok ("CA", "TOKEN")) as H2 by (vm_compute; reflexivity).
  assert (is_ok (reread_outcome (Remote "kc") "istio-system" name (scenario.waitingWorld 1) 2)
          = true ∨ 2%nat = 5%nat) as H3 by (left; by rewrite H2).
  pose proof (token_wait_rereads (Remote "kc") (scenario.tokenSecret ∅)
                (scenario.waitingWorld 1)) as (_ & _ & _ & _ & _ & _ & Hregular).
  destruct (Hregular 2%nat eq_refl ltac:(lia) H1 H3) as (Hr & Hc & Hs).
  split; [exact H1|]. split; [exact H2|].
  split; [by rewrite <- H2|]. split; [exact Hc | exact Hs].
Defined.

(** The read that checks the existence of the remote secret fails:
    the credential builder, without overwrite, on the ready cluster
    whose remote secret exists, returns an error, not success. *)
Lemma build_credential_read_failure :
  let m := remotesecret.TryCreate (remotesecret.New Hub) scenario.ready
             {| remotesecret.AllowOverwrite := false |} in
  utils.IsClusterDeploymentReady scenario.ready = true
  ∧ secrets (hub scenario.unreadableWorld) !! ("istio-system", "istio-remote-secret-3f132440")
    = Some scenario.existingSecret
  ∧ faults scenario.unreadableWorld = [Some "backend unavailable"]
  ∧ result m scenario.unreadableWorld
    = Err (Errorf "failed to check remote secret"
             (StatusError ReasonInternalError "backend unavailable"))
  ∧ result m scenario.unreadableWorld ≠ Ok tt
  ∧ hub (after m scenario.unreadableWorld) = hub scenario.unreadableWorld
  ∧ calls_of m scenario.unreadableWorld
    = [mkCall VGet Hub "Secret" "istio-system" "istio-remote-secret-3f132440"].
Proof. vm_compute. repeat split; done. Qed.

(** Data that arrive during the second second are found by the third
    re-read. *)
Example token_wait_finds_early_data :
  let m := remotesecret.waitForTokenData (Remote "kc") (scenario.tokenSecret ∅) in
  result m (scenario.waitingWorld 1) = Ok ("CA", "TOKEN")
  ∧ length (calls_of m (scenario.waitingWorld 1)) = 3%nat
  ∧ length (sleeps_of m (scenario.waitingWorld 1)) = 2%nat.
Proof. vm_compute. repeat split. Qed.

End scenarios.

(** * Further properties of the operator *)

(** ** Strings, reads and the calls of a client of the management cluster *)

Lemma append_cons (c : ascii) (s t : string) : String c s ++ t = String c (s ++ t).
Proof. reflexivity. Qed.


Lemma append_assoc (s t u : string) : (s ++ t) ++ u = s ++ (t ++ u).
Proof. induction s as [|c s IH]; [done|]. by rewrite !append_cons, IH. Qed.


Lemma Get_run `{ApiObject T} (cl : ClientRef) (ns n : string) (w : World) (c : Cluster) :
  cluster_of cl w = Some c →
  client.Get (T := T) cl ns n w
  = (match head (faults w) with
     | Some (Some msg) => Err (StatusError ReasonInternalError msg)
     | _ => found c ns n
     end, called (mkCall VGet cl kind ns n) w).
Proof.
  intros Hc. unfold client.Get, client.call, bind, called, found. simpl. rewrite Hc.
  destruct (head (faults w)) as [[msg|]|]; [done| |];
    by destruct (objects c !! (ns, n)).
Qed.

(** Every run of a read: one call, the clusters untouched, and what
    the result tells about the cluster. *)
Lemma Get_cases `{ApiObject T} (cl : ClientRef) (ns n : string) (w : World)
    (P : Result T * World → Prop) :
  (∀ r, (∀ obj, r = Ok obj →
           ∃ c, cluster_of cl w = Some c ∧ objects c !! (ns, n) = Some obj) →
        (∀ c, next_call_succeeds w → cluster_of cl w = Some c → r = found c ns n) →
        (∀ e, r = Err e → IsNotFound e = true →
           next_call_succeeds w
           ∧ ∃ c, cluster_of cl w = Some c ∧ objects c !! (ns, n) = None) →
        P (r, called (mkCall VGet cl kind ns n) w)) →
  P (client.Get (T := T) cl ns n w).
Proof.
  intros HP. unfold client.Get, client.call, bind. simpl.
  unfold next_call_succeeds in HP. fold (called (mkCall VGet cl kind ns n) w).
  destruct (head (faults w)) as [[msg|]|].
  { apply HP; [done|done|]. by intros ? [= <-]. }
  all: destruct (cluster_of cl w) as [c0|].
  2,4: apply HP; [done|done|]; by intros ? [= <-].
  all: destruct (objects c0 !! (ns, n)) as [obj|] eqn:Hobj; unfold ret, fail; apply HP.
  all: try (intros ? [= <-]; by eauto).
  all: try (intros c _ [= <-]; unfold found; by rewrite Hobj).
  all: try done.
  all: intros e [= <-] _; split; [done|]; by eauto.
Qed.

Lemma same_clusters_refl (w : World) : same_clusters w w.
Proof. done. Qed.

Lemma same_clusters_called (c : Call) (w' w : World) :
  same_clusters w' w → same_clusters (called c w') w.
Proof. by intros [? ?]. Qed.

Lemma calls_called (c : Call) (w : World) : calls (called c w) = (calls w ++ [c])%list.
Proof. done. Qed.

Lemma next_call_None (w : World) : faults w = [] → next_call_succeeds w.
Proof. unfold next_call_succeeds. by intros ->. Qed.

(** The runs of the calls of a client of the management cluster. *)
Lemma Create_hub_cases `{ApiObject T} (obj : T) (w : World)
    (P : Result unit * World → Prop) :
  let c := mkCall VCreate Hub kind (fst (key_of obj)) (snd (key_of obj)) in
  (∀ msg, head (faults w) = Some (Some msg) →
     P (Err (StatusError ReasonInternalError msg), called c w)) →
  (next_call_succeeds w → is_Some (objects (hub w) !! key_of obj) →
     P (Err (StatusError ReasonAlreadyExists (snd (key_of obj))), called c w)) →
  (next_call_succeeds w → objects (hub w) !! key_of obj = None →
     P (Ok tt, set_hub (set_objects (<[key_of obj := obj]> (objects (hub w))) (hub w))
                 (called c w))) →
  P (client.Create Hub obj w).
Proof.
  intros c H1 H2 H3. unfold client.Create, client.call, client.store, bind, fail.
  unfold next_call_succeeds in *. fold c. simpl.
  destruct (head (faults w)) as [[msg|]|]; [by apply H1|..];
    (destruct (objects (hub w) !! key_of obj) eqn:Ho; [by apply H2 | by apply H3]).
Qed.

Lemma Delete_hub_cases `{ApiObject T} (obj : T) (w : World)
    (P : Result unit * World → Prop) :
  let c := mkCall VDelete Hub kind (fst (key_of obj)) (snd (key_of obj)) in
  (∀ msg, head (faults w) = Some (Some msg) →
     P (Err (StatusError ReasonInternalError msg), called c w)) →
  (next_call_succeeds w → objects (hub w) !! key_of obj = None →
     P (Err (StatusError ReasonNotFound (snd (key_of obj))), called c w)) →
  (next_call_succeeds w → is_Some (objects (hub w) !! key_of obj) →
     P (Ok tt, set_hub (set_objects (delete (key_of obj) (objects (hub w))) (hub w))
                 (called c w))) →
  P (client.Delete Hub obj w).
Proof.
  intros c H1 H2 H3. unfold client.Delete, client.call, client.store, bind, fail.
  unfold next_call_succeeds in *. fold c. simpl.
  destruct (head (faults w)) as [[msg|]|]; [by apply H1|..];
    (destruct (objects (hub w) !! key_of obj) eqn:Ho; [by apply H3 | by apply H2]).
Qed.

Lemma Get_hub_cases `{ApiObject T} (ns n : string) (w : World)
    (P : Result T * World → Prop) :
  let c := mkCall VGet Hub kind ns n in
  (∀ msg, head (faults w) = Some (Some msg) →
     P (Err (StatusError ReasonInternalError msg), called c w)) →
  (next_call_succeeds w → objects (hub w) !! (ns, n) = None →
     P (Err (StatusError ReasonNotFound n), called c w)) →
  (∀ obj, next_call_succeeds w → objects (hub w) !! (ns, n) = Some obj →
     P (Ok obj, called c w)) →
  P (client.Get (T := T) Hub ns n w).
Proof.
  intros c H1 H2 H3. unfold client.Get, client.call, bind, fail, ret.
  unfold next_call_succeeds in *. fold c. simpl.
  destruct (head (faults w)) as [[msg|]|]; [by apply H1|..];
    (destruct (objects (hub w) !! (ns, n)) eqn:Ho; [by apply H3 | by apply H2]).
Qed.

(** Unfold the monad and the logging, leaving the calls of the client
    folded. *)
Ltac run_unfold :=
  cbv beta iota zeta delta
      [bind try ret fail remotesecret.lift result after emit
       log.Info log.Error record.Eventf record.Event record.Warn utils.LogEvent
       set_hub set_remotes set_faults set_future set_calls set_slept set_logs set_events
       called next_call_succeeds key_of
       negb andb orb IsNotFound IsAlreadyExists].

Ltac run := repeat (progress (run_unfold; exec_proj)).

Ltac on_create :=
  match goal with
  | |- context [client.Create Hub ?obj ?w] =>
      pattern (client.Create Hub obj w); apply Create_hub_cases
  end.

Ltac on_delete :=
  match goal with
  | |- context [client.Delete Hub ?obj ?w] =>
      pattern (client.Delete Hub obj w); apply Delete_hub_cases
  end.

Ltac on_get T :=
  match goal with
  | |- context [client.Get (T := T) Hub ?ns ?n ?w] =>
      pattern (client.Get (T := T) Hub ns n w); apply Get_hub_cases
  end.
Ltac post HP :=
  eapply HP; run; [rewrite <- ?app_assoc; reflexivity|..]; try done;
  try (by left); try (by right); try (by eexists); try (intros [?|?]; done);
  try (right; repeat split; by eauto);
  try (intros; rewrite lookup_insert_eq; by eauto);
  try (match goal with
       | Hf : head _ = Some (Some _) |- faults _ = [] → _ =>
           let Hnil := fresh in intros Hnil; by rewrite Hnil in Hf
       end);
  try (intros _; split; [done|intros; congruence]);
  try (intros _; split; [intros [?|[?|[? ?]]]; congruence | intros; congruence]).

(** ** Derived names *)







Section names2.
Context {cfg : Config} {ext : Externals}.

(** X2. The derived names only depend on the namespace, a dash and the
    cluster name put together: the cluster c of namespace a-b and the
    cluster b-c of namespace a get the same remote secret, the same
    certificate and the same two propagation descriptors. *)
Theorem derived_names_collide (a b c : string) :
  remotesecret.GetRemoteSecretName c (a ++ "-" ++ b)
    = remotesecret.GetRemoteSecretName (b ++ "-" ++ c) a
  ∧ multicluster.GetMultiClusterServiceName c (a ++ "-" ++ b)
    = multicluster.GetMultiClusterServiceName (b ++ "-" ++ c) a
  ∧ cert.GetCertName c (a ++ "-" ++ b) = cert.GetCertName (b ++ "-" ++ c) a
  ∧ cert.GetCertNameHash c (a ++ "-" ++ b) = cert.GetCertNameHash (b ++ "-" ++ c) a.
Proof.
  unfold remotesecret.GetRemoteSecretName, multicluster.GetMultiClusterServiceName,
    cert.GetCertNameHash, cert.GetCertName.
  cbv zeta. by rewrite !append_assoc.
Qed.

End names2.

(** X3. The existence test issues exactly one read of the named object
    and changes no cluster; when the call does not fail its answer is
    whether the cluster holds the object (absence is an answer, not an
    error), and a failure of the call is returned as it is. *)
Theorem resource_exists_reads_once `{ApiObject T} (cl : ClientRef) (name namespace : string)
    (w : World) (c : Cluster) :
  let m := utils.IsResourceExists (T := T) cl name namespace in
  cluster_of cl w = Some c →
  calls_of m w = [mkCall VGet cl kind namespace name]
  ∧ hub (after m w) = hub w
  ∧ remotes (after m w) = remotes w
  ∧ (next_call_succeeds w →
     result m w = Ok (bool_decide (is_Some (objects c !! (namespace, name)))))
  ∧ (∀ msg, head (faults w) = Some (Some msg) →
       result m w = Err (StatusError ReasonInternalError msg)).
Proof.
  intros m Hc. unfold m, calls_of, after, result, utils.IsResourceExists, bind, try.
  rewrite (Get_run cl namespace name w c Hc).
  unfold found, next_call_succeeds.
  destruct (head (faults w)) as [[msg|]|]; simpl;
    [|destruct (objects c !! (namespace, name)) as [o|] eqn:Ho; simpl..];
    rewrite drop_app_length; repeat split; try done.
  all: try (by intros ? [= <-]).
  all: intros _; try (by rewrite bool_decide_eq_true_2).
  all: rewrite bool_decide_eq_false_2; [done|]; by intros [? ?].
Qed.

(** ** The helpers of package k8s *)

Section k8s_props.
Context {cfg : Config} {ext : Externals}.

(** X4. Reading a kubeconfig reads one secret, in namespace kcm-system,
    and changes no cluster; a kubeconfig it returns is the entry value
    of the data of that secret; a missing secret or a missing entry is
    an error, and no error it returns counts as NotFound. *)
Theorem kubeconfig_from_secret (cl : ClientRef) (secretName : string) (w : World) :
  let m := k8s.GetKubeconfigFromSecret cl secretName in
  let key := (k8s.DefaultKCMSystemNamespace, secretName) in
  calls_of m w = [mkCall VGet cl "Secret" "kcm-system" secretName]
  ∧ same_clusters (after m w) w
  ∧ (∀ e, result m w = Err e → IsNotFound e = false)
  ∧ (∀ kubeconfig, result m w = Ok kubeconfig →
       ∃ c secret, cluster_of cl w = Some c ∧ secrets c !! key = Some secret
                   ∧ Data secret !! "value" = Some kubeconfig)
  ∧ (∀ c, next_call_succeeds w → cluster_of cl w = Some c →
       result m w
       = match secrets c !! key with
         | None => Err (Errorf "failed to get secret" (StatusError ReasonNotFound secretName))
         | Some secret =>
             match Data secret !! "value" with
             | None => Err (ErrorsNew "kubeconfig is empty")
             | Some kubeconfig => Ok kubeconfig
             end
         end).
Proof.
  intros m key. unfold m, calls_of, after, result, k8s.GetKubeconfigFromSecret, k8s.GetSecret,
    k8s.GetSecretValue, bind, try.
  apply Get_cases. intros r Hok Hrun _.
  assert (∀ c', next_call_succeeds w → cluster_of cl w = Some c' →
            r = match secrets c' !! key with
                | Some secret => Ok secret
                | None => Err (StatusError ReasonNotFound secretName)
                end) as Hrun' by exact Hrun.
  destruct r as [secret|e]; [destruct (Data secret !! "value") as [kc|] eqn:Hv|];
    simpl; rewrite drop_app_length; (split; [done|]); (split; [done|]).
  - destruct (Hok secret eq_refl) as (c & Hc & Hs).
    split; [done|]. split.
    + intros ? [= <-]. by exists c, secret.
    + intros c' Hn Hc'. specialize (Hrun' c' Hn Hc').
      destruct (secrets c' !! key); [|done]. injection Hrun' as <-. by rewrite Hv.
  - split; [by intros ? [= <-]|]. split; [done|].
    intros c' Hn Hc'. specialize (Hrun' c' Hn Hc').
    destruct (secrets c' !! key); [|done]. injection Hrun' as <-. by rewrite Hv.
  - split; [by intros ? [= <-]|]. split; [done|].
    intros c' Hn Hc'. specialize (Hrun' c' Hn Hc').
    destruct (secrets c' !! key); [done|]. by injection Hrun' as ->.
Qed.

End k8s_props.

Section k8s_props2.
Context {cfg : Config} {ext : Externals}.

(** X9. The kubeconfig of a region: at most three reads through the
    given client and no change; the empty region name is refused before
    any call; a region that names neither a cluster deployment nor a
    kubeconfig secret gives no kubeconfig and no error; no error counts
    as NotFound. *)
Theorem kubeconfig_by_region_name (cl : ClientRef) (regionName : string) (w : World) :
  let m := k8s.GetKubeconfigByRegionName cl regionName in
  Forall (reads_on cl) (calls_of m w)
  ∧ (length (calls_of m w) ≤ 3)%nat
  ∧ same_clusters (after m w) w
  ∧ (∀ e, result m w = Err e → IsNotFound e = false)
  ∧ (regionName = "" →
     result m w = Err (ErrorsNew "region name is empty") ∧ calls_of m w = [])
  ∧ (∀ c region, regionName ≠ "" → next_call_succeeds w → cluster_of cl w = Some c →
       regions c !! ("", regionName) = Some region →
       regionClusterDeployment region = None → regionKubeConfig region = None →
       result m w = Ok None ∧ calls_of m w = [mkCall VGet cl "Region" "" regionName]).
Proof.
  intros m.
  assert (∀ P : Result (option Bytes) * World → Prop,
            (∀ r d w', calls w' = (calls w ++ d)%list → Forall (reads_on cl) d →
               (length d ≤ 3)%nat → same_clusters w' w →
               (∀ e, r = Err e → IsNotFound e = false) →
               (regionName = "" → r = Err (ErrorsNew "region name is empty") ∧ d = []) →
               (∀ c region, regionName ≠ "" → next_call_succeeds w → cluster_of cl w = Some c →
                  regions c !! ("", regionName) = Some region →
                  regionClusterDeployment region = None → regionKubeConfig region = None →
                  r = Ok None ∧ d = [mkCall VGet cl "Region" "" regionName]) →
               P (r, w')) →
            P (m w)) as Hrun.
  { intros P HP. unfold m, k8s.GetKubeconfigByRegionName, k8s.GetKubeconfigFromClusterDeployment,
      k8s.GetKubeconfigFromSecret, k8s.GetSecret, k8s.GetSecretValue.
    destruct (regionName =? "")%string eqn:Hname.
    { apply String.eqb_eq in Hname. apply (HP _ []); try done.
      - by rewrite app_nil_r.
      - simpl. lia.
      - by intros ? [= <-]. }
    apply String.eqb_neq in Hname.
    unfold bind, try. apply Get_cases. intros r1 _ Hr1 _.
    assert (∀ c region', next_call_succeeds w → cluster_of cl w = Some c →
              regions c !! ("", regionName) = Some region' → r1 = Ok region') as Hreg.
    { intros c region' Hn Hc Hreg. specialize (Hr1 c Hn Hc).
      unfold found in Hr1. simpl in Hr1. by rewrite Hreg in Hr1. }
    clear Hr1.
    destruct r1 as [region|e1].
    2: { eapply HP; [simpl; reflexivity|..]; try done.
         - repeat constructor.
         - simpl. lia.
         - by intros ? [= <-].
         - intros c region _ Hn Hc Hr _ _. by specialize (Hreg c region Hn Hc Hr). }
    destruct (regionClusterDeployment region) as [ref|] eqn:Href.
    - assert (∀ c region', regionName ≠ "" → next_call_succeeds w → cluster_of cl w = Some c →
                regions c !! ("", regionName) = Some region' →
                regionClusterDeployment region' = None → regionKubeConfig region' = None →
                False) as Hno.
      { intros c region' _ Hn Hc Hr Hnone _. specialize (Hreg c region' Hn Hc Hr). congruence. }
      apply Get_cases. intros r2 _ _ _. destruct r2 as [cd|e2].
      2: { eapply HP; [simpl; rewrite <- ?app_assoc; reflexivity|..]; try done.
           - repeat constructor.
           - simpl. lia.
           - by intros ? [= <-].
           - intros. exfalso. by eapply Hno. }
      apply Get_cases. intros r3 _ _ _.
      destruct r3 as [secret|e3]; [destruct (Data secret !! "value") as [kc|]|].
      all: eapply HP; [simpl; rewrite <- ?app_assoc; reflexivity|..]; try done.
      all: try (by repeat constructor).
      all: try (by intros ? [= <-]).
      all: intros; exfalso; by eapply Hno.
    - destruct (regionKubeConfig region) as [ref|] eqn:Hkc.
      + assert (∀ c region', regionName ≠ "" → next_call_succeeds w → cluster_of cl w = Some c →
                  regions c !! ("", regionName) = Some region' →
                  regionClusterDeployment region' = None → regionKubeConfig region' = None →
                  False) as Hno.
        { intros c region' _ Hn Hc Hr _ Hnone. specialize (Hreg c region' Hn Hc Hr). congruence. }
        apply Get_cases. intros r3 _ _ _.
        destruct r3 as [secret|e3]; [destruct (Data secret !! "value") as [kc|]|].
        all: eapply HP; [simpl; rewrite <- ?app_assoc; reflexivity|..]; try done.
        all: try (by repeat constructor).
        all: try (simpl; lia).
        all: try (by intros ? [= <-]).
        all: intros; exfalso; by eapply Hno.
      + eapply HP; [simpl; reflexivity|..]; try done.
        * repeat constructor.
        * simpl. lia. }
  unfold calls_of, after, result.
  apply Hrun. intros r d w' Hc Hd Hl Hs He Hempty Hnone. simpl.
  rewrite Hc, drop_app_length. done.
Qed.

End k8s_props2.

Lemma List_run `{ApiObject T} (cl : ClientRef) (sel : gmap string string → bool)
    (w : World) (c : Cluster) :
  cluster_of cl w = Some c →
  client.List (T := T) cl sel w
  = (match head (faults w) with
     | Some (Some msg) => Err (StatusError ReasonInternalError msg)
     | _ => Ok (filter (fun obj => sel (Labels (object_meta obj)) = true)
                  (snd <$> map_to_list (objects c)))
     end, called (mkCall VList cl kind "" "") w).
Proof.
  intros Hc. unfold client.List, client.call, bind, called, ret. simpl. rewrite Hc.
  by destruct (head (faults w)) as [[msg|]|].
Qed.

Lemma elem_of_listed `{ApiObject T} (c : Cluster) (obj : T) :
  obj ∈ filter (fun obj => everything (Labels (object_meta obj)) = true)
          (snd <$> map_to_list (objects c))
  ↔ ∃ k, objects c !! k = Some obj.
Proof.
  rewrite list_elem_of_filter, list_elem_of_fmap. split.
  - intros [_ ([k o] & -> & Hin)]. apply elem_of_map_to_list in Hin. eauto.
  - intros [k Hk]. split; [done|]. exists (k, obj). split; [done|].
    by apply elem_of_map_to_list.
Qed.

Section k8s_props3.
Context {cfg : Config} {ext : Externals}.

(** X8. The two lookups of the region of a cluster read different
    things: the first reads the credential named by the cluster in kcm-
    system and fails when it is absent; the second lists the credentials
    of all namespaces and answers the region of one with that name, or
    the empty name when there is none. They agree when the credentials
    of that name all have the region of the one in kcm-system. *)
Theorem region_helpers_agree (cl : ClientRef) (cd : ClusterDeployment) (w : World)
    (c : Cluster) :
  let key := (k8s.DefaultKCMSystemNamespace, Credential cd) in
  let created := k8s.CreatedInKCMRegion cl cd in
  let region := k8s.GetKcmRegionClusterNameRelatedToClusterDeployment cl cd in
  cluster_of cl w = Some c →
  next_call_succeeds w →
  result created w
  = match credentials c !! key with
    | Some cred => Ok (negb (String.eqb (credRegion cred) ""))
    | None => Err (StatusError ReasonNotFound (Credential cd))
    end
  ∧ calls_of created w = [mkCall VGet cl "Credential" "kcm-system" (Credential cd)]
  ∧ calls_of region w = [mkCall VList cl "Credential" "" ""]
  ∧ (∃ name, result region w = Ok name
       ∧ (name = ""
          ∨ ∃ k cred, credentials c !! k = Some cred
                      ∧ Name (credMeta cred) = Credential cd ∧ credRegion cred = name))
  ∧ (∀ cred, credentials c !! key = Some cred →
       Name (credMeta cred) = Credential cd →
       (∀ k cred', credentials c !! k = Some cred' →
          Name (credMeta cred') = Credential cd → credRegion cred' = credRegion cred) →
       result region w = Ok (credRegion cred)).
Proof.
  intros key created region Hc Hn.
  unfold created, region, result, calls_of, after, k8s.CreatedInKCMRegion,
    k8s.GetKcmRegionClusterNameRelatedToClusterDeployment, bind.
  rewrite (Get_run (T := CredentialCR) cl _ _ w c Hc),
    (List_run (T := CredentialCR) cl everything w c Hc).
  unfold next_call_succeeds in Hn. unfold found. cbn [objects Credential_resource]. fold key.
  set (l := filter _ _).
  assert (∀ cred, cred ∈ l ↔ ∃ k, credentials c !! k = Some cred) as Hl.
  { intros cred. exact (elem_of_listed (T := CredentialCR) c cred). }
  clearbody l.
  assert (∃ name,
            (match find (fun cred => (Name (credMeta cred) =? Credential cd)%string) l with
             | Some cred => ret (credRegion cred)
             | None => ret ""
             end) (called (mkCall VList cl "Credential" "" "") w)
            = (Ok name, called (mkCall VList cl "Credential" "" "") w)
            ∧ (name = ""
               ∨ ∃ k cred, credentials c !! k = Some cred
                           ∧ Name (credMeta cred) = Credential cd ∧ credRegion cred = name)
            ∧ (∀ cred, credentials c !! key = Some cred →
                 Name (credMeta cred) = Credential cd →
                 (∀ k cred', credentials c !! k = Some cred' →
                    Name (credMeta cred') = Credential cd → credRegion cred' = credRegion cred) →
                 name = credRegion cred)) as (name & Hrun & Hsound & Hcomplete).
  { destruct (find _ l) as [found_|] eqn:Hfind.
    - apply find_some in Hfind as [Hin Heq]. apply String.eqb_eq in Heq.
      apply list_elem_of_In, Hl in Hin as [k Hk].
      exists (credRegion found_). split; [done|]. split; [right; by eauto|].
      intros cred _ _ Huniq. by apply (Huniq k).
    - exists "". split; [done|]. split; [by left|].
      intros cred Hcred Hname _. exfalso.
      assert (cred ∈ l) as Hin by (apply Hl; eauto).
      apply list_elem_of_In in Hin. apply (find_none _ _ Hfind) in Hin.
      apply String.eqb_neq in Hin. done. }
  destruct (head (faults w)) as [[msg|]|]; [done| |].
  all: cbn [kind Credential_resource]; rewrite Hrun; simpl; rewrite !drop_app_length.
  all: split;
    [by destruct (credentials c !! key) as [cred|];
       [destruct (credRegion cred =? "")%string|]|].
  all: split;
    [destruct (credentials c !! key) as [cred|];
       [destruct (credRegion cred =? "")%string|]; simpl; by rewrite ?drop_app_length|].
  all: split; [done|].
  all: split; [by eauto|].
  all: intros cred H1 H2 H3; by rewrite (Hcomplete cred H1 H2 H3).
Qed.

(** X7. The version test never fails and issues one call. When the
    version of the server cannot be read it answers true, and so does
    the comparison, in both directions, when a version does not parse;
    when both versions parse, less-than is the negation of at-least. *)
Theorem version_check_fails_open (cl : ClientRef) (minorVersion : nat) (w : World) :
  let m := k8s.IsAtLeastVersion cl minorVersion in
  let parsed (v : string * string) :=
    (ParseGeneric ("v" ++ fst v ++ "." ++ snd v ++ ".0"),
     ParseGeneric ("v1." ++ pretty minorVersion ++ ".0")) in
  (∃ b, result m w = Ok b)
  ∧ calls_of m w = [mkCall VServerVersion cl "" "" ""]
  ∧ same_clusters (after m w) w
  ∧ (head (faults w) = None ∨ head (faults w) = Some None → ∀ c, cluster_of cl w = Some c →
     result m w = Ok (k8s.IsKubeAtLeastOrLessThanVersion (serverVersion c) minorVersion true))
  ∧ ((∃ msg, head (faults w) = Some (Some msg)) ∨ cluster_of cl w = None →
     result m w = Ok true)
  ∧ (∀ v, fst (parsed v) = None ∨ snd (parsed v) = None →
       k8s.IsKubeAtLeastOrLessThanVersion v minorVersion true = true
       ∧ k8s.IsKubeAtLeastOrLessThanVersion v minorVersion false = true)
  ∧ (∀ v, is_Some (fst (parsed v)) → is_Some (snd (parsed v)) →
       k8s.IsKubeAtLeastOrLessThanVersion v minorVersion false
       = negb (k8s.IsKubeAtLeastOrLessThanVersion v minorVersion true)).
Proof.
  intros m parsed.
  unfold m, result, calls_of, after, k8s.IsAtLeastVersion, k8s.GetKubernetesVersion,
    client.call, bind, try, ret. simpl.
  split; [|split; [|split; [|split; [|split; [|split]]]]].
  - destruct (head (faults w)) as [[msg|]|]; [by eauto|..];
      destruct (cluster_of cl w); by eauto.
  - destruct (head (faults w)) as [[msg|]|]; [|destruct (cluster_of cl w)..];
      simpl; by rewrite drop_app_length.
  - destruct (head (faults w)) as [[msg|]|]; [|destruct (cluster_of cl w)..]; done.
  - intros [-> | ->] c ->; done.
  - intros [[msg ->] | ->]; [done|]. by destruct (head (faults w)) as [[msg|]|].
  - intros v. unfold parsed, k8s.IsKubeAtLeastOrLessThanVersion. simpl.
    intros [-> | Hev]; [done|].
    destruct (ParseGeneric ("v" ++ _ ++ "." ++ _ ++ ".0")); [|done]. by rewrite Hev.
  - intros v. unfold parsed, k8s.IsKubeAtLeastOrLessThanVersion. simpl.
    intros [cv ->] [ev ->]. done.
Qed.

(** X6. For a cluster that is not adopted the name of the kubeconfig
    secret is the name of the cluster followed by -kubeconfig, without
    any call. For an adopted cluster it is the name in the identity
    reference of its credential, read in the namespace of the cluster: a
    reference of another kind than Secret is refused, and a missing
    credential is an error that still counts as NotFound. *)
Theorem kubeconfig_secret_name (cl : ClientRef) (cd : ClusterDeployment) (w : World) :
  let m := k8s.GetKubeconfigSecretName cl cd in
  let key := (Namespace (cdMeta cd), Credential cd) in
  (utils.IsAdopted cd = false →
     m w = (Ok (Name (cdMeta cd) ++ "-kubeconfig"), w))
  ∧ (utils.IsAdopted cd = true →
     calls_of m w = [mkCall VGet cl "Credential" (Namespace (cdMeta cd)) (Credential cd)]
     ∧ same_clusters (after m w) w
     ∧ (∀ name, result m w = Ok name →
          ∃ c cred, cluster_of cl w = Some c ∧ credentials c !! key = Some cred
                    ∧ refKind (credIdentityRef cred) = "Secret"
                    ∧ refName (credIdentityRef cred) = name)
     ∧ (∀ c cred, next_call_succeeds w → cluster_of cl w = Some c →
          credentials c !! key = Some cred →
          result m w
          = if String.eqb (refKind (credIdentityRef cred)) "Secret"
            then Ok (refName (credIdentityRef cred))
            else Err (ErrorsNew ("unsupported Credential IdentityRef kind "
                                   ++ refKind (credIdentityRef cred) ++ " for adopted cluster")))
     ∧ (∀ c, next_call_succeeds w → cluster_of cl w = Some c →
          credentials c !! key = None →
          ∃ e, result m w = Err e ∧ IsNotFound e = true)).
Proof.
  intros m key. unfold m, k8s.GetKubeconfigSecretName. split.
  - intros ->. done.
  - intros ->. unfold calls_of, after, result, k8s.GetAdoptedClusterSecretName, bind, try.
    apply Get_cases. intros r Hok Hrun _.
    assert (∀ c, next_call_succeeds w → cluster_of cl w = Some c →
              r = match credentials c !! key with
                  | Some cred => Ok cred
                  | None => Err (StatusError ReasonNotFound (Credential cd))
                  end) as Hrun' by exact Hrun.
    clear Hrun.
    destruct r as [cred|e];
      [destruct (refKind (credIdentityRef cred) =? "Secret")%string eqn:Hkind|];
      simpl; rewrite drop_app_length; (split; [done|]); (split; [done|]).
    + destruct (Hok cred eq_refl) as (c & Hc & Hcred). apply String.eqb_eq in Hkind.
      split; [intros ? [= <-]; by exists c, cred|].
      split.
      * intros c' cred' Hn Hc' Hl. specialize (Hrun' c' Hn Hc'). rewrite Hl in Hrun'.
        injection Hrun' as ->. apply String.eqb_eq in Hkind. by rewrite Hkind.
      * intros c' Hn Hc' Hl. specialize (Hrun' c' Hn Hc'). by rewrite Hl in Hrun'.
    + split; [done|]. split.
      * intros c' cred' Hn Hc' Hl. specialize (Hrun' c' Hn Hc'). rewrite Hl in Hrun'.
        injection Hrun' as ->. by rewrite Hkind.
      * intros c' Hn Hc' Hl. specialize (Hrun' c' Hn Hc'). by rewrite Hl in Hrun'.
    + split; [done|]. split.
      * intros c' cred' Hn Hc' Hl. specialize (Hrun' c' Hn Hc'). by rewrite Hl in Hrun'.
      * intros c' Hn Hc' Hl. specialize (Hrun' c' Hn Hc'). rewrite Hl in Hrun'.
        injection Hrun' as ->. by eauto.
Qed.

(** X5. A client built from a secret reads that one secret in the given
    namespace and changes no cluster; the client it returns is the one
    behind the entry value of the secret, which must be a kubeconfig of
    a known cluster; no error it returns counts as NotFound. *)
Theorem kube_client_from_secret (cl : ClientRef) (secretName namespace : string) (w : World) :
  let m := k8s.NewKubeClientFromSecret cl secretName namespace in
  calls_of m w = [mkCall VGet cl "Secret" namespace secretName]
  ∧ same_clusters (after m w) w
  ∧ (∀ e, result m w = Err e → IsNotFound e = false)
  ∧ (∀ kubeClient, result m w = Ok kubeClient →
       ∃ c secret kubeconfig,
         cluster_of cl w = Some c ∧ secrets c !! (namespace, secretName) = Some secret
         ∧ Data secret !! "value" = Some kubeconfig
         ∧ kubeClient = Remote kubeconfig ∧ is_Some (remotes w !! kubeconfig))
  ∧ (∀ c secret kubeconfig, next_call_succeeds w → cluster_of cl w = Some c →
       secrets c !! (namespace, secretName) = Some secret →
       Data secret !! "value" = Some kubeconfig → is_Some (remotes w !! kubeconfig) →
       result m w = Ok (Remote kubeconfig)).
Proof.
  intros m. unfold m, calls_of, after, result, k8s.NewKubeClientFromSecret, k8s.GetSecret,
    k8s.GetSecretValue, k8s.NewKubeClientFromKubeconfig, bind, try.
  apply Get_cases. intros r Hok Hrun _.
  assert (∀ c, next_call_succeeds w → cluster_of cl w = Some c →
            r = match secrets c !! (namespace, secretName) with
                | Some secret => Ok secret
                | None => Err (StatusError ReasonNotFound secretName)
                end) as Hrun' by exact Hrun.
  clear Hrun.
  destruct r as [secret|e];
    [destruct (Data secret !! "value") as [kc|] eqn:Hv;
       [simpl; destruct (remotes w !! kc) as [rc|] eqn:Hrc|]|];
    simpl; rewrite drop_app_length; (split; [done|]); (split; [done|]).
  - destruct (Hok secret eq_refl) as (c & Hc & Hs).
    split; [done|]. split.
    + intros ? [= <-]. exists c, secret, kc. by rewrite Hrc.
    + intros c' secret' kc' Hn Hc' Hl Hv' _. specialize (Hrun' c' Hn Hc').
      rewrite Hl in Hrun'. injection Hrun' as ->. congruence.
  - split; [by intros ? [= <-]|]. split; [done|].
    intros c' secret' kc' Hn Hc' Hl Hv' [rc Hrc']. specialize (Hrun' c' Hn Hc').
    rewrite Hl in Hrun'. injection Hrun' as ->. congruence.
  - split; [by intros ? [= <-]|]. split; [done|].
    intros c' secret' kc' Hn Hc' Hl Hv' _. specialize (Hrun' c' Hn Hc').
    rewrite Hl in Hrun'. injection Hrun' as ->. congruence.
  - split; [by intros ? [= <-]|]. split; [done|].
    intros c' secret' kc' Hn Hc' Hl Hv' _. specialize (Hrun' c' Hn Hc').
    by rewrite Hl in Hrun'.
Qed.

End k8s_props3.

(** ** The certificate manager *)

Section cert_props.
Context {cfg : Config} {ext : Externals}.

Lemma cert_TryCreate_run (cd : ClusterDeployment) (w : World)
    (P : Result unit * World → Prop) :
  let certKey := (IstioSystemNamespace,
                  cert.GetCertName (Name (cdMeta cd)) (Namespace (cdMeta cd))) in
  let caKey := ("", cert.GetCertNameHash (Name (cdMeta cd)) (Namespace (cdMeta cd))) in
  let credKey := (k8s.DefaultKCMSystemNamespace, Credential cd) in
  let generated := cert.generateClusterCACertificate (cert.New Hub) cd in
  let create_cert := mkCall VCreate Hub "Certificate" (fst certKey) (snd certKey) in
  let get_cred := mkCall VGet Hub "Credential" (fst credKey) (snd credKey) in
  let create_mcs := mkCall VCreate Hub "MultiClusterService" (fst caKey) (snd caKey) in
  (∀ r w' d,
     calls w' = (calls w ++ d)%list →
     secrets (hub w') = secrets (hub w) →
     clusterDeployments (hub w') = clusterDeployments (hub w) →
     credentials (hub w') = credentials (hub w) →
     remotes w' = remotes w →
     (certificates (hub w') = certificates (hub w)
      ∨ (certificates (hub w) !! certKey = None
         ∧ certificates (hub w') = <[certKey := generated]> (certificates (hub w)))) →
     (multiClusterServices (hub w') = multiClusterServices (hub w)
      ∨ (multiClusterServices (hub w) !! caKey = None
         ∧ utils.IsClusterDeploymentReady cd = true ∧ utils.IsInMesh cd = true
         ∧ (∃ cred, credentials (hub w) !! credKey = Some cred
                    ∧ (credRegion cred =? "")%string = false)
         ∧ multiClusterServices (hub w')
           = <[caKey := cert.caMultiClusterService cd]> (multiClusterServices (hub w)))) →
     (is_ok r = true → is_Some (certificates (hub w') !! certKey)) →
     d `prefix_of` [create_cert; get_cred; create_mcs] →
     (utils.IsClusterDeploymentReady cd = false ∨ utils.IsInMesh cd = false →
      d = [create_cert]) →
     (faults w = [] →
      (utils.IsClusterDeploymentReady cd = false ∨ utils.IsInMesh cd = false
       ∨ is_Some (credentials (hub w) !! credKey) → r = Ok tt)
      ∧ (∀ cred, utils.IsClusterDeploymentReady cd = true → utils.IsInMesh cd = true →
           credentials (hub w) !! credKey = Some cred →
           (credRegion cred =? "")%string = false →
           is_Some (multiClusterServices (hub w') !! caKey))) →
     P (r, w')) →
  P (cert.TryCreate (cert.New Hub) cd w).
Proof.
  intros certKey caKey credKey generated create_cert get_cred create_mcs HP.
  unfold cert.TryCreate, cert.createCertificate, cert.createCaMultiClusterService,
    cert.sendCreationEvent, k8s.CreatedInKCMRegion, cert.New, cert.k8sClient.
  run. on_create; run;
    change (Namespace (certMeta (cert.generateClusterCACertificate {| cert.k8sClient := Hub |} cd)))
      with IstioSystemNamespace;
    change (Name (certMeta (cert.generateClusterCACertificate {| cert.k8sClient := Hub |} cd)))
      with (cert.GetCertName (Name (cdMeta cd)) (Namespace (cdMeta cd)));
    fold certKey.
  { intros msg Hf. post HP. }
  all: intros Hn Hcert.
  all: destruct (utils.IsClusterDeploymentReady cd) eqn:Hready; run; [|post HP].
  all: destruct (utils.IsInMesh cd) eqn:Hmesh; run; [|post HP].
  all: on_get CredentialCR; run;
    [intros msg Hf; post HP
    |intros Hn2 Hcred; fold credKey in Hcred; post HP
    |intros cred Hn2 Hcred; fold credKey in Hcred].
  all: destruct (credRegion cred =? "")%string eqn:Hregion; run; [post HP|].
  all: on_create; run;
    change (Name (mcsMeta (cert.caMultiClusterService cd)))
      with (cert.GetCertNameHash (Name (cdMeta cd)) (Namespace (cdMeta cd)));
    change (Namespace (mcsMeta (cert.caMultiClusterService cd))) with "";
    fold caKey;
    [intros msg Hf; post HP | intros Hn3 Hmcs; post HP | intros Hn3 Hmcs; post HP].
Qed.

(** X10. The create path of the certificate manager only adds: the
    certificates and the descriptors of the management cluster are
    unchanged or gain the certificate of the cluster, respectively the
    descriptor that propagates it, under a key that was free; secrets,
    cluster deployments, credentials and the member clusters are
    untouched; after a success the certificate exists. *)
Theorem cert_create_only_adds (cd : ClusterDeployment) (w : World) :
  let m := cert.TryCreate (cert.New Hub) cd in
  let certKey := (IstioSystemNamespace,
                  cert.GetCertName (Name (cdMeta cd)) (Namespace (cdMeta cd))) in
  let caKey := ("", cert.GetCertNameHash (Name (cdMeta cd)) (Namespace (cdMeta cd))) in
  let h := hub w in
  let h' := hub (after m w) in
  secrets h' = secrets h
  ∧ clusterDeployments h' = clusterDeployments h
  ∧ credentials h' = credentials h
  ∧ remotes (after m w) = remotes w
  ∧ (certificates h' = certificates h
     ∨ (certificates h !! certKey = None
        ∧ certificates h'
          = <[certKey := cert.generateClusterCACertificate (cert.New Hub) cd]>
              (certificates h)))
  ∧ (multiClusterServices h' = multiClusterServices h
     ∨ (multiClusterServices h !! caKey = None
        ∧ multiClusterServices h'
          = <[caKey := cert.caMultiClusterService cd]> (multiClusterServices h)))
  ∧ (is_ok (result m w) = true → is_Some (certificates h' !! certKey)).
Proof.
  intros m certKey caKey h h'. unfold h', m, result, after.
  apply cert_TryCreate_run. intros r w' d _ Hs Hcd Hcr Hr Hc Hm Hok _ _ _. simpl.
  repeat (split; [done|]). split; [|done].
  destruct Hm as [?|(? & _ & _ & _ & ?)]; [by left | by right].
Qed.

(** X11. The descriptor that propagates the CA certificate is created
    only for a cluster that is ready, carries the mesh label and whose
    credential in kcm-system names a region; its selector is then the
    value of the mesh label together with the regional-cluster label.
    The calls are a prefix of: create the certificate, read the
    credential, create the descriptor; for a cluster not ready or
    outside a mesh the certificate is the only call. *)
Theorem ca_descriptor_is_gated (cd : ClusterDeployment) (w : World) :
  let m := cert.TryCreate (cert.New Hub) cd in
  let certKey := (IstioSystemNamespace,
                  cert.GetCertName (Name (cdMeta cd)) (Namespace (cdMeta cd))) in
  let caKey := ("", cert.GetCertNameHash (Name (cdMeta cd)) (Namespace (cdMeta cd))) in
  let credKey := (k8s.DefaultKCMSystemNamespace, Credential cd) in
  let create_cert := mkCall VCreate Hub "Certificate" (fst certKey) (snd certKey) in
  let get_cred := mkCall VGet Hub "Credential" (fst credKey) (snd credKey) in
  let create_mcs := mkCall VCreate Hub "MultiClusterService" (fst caKey) (snd caKey) in
  calls_of m w `prefix_of` [create_cert; get_cred; create_mcs]
  ∧ (utils.IsClusterDeploymentReady cd = false ∨ utils.IsInMesh cd = false →
     calls_of m w = [create_cert])
  ∧ (multiClusterServices (hub (after m w)) ≠ multiClusterServices (hub w) →
     utils.IsClusterDeploymentReady cd = true
     ∧ (∃ mesh, Labels (cdMeta cd) !! utils.IstioMeshLabel = Some mesh
                ∧ MatchLabels (cert.caMultiClusterService cd)
                  = {[ utils.IstioMeshLabel := mesh;
                       "k0rdent.mirantis.com/kcm-region-cluster" := "true" ]})
     ∧ (∃ cred, credentials (hub w) !! credKey = Some cred ∧ credRegion cred ≠ ""))
  ∧ (faults w = [] →
     (utils.IsClusterDeploymentReady cd = false ∨ utils.IsInMesh cd = false
      ∨ is_Some (credentials (hub w) !! credKey) → result m w = Ok tt)
     ∧ (∀ cred, utils.IsClusterDeploymentReady cd = true → utils.IsInMesh cd = true →
          credentials (hub w) !! credKey = Some cred → credRegion cred ≠ "" →
          is_Some (multiClusterServices (hub (after m w)) !! caKey))).
Proof.
  intros m certKey caKey credKey create_cert get_cred create_mcs.
  unfold m, calls_of, result, after.
  apply cert_TryCreate_run. intros r w' d Hd _ _ _ _ _ Hm _ Hp Hg Hf. simpl.
  rewrite Hd, drop_app_length. split; [done|]. split; [done|]. split.
  - intros Hne. destruct Hm as [?|(_ & Hr & Hmesh & (cred & Hc & Hreg) & _)]; [done|].
    split; [done|]. split.
    + unfold utils.IsInMesh in Hmesh. apply bool_decide_eq_true in Hmesh as [mesh Hmesh].
      exists mesh. split; [done|]. unfold cert.caMultiClusterService, index. simpl.
      by rewrite Hmesh.
    + exists cred. split; [done|]. by apply String.eqb_neq.
  - intros Hnil. destruct (Hf Hnil) as [H1 H2]. split; [done|].
    intros cred ? ? ? Hreg. apply (H2 cred); try done. by apply String.eqb_neq.
Qed.

Lemma cert_TryDelete_run (req : Request) (w : World) (P : Result unit * World → Prop) :
  let certKey := (IstioSystemNamespace, cert.GetCertName (reqName req) (reqNamespace req)) in
  let caKey := ("", cert.GetCertNameHash (reqName req) (reqNamespace req)) in
  let delete_cert := mkCall VDelete Hub "Certificate" (fst certKey) (snd certKey) in
  let delete_mcs := mkCall VDelete Hub "MultiClusterService" (fst caKey) (snd caKey) in
  let h := hub w in
  (∀ r w' d,
     calls w' = (calls w ++ d)%list →
     secrets (hub w') = secrets h →
     clusterDeployments (hub w') = clusterDeployments h →
     credentials (hub w') = credentials h →
     remotes w' = remotes w →
     d `prefix_of` [delete_cert; delete_mcs] →
     (certificates (hub w') = certificates h
      ∨ certificates (hub w') = delete certKey (certificates h)) →
     (multiClusterServices (hub w') = multiClusterServices h
      ∨ (is_Some (certificates h !! certKey)
         ∧ multiClusterServices (hub w') = delete caKey (multiClusterServices h))) →
     (is_ok r = true → certificates (hub w') !! certKey = None) →
     (faults w = [] →
      r = Ok tt
      ∧ certificates (hub w') = delete certKey (certificates h)
      ∧ multiClusterServices (hub w')
        = match certificates h !! certKey with
          | Some _ => delete caKey (multiClusterServices h)
          | None => multiClusterServices h
          end
      ∧ d = match certificates h !! certKey with
            | Some _ => [delete_cert; delete_mcs]
            | None => [delete_cert]
            end
      ∧ events w'
        = (events w ++ match certificates h !! certKey, multiClusterServices h !! caKey with
                       | Some _, Some _ => [certificateDeleted req]
                       | _, _ => []
                       end)%list) →
     P (r, w')) →
  P (cert.TryDelete (cert.New Hub) req w).
Proof.
  intros certKey caKey delete_cert delete_mcs h HP. unfold h in *. clear h.
  unfold cert.TryDelete, cert.sendDeletionEvent, cert.New, cert.k8sClient.
  run. on_delete; run; fold certKey.
  { intros msg Hf. post HP. }
  { intros Hn Hcert. post HP.
    intros _. rewrite Hcert, delete_id by done. by rewrite app_nil_r. }
  intros Hn [crt Hcert]. on_delete; run; fold caKey.
  - intros msg Hf. post HP.
  - intros Hn2 Hmcs. post HP.
    + intros _. apply lookup_delete_eq.
    + intros _. rewrite Hcert, Hmcs, (delete_id _ caKey) by done. by rewrite app_nil_r.
  - intros Hn2 [mcs Hmcs]. post HP.
    + intros _. apply lookup_delete_eq.
    + intros _. by rewrite Hcert, Hmcs.
Qed.

(** X12. With no failing call the delete path of the certificate manager
    succeeds; the certificate is gone; the descriptor that propagates it
    is deleted only if the certificate was there; the deletion event is
    recorded only if both were there. *)
Theorem cert_delete_removes_both (req : Request) (w : World) :
  let m := cert.TryDelete (cert.New Hub) req in
  let certKey := (IstioSystemNamespace, cert.GetCertName (reqName req) (reqNamespace req)) in
  let caKey := ("", cert.GetCertNameHash (reqName req) (reqNamespace req)) in
  let delete_cert := mkCall VDelete Hub "Certificate" (fst certKey) (snd certKey) in
  let delete_mcs := mkCall VDelete Hub "MultiClusterService" (fst caKey) (snd caKey) in
  let h := hub w in
  let h' := hub (after m w) in
  faults w = [] →
  result m w = Ok tt
  ∧ certificates h' = delete certKey (certificates h)
  ∧ multiClusterServices h'
    = match certificates h !! certKey with
      | Some _ => delete caKey (multiClusterServices h)
      | None => multiClusterServices h
      end
  ∧ calls_of m w = match certificates h !! certKey with
                   | Some _ => [delete_cert; delete_mcs]
                   | None => [delete_cert]
                   end
  ∧ events_of m w = match certificates h !! certKey, multiClusterServices h !! caKey with
                    | Some _, Some _ => [certificateDeleted req]
                    | _, _ => []
                    end
  ∧ secrets h' = secrets h
  ∧ clusterDeployments h' = clusterDeployments h
  ∧ remotes (after m w) = remotes w.
Proof.
  intros m certKey caKey delete_cert delete_mcs h h' Hf.
  unfold h', m, result, calls_of, events_of, after.
  apply cert_TryDelete_run. intros r w' d Hd Hs Hcd _ Hr _ _ _ _ Hfin. simpl.
  destruct (Hfin Hf) as (-> & Hc & Hm & -> & He).
  rewrite Hd, He, !drop_app_length. done.
Qed.

(** X13. Whatever fails, the delete path of the certificate manager
    issues at most two calls, both deletes on the management cluster,
    touches no certificate and no descriptor other than those of the
    request, leaves secrets, cluster deployments and member clusters
    alone, and after a success the certificate does not exist. *)
Theorem cert_delete_is_safe (req : Request) (w : World) :
  let m := cert.TryDelete (cert.New Hub) req in
  let certKey := (IstioSystemNamespace, cert.GetCertName (reqName req) (reqNamespace req)) in
  let caKey := ("", cert.GetCertNameHash (reqName req) (reqNamespace req)) in
  let h := hub w in
  let h' := hub (after m w) in
  (is_ok (result m w) = true → certificates h' !! certKey = None)
  ∧ (∀ k, k ≠ certKey → certificates h' !! k = certificates h !! k)
  ∧ (∀ k, k ≠ caKey → multiClusterServices h' !! k = multiClusterServices h !! k)
  ∧ secrets h' = secrets h
  ∧ clusterDeployments h' = clusterDeployments h
  ∧ remotes (after m w) = remotes w
  ∧ Forall (fun c => verb c = VDelete ∧ target c = Hub) (calls_of m w)
  ∧ (length (calls_of m w) ≤ 2)%nat.
Proof.
  intros m certKey caKey h h'.
  unfold h', m, result, calls_of, after.
  apply cert_TryDelete_run. intros r w' d Hd Hs Hcd _ Hr Hp Hc Hm Hok _. simpl.
  rewrite Hd, !drop_app_length. split; [done|]. split; [|split].
  - intros k Hk. destruct Hc as [-> | ->]; [done|]. by rewrite lookup_delete_ne.
  - intros k Hk. destruct Hm as [-> | [_ ->]]; [done|]. by rewrite lookup_delete_ne.
  - repeat (split; [done|]). destruct Hp as [k Hk]. destruct d as [|c1 [|c2 [|c3 d]]].
    + split; [done|]. simpl. lia.
    + injection Hk as <- _. split; [by repeat constructor|]. simpl. lia.
    + injection Hk as <- <- _. split; [by repeat constructor|]. simpl. lia.
    + discriminate Hk.
Qed.

End cert_props.

(** ** The propagation manager and the deletion of the remote secret *)

Section propagation_props.
Context {cfg : Config} {ext : Externals}.

Lemma multicluster_TryCreate_run (cd : ClusterDeployment) (w : World)
    (P : Result unit * World → Prop) :
  let key := ("", multicluster.GetMultiClusterServiceName (Name (cdMeta cd))
                    (Namespace (cdMeta cd))) in
  let get := mkCall VGet Hub "MultiClusterService" (fst key) (snd key) in
  let create := mkCall VCreate Hub "MultiClusterService" (fst key) (snd key) in
  (∀ r w' d,
     calls w' = (calls w ++ d)%list →
     secrets (hub w') = secrets (hub w) →
     certificates (hub w') = certificates (hub w) →
     clusterDeployments (hub w') = clusterDeployments (hub w) →
     credentials (hub w') = credentials (hub w) →
     remotes w' = remotes w →
     d `prefix_of` [get; create] →
     (multiClusterServices (hub w') = multiClusterServices (hub w)
      ∨ (multiClusterServices (hub w) !! key = None
         ∧ multiClusterServices (hub w')
           = <[key := multicluster.remoteSecretMultiClusterService cd]>
               (multiClusterServices (hub w)))) →
     (is_ok r = true → is_Some (multiClusterServices (hub w') !! key)) →
     (faults w = [] →
      r = Ok tt
      ∧ multiClusterServices (hub w') !! key
        = Some (default (multicluster.remoteSecretMultiClusterService cd)
                  (multiClusterServices (hub w) !! key))
      ∧ d = match multiClusterServices (hub w) !! key with
            | Some _ => [get]
            | None => [get; create]
            end
      ∧ events w' = (events w ++ match multiClusterServices (hub w) !! key with
                                 | Some _ => []
                                 | None => [multiClusterServiceCreated cd]
                                 end)%list) →
     P (r, w')) →
  P (multicluster.TryCreate (multicluster.New Hub) cd w).
Proof.
  intros key get create HP.
  unfold multicluster.TryCreate, multicluster.multiClusterServiceExists,
    multicluster.createMultiClusterService, multicluster.sendCreationEvent,
    utils.IsResourceExists, multicluster.New, multicluster.mClient.
  run. on_get MultiClusterService; run; fold key.
  { intros msg Hf. post HP. }
  { intros Hn Hmcs. on_create; run;
      change (Name (mcsMeta (multicluster.remoteSecretMultiClusterService cd)))
        with (multicluster.GetMultiClusterServiceName (Name (cdMeta cd)) (Namespace (cdMeta cd)));
      change (Namespace (mcsMeta (multicluster.remoteSecretMultiClusterService cd))) with "";
      fold key.
    - intros msg Hf. post HP.
    - intros _ [? Hx]. congruence.
    - intros Hn2 _. post HP. intros _. by rewrite Hmcs, lookup_insert_eq. }
  intros mcs Hn Hmcs. post HP.
  intros _. rewrite Hmcs. simpl. by rewrite app_nil_r.
Qed.

Lemma multicluster_TryDelete_run (req : Request) (w : World)
    (P : Result unit * World → Prop) :
  let key := ("", multicluster.GetMultiClusterServiceName (reqName req) (reqNamespace req)) in
  let del := mkCall VDelete Hub "MultiClusterService" (fst key) (snd key) in
  (∀ r w',
     calls w' = (calls w ++ [del])%list →
     secrets (hub w') = secrets (hub w) →
     certificates (hub w') = certificates (hub w) →
     clusterDeployments (hub w') = clusterDeployments (hub w) →
     credentials (hub w') = credentials (hub w) →
     remotes w' = remotes w →
     (multiClusterServices (hub w') = multiClusterServices (hub w)
      ∨ multiClusterServices (hub w') = delete key (multiClusterServices (hub w))) →
     (is_ok r = true → multiClusterServices (hub w') !! key = None) →
     (∀ e, r = Err e → IsNotFound e = false) →
     (next_call_succeeds w →
      r = Ok tt
      ∧ multiClusterServices (hub w') = delete key (multiClusterServices (hub w))
      ∧ events w' = (events w ++ match multiClusterServices (hub w) !! key with
                                 | Some _ => [multiClusterServiceDeleted req]
                                 | None => []
                                 end)%list) →
     P (r, w')) →
  P (multicluster.TryDelete (multicluster.New Hub) req w).
Proof.
  intros key del HP.
  unfold multicluster.TryDelete, multicluster.sendDeletionEvent, multicluster.New,
    multicluster.mClient.
  run. on_delete; run; fold key.
  - intros msg Hf. eapply HP; run; try done; try (by left).
    all: try (by rewrite Hf). all: try (intros ? [= <-]; done).
  - intros Hn Hmcs. eapply HP; run; try done; try (by left).
    all: try (intros _; rewrite Hmcs, delete_id by done; by rewrite app_nil_r).
  - intros Hn [mcs Hmcs]. eapply HP; run; try done; try (by right).
    all: try (intros _; apply lookup_delete_eq).
    all: try (intros _; by rewrite Hmcs).
Qed.

Lemma remotesecret_TryDelete_run (creator : remotesecret.IIstioRemoteSecretCreator)
    (req : Request) (w : World) (P : Result unit * World → Prop) :
  let key := (IstioSystemNamespace,
              remotesecret.GetRemoteSecretName (reqName req) (reqNamespace req)) in
  let del := mkCall VDelete Hub "Secret" (fst key) (snd key) in
  (∀ r w',
     calls w' = (calls w ++ [del])%list →
     certificates (hub w') = certificates (hub w) →
     multiClusterServices (hub w') = multiClusterServices (hub w) →
     clusterDeployments (hub w') = clusterDeployments (hub w) →
     credentials (hub w') = credentials (hub w) →
     remotes w' = remotes w →
     (secrets (hub w') = secrets (hub w)
      ∨ secrets (hub w') = delete key (secrets (hub w))) →
     (is_ok r = true → secrets (hub w') !! key = None) →
     (∀ e, r = Err e → ∃ msg, e = StatusError ReasonInternalError msg) →
     (next_call_succeeds w →
      r = Ok tt
      ∧ secrets (hub w') = delete key (secrets (hub w))
      ∧ events w' = (events w ++ match secrets (hub w) !! key with
                                 | Some _ => [secretDeleted req]
                                 | None => []
                                 end)%list) →
     P (r, w')) →
  P (remotesecret.TryDelete (remotesecret.mkRemoteSecretManager Hub creator) req w).
Proof.
  intros key del HP.
  unfold remotesecret.TryDelete, remotesecret.sendDeletionEvent, remotesecret.rsClient.
  run. on_delete; run; fold key.
  - intros msg Hf. eapply HP; run; try done; try (by left).
    all: try (intros ? [= <-]; by eauto).
    all: try (by rewrite Hf).
  - intros Hn Hs. eapply HP; run; try done; try (by left).
    all: try (intros _; rewrite Hs, delete_id by done; by rewrite app_nil_r).
  - intros Hn [s Hs]. eapply HP; run; try done; try (by right).
    all: try (intros _; apply lookup_delete_eq).
    all: try (intros _; by rewrite Hs).
Qed.

(** X14. The create path of the propagation manager reads the descriptor
    and creates it only when the read found none: it never replaces one,
    changes nothing else, and after a success the descriptor exists.
    With no failing call: an existing descriptor is kept as it is with
    one read and no event; a missing one is created with the creation
    event. *)
Theorem propagation_descriptor_is_ensured (cd : ClusterDeployment) (w : World) :
  let m := multicluster.TryCreate (multicluster.New Hub) cd in
  let key := ("", multicluster.GetMultiClusterServiceName (Name (cdMeta cd))
                    (Namespace (cdMeta cd))) in
  let get := mkCall VGet Hub "MultiClusterService" (fst key) (snd key) in
  let create := mkCall VCreate Hub "MultiClusterService" (fst key) (snd key) in
  let h := hub w in
  let h' := hub (after m w) in
  calls_of m w `prefix_of` [get; create]
  ∧ (multiClusterServices h' = multiClusterServices h
     ∨ (multiClusterServices h !! key = None
        ∧ multiClusterServices h'
          = <[key := multicluster.remoteSecretMultiClusterService cd]>
              (multiClusterServices h)))
  ∧ secrets h' = secrets h
  ∧ certificates h' = certificates h
  ∧ clusterDeployments h' = clusterDeployments h
  ∧ remotes (after m w) = remotes w
  ∧ (is_ok (result m w) = true → is_Some (multiClusterServices h' !! key))
  ∧ (faults w = [] →
     result m w = Ok tt
     ∧ multiClusterServices h' !! key
       = Some (default (multicluster.remoteSecretMultiClusterService cd)
                 (multiClusterServices h !! key))
     ∧ calls_of m w = match multiClusterServices h !! key with
                      | Some _ => [get]
                      | None => [get; create]
                      end
     ∧ events_of m w = match multiClusterServices h !! key with
                       | Some _ => []
                       | None => [multiClusterServiceCreated cd]
                       end).
Proof.
  intros m key get create h h'. unfold h', h, m, result, calls_of, events_of, after.
  apply multicluster_TryCreate_run. intros r w' d Hd Hs Hc Hcd _ Hr Hp Hm Hok Hf. simpl.
  rewrite Hd, drop_app_length. repeat (split; [done|]).
  intros Hnil. destruct (Hf Hnil) as (-> & Hl & -> & He).
  rewrite He, drop_app_length. done.
Qed.

(** X15. The delete path of the propagation manager issues one delete;
    when the call does not fail it succeeds whether the descriptor was
    there or not, the descriptor is gone, and the deletion event is
    recorded only when there was one to delete; nothing else changes and
    no error it returns counts as NotFound. *)
Theorem propagation_descriptor_is_removed (req : Request) (w : World) :
  let m := multicluster.TryDelete (multicluster.New Hub) req in
  let key := ("", multicluster.GetMultiClusterServiceName (reqName req) (reqNamespace req)) in
  let h := hub w in
  let h' := hub (after m w) in
  calls_of m w = [mkCall VDelete Hub "MultiClusterService" (fst key) (snd key)]
  ∧ (multiClusterServices h' = multiClusterServices h
     ∨ multiClusterServices h' = delete key (multiClusterServices h))
  ∧ secrets h' = secrets h
  ∧ certificates h' = certificates h
  ∧ clusterDeployments h' = clusterDeployments h
  ∧ remotes (after m w) = remotes w
  ∧ (is_ok (result m w) = true → multiClusterServices h' !! key = None)
  ∧ (∀ e, result m w = Err e → IsNotFound e = false)
  ∧ (next_call_succeeds w →
     result m w = Ok tt
     ∧ multiClusterServices h' = delete key (multiClusterServices h)
     ∧ events_of m w = match multiClusterServices h !! key with
                       | Some _ => [multiClusterServiceDeleted req]
                       | None => []
                       end).
Proof.
  intros m key h h'. unfold h', h, m, result, calls_of, events_of, after.
  apply multicluster_TryDelete_run. intros r w' Hd Hs Hc Hcd _ Hr Hm Hok He Hn. simpl.
  rewrite Hd, drop_app_length. repeat (split; [done|]).
  intros Hnext. destruct (Hn Hnext) as (-> & Hl & Hev).
  rewrite Hev, drop_app_length. done.
Qed.

(** X16. The delete path of the credential builder issues one delete of
    the secret with the derived name in the system namespace; absence is
    a success without event; certificates, descriptors, cluster
    deployments and member clusters are untouched. *)
Theorem remote_secret_is_removed (creator : remotesecret.IIstioRemoteSecretCreator)
    (req : Request) (w : World) :
  let m := remotesecret.TryDelete (remotesecret.mkRemoteSecretManager Hub creator) req in
  let key := (IstioSystemNamespace,
              remotesecret.GetRemoteSecretName (reqName req) (reqNamespace req)) in
  let h := hub w in
  let h' := hub (after m w) in
  calls_of m w = [mkCall VDelete Hub "Secret" (fst key) (snd key)]
  ∧ (secrets h' = secrets h ∨ secrets h' = delete key (secrets h))
  ∧ certificates h' = certificates h
  ∧ multiClusterServices h' = multiClusterServices h
  ∧ clusterDeployments h' = clusterDeployments h
  ∧ remotes (after m w) = remotes w
  ∧ (is_ok (result m w) = true → secrets h' !! key = None)
  ∧ (next_call_succeeds w →
     result m w = Ok tt
     ∧ secrets h' = delete key (secrets h)
     ∧ events_of m w = match secrets h !! key with
                       | Some _ => [secretDeleted req]
                       | None => []
                       end).
Proof.
  intros m key h h'. unfold h', h, m, result, calls_of, events_of, after.
  apply remotesecret_TryDelete_run. intros r w' Hd Hc Hm Hcd _ Hr Hs Hok He Hn. simpl.
  rewrite Hd, drop_app_length. repeat (split; [done|]).
  intros Hnext. destruct (Hn Hnext) as (-> & Hl & Hev).
  rewrite Hev, drop_app_length. done.
Qed.

End propagation_props.

(** ** The reconciler *)

Section controller_props.
Context {cfg : Config} {ext : Externals}.

(** X19. The reconciliation of a request whose cluster deployment is
    absent, no call failing: success; the remote secret, the certificate
    and the descriptor of the remote secret are deleted, the descriptor
    of the CA certificate only if the certificate was there; the calls
    are the read and three or four deletes in that order; an event is
    recorded for each resource that was there. *)
Theorem reconcile_deleted_cluster (creator : remotesecret.IIstioRemoteSecretCreator)
    (req : Request) (w : World) :
  let r := controller.mkReconciler Hub (remotesecret.mkRemoteSecretManager Hub creator)
             (cert.New Hub) (multicluster.New Hub) in
  let m := controller.Reconcile r req in
  let sKey := (IstioSystemNamespace,
               remotesecret.GetRemoteSecretName (reqName req) (reqNamespace req)) in
  let certKey := (IstioSystemNamespace, cert.GetCertName (reqName req) (reqNamespace req)) in
  let caKey := ("", cert.GetCertNameHash (reqName req) (reqNamespace req)) in
  let mcsKey := ("", multicluster.GetMultiClusterServiceName (reqName req)
                       (reqNamespace req)) in
  let h := hub w in
  let h' := hub (after m w) in
  clusterDeployments h !! (reqNamespace req, reqName req) = None →
  faults w = [] →
  result m w = Ok tt
  ∧ secrets h' = delete sKey (secrets h)
  ∧ certificates h' = delete certKey (certificates h)
  ∧ multiClusterServices h'
    = delete mcsKey (match certificates h !! certKey with
                     | Some _ => delete caKey (multiClusterServices h)
                     | None => multiClusterServices h
                     end)
  ∧ clusterDeployments h' = clusterDeployments h
  ∧ remotes (after m w) = remotes w
  ∧ calls_of m w
    = ([ mkCall VGet Hub "ClusterDeployment" (reqNamespace req) (reqName req);
         mkCall VDelete Hub "Secret" (fst sKey) (snd sKey);
         mkCall VDelete Hub "Certificate" (fst certKey) (snd certKey) ]
       ++ match certificates h !! certKey with
          | Some _ => [mkCall VDelete Hub "MultiClusterService" (fst caKey) (snd caKey)]
          | None => []
          end
       ++ [ mkCall VDelete Hub "MultiClusterService" (fst mcsKey) (snd mcsKey) ])%list
  ∧ events_of m w
    = (match secrets h !! sKey with Some _ => [secretDeleted req] | None => [] end
       ++ match certificates h !! certKey, multiClusterServices h !! caKey with
          | Some _, Some _ => [certificateDeleted req]
          | _, _ => []
          end
       ++ match multiClusterServices h !! mcsKey with
          | Some _ => [multiClusterServiceDeleted req]
          | None => []
          end)%list.
Proof.
  intros r m sKey certKey caKey mcsKey h h' Hcd Hf. unfold h in *. clear h.
  assert (caKey ≠ mcsKey) as Hne.
  { unfold caKey, mcsKey. intros E. apply (propagation_names_differ _ _ _ _ (f_equal snd E)). }
  assert (∀ P : Result unit * World → Prop,
            (∀ w',
               secrets (hub w') = delete sKey (secrets (hub w)) →
               certificates (hub w') = delete certKey (certificates (hub w)) →
               multiClusterServices (hub w')
               = delete mcsKey (match certificates (hub w) !! certKey with
                                | Some _ => delete caKey (multiClusterServices (hub w))
                                | None => multiClusterServices (hub w)
                                end) →
               clusterDeployments (hub w') = clusterDeployments (hub w) →
               remotes w' = remotes w →
               calls w'
               = (calls w ++
                  [ mkCall VGet Hub "ClusterDeployment" (reqNamespace req) (reqName req);
                    mkCall VDelete Hub "Secret" (fst sKey) (snd sKey);
                    mkCall VDelete Hub "Certificate" (fst certKey) (snd certKey) ]
                  ++ match certificates (hub w) !! certKey with
                     | Some _ =>
                         [mkCall VDelete Hub "MultiClusterService" (fst caKey) (snd caKey)]
                     | None => []
                     end
                  ++ [ mkCall VDelete Hub "MultiClusterService" (fst mcsKey) (snd mcsKey) ])%list →
               events w'
               = (events w ++
                  match secrets (hub w) !! sKey with
                  | Some _ => [secretDeleted req] | None => [] end
                  ++ match certificates (hub w) !! certKey,
                           multiClusterServices (hub w) !! caKey with
                     | Some _, Some _ => [certificateDeleted req]
                     | _, _ => []
                     end
                  ++ match multiClusterServices (hub w) !! mcsKey with
                     | Some _ => [multiClusterServiceDeleted req]
                     | None => []
                     end)%list →
               P (Ok tt, w')) →
            P (m w)) as Hrun.
  { intros P HP.
    unfold m, r, controller.Reconcile, controller.tryDeleteResources, remotesecret.TryDelete,
      cert.TryDelete, multicluster.TryDelete, remotesecret.sendDeletionEvent,
      cert.sendDeletionEvent, multicluster.sendDeletionEvent,
      controller.Client, controller.RemoteSecretManager, controller.IstioCertManager,
      controller.RemoteSecretPropagationManager, cert.New, multicluster.New,
      cert.k8sClient, multicluster.mClient, remotesecret.rsClient,
      utils.GetClusterDeploymentStub.
    exec. rewrite Hf. exec. rewrite Hcd. exec. fold sKey certKey caKey mcsKey.
    destruct (secrets (hub w) !! sKey) as [s0|] eqn:Hs; exec;
      destruct (certificates (hub w) !! certKey) as [c0|] eqn:Hc; exec;
      rewrite ?Hc; exec.
    all: try (destruct (multiClusterServices (hub w) !! caKey) as [m0|] eqn:Hca; exec).
    all: rewrite ?lookup_delete_ne by done.
    all: destruct (multiClusterServices (hub w) !! mcsKey) as [m1|] eqn:Hm; exec;
      rewrite ?lookup_delete_ne by done; rewrite ?Hm; exec.
    all: apply HP; exec; rewrite ?Hs, ?Hc, ?Hca, ?Hm; try reflexivity.
    all: rewrite <- ?app_assoc; try reflexivity.
    all: try (rewrite (delete_id _ sKey) by done; reflexivity).
    all: try (rewrite (delete_id _ certKey) by done; reflexivity).
    all: try (rewrite (delete_id _ mcsKey) by (by rewrite ?lookup_delete_ne by done));
      try reflexivity.
    all: try (rewrite (delete_id _ caKey) by done); try reflexivity.
    all: simpl; by rewrite app_nil_r. }
  unfold h', result, calls_of, events_of, after.
  apply Hrun. intros w' Hs Hc Hm Hcds Hr Hcalls Hev. simpl.
  rewrite Hcalls, Hev, !drop_app_length. done.
Qed.

(** X20. When the read of the cluster deployment fails for another
    reason than absence, the reconciliation returns that error after
    this one call: nothing is created, nothing is deleted, no event is
    recorded. *)
Theorem reconcile_read_failure (r : controller.ClusterDeploymentReconciler)
    (req : Request) (w : World) (msg : string) :
  let m := controller.Reconcile r req in
  let err := StatusError ReasonInternalError msg in
  head (faults w) = Some (Some msg) →
  result m w = Err err
  ∧ calls_of m w
    = [mkCall VGet (controller.Client r) "ClusterDeployment" (reqNamespace req) (reqName req)]
  ∧ hub (after m w) = hub w
  ∧ remotes (after m w) = remotes w
  ∧ events_of m w = []
  ∧ logs_of m w = [mkLogEntry LError (Some err) "cannot read clusterDeployment" []].
Proof.
  intros m err Hf.
  unfold m, result, calls_of, events_of, logs_of, after, controller.Reconcile.
  exec. rewrite Hf. exec. rewrite !drop_app_length.
  repeat split. by rewrite drop_ge.
Qed.

(** X21. The reconciliation of a ready cluster outside any mesh whose
    remote secret, certificate and descriptor exist, no call failing,
    succeeds and changes nothing: four calls, the create of the
    certificate being answered AlreadyExists, and no event. *)
Theorem reconcile_converged (creator : remotesecret.IIstioRemoteSecretCreator)
    (req : Request) (cd : ClusterDeployment) (w : World) :
  let r := controller.mkReconciler Hub (remotesecret.mkRemoteSecretManager Hub creator)
             (cert.New Hub) (multicluster.New Hub) in
  let m := controller.Reconcile r req in
  let sKey := derived_key cd in
  let certKey := (IstioSystemNamespace,
                  cert.GetCertName (Name (cdMeta cd)) (Namespace (cdMeta cd))) in
  let mcsKey := ("", multicluster.GetMultiClusterServiceName (Name (cdMeta cd))
                       (Namespace (cdMeta cd))) in
  clusterDeployments (hub w) !! (reqNamespace req, reqName req) = Some cd →
  utils.IsClusterDeploymentReady cd = true →
  utils.IsInMesh cd = false →
  is_Some (secrets (hub w) !! sKey) →
  is_Some (certificates (hub w) !! certKey) →
  is_Some (multiClusterServices (hub w) !! mcsKey) →
  faults w = [] →
  result m w = Ok tt
  ∧ hub (after m w) = hub w
  ∧ remotes (after m w) = remotes w
  ∧ events_of m w = []
  ∧ calls_of m w
    = [ mkCall VGet Hub "ClusterDeployment" (reqNamespace req) (reqName req);
        mkCall VGet Hub "Secret" (fst sKey) (snd sKey);
        mkCall VCreate Hub "Certificate" (fst certKey) (snd certKey);
        mkCall VGet Hub "MultiClusterService" (fst mcsKey) (snd mcsKey) ].
Proof.
  intros r m sKey certKey mcsKey Hcd Hready Hmesh [s0 Hs] [c0 Hc] [m0 Hm] Hf.
  unfold m, r, result, calls_of, events_of, after.
  unfold controller.Reconcile, controller.tryCreateResources, remotesecret.TryCreate,
    cert.TryCreate, multicluster.TryCreate, cert.createCertificate,
    multicluster.multiClusterServiceExists, remotesecret.remoteSecretExists,
    controller.Client, controller.RemoteSecretManager, controller.IstioCertManager,
    controller.RemoteSecretPropagationManager, cert.New, multicluster.New,
    cert.k8sClient, multicluster.mClient, remotesecret.rsClient.
  exec. rewrite Hf. exec. rewrite Hcd. exec. rewrite Hready. exec.
  cbn [remotesecret.AllowOverwrite]. exec.
  unfold derived_key in sKey. fold sKey. rewrite Hs. exec.
  change (Namespace (certMeta (cert.generateClusterCACertificate {| cert.k8sClient := Hub |} cd)))
    with IstioSystemNamespace.
  change (Name (certMeta (cert.generateClusterCACertificate {| cert.k8sClient := Hub |} cd)))
    with (cert.GetCertName (Name (cdMeta cd)) (Namespace (cdMeta cd))).
  fold certKey. rewrite Hc. exec. rewrite Hmesh. exec. fold mcsKey. rewrite Hm. exec.
  rewrite <- !app_assoc, !drop_app_length. repeat split.
  by rewrite drop_ge.
Qed.

End controller_props.

(** ** The credential builder *)

Lemma bind_Ok {A B} (m : M A) (f : A → M B) (w w' : World) (b : B) :
  bind m f w = (Ok b, w') → ∃ a w1, m w = (Ok a, w1) ∧ f a w1 = (Ok b, w').
Proof.
  unfold bind. destruct (m w) as [[a|e] w1]; [|done]. intros E. by exists a, w1.
Qed.

Lemma try_Ok {A} (m : M A) (w w' : World) (r : Result A) :
  try m w = (Ok r, w') → m w = (r, w').
Proof. unfold try. destruct (m w) as [r0 w0]. by intros [= -> ->]. Qed.

Section ensure.
Context {cfg : Config} {ext : Externals}.

(** X17. For a ready cluster and a creator that does not write to the
    management cluster and returns a secret with the derived name in the
    system namespace, a successful run of the credential builder, with
    or without overwrite, leaves a remote secret under that name in the
    management cluster. *)
Theorem credential_exists_after_success (creator : remotesecret.IIstioRemoteSecretCreator)
    (cd : ClusterDeployment) (opt : remotesecret.CreateOptions) (w : World) :
  let rs := remotesecret.mkRemoteSecretManager Hub creator in
  let m := remotesecret.TryCreate rs cd opt in
  creates_derived creator cd →
  utils.IsClusterDeploymentReady cd = true →
  result m w = Ok tt →
  is_Some (secrets (hub (after m w)) !! derived_key cd).
Proof.
  intros rs m Hcreator Hready. unfold m, result, after.
  destruct (remotesecret.TryCreate rs cd opt w) as [r w'] eqn:E. simpl. intros ->.
  revert E. unfold remotesecret.TryCreate. cbv zeta.
  match goal with
  | |- context [if negb (remotesecret.AllowOverwrite opt) then _ else ?X] =>
      assert (∀ w0, X w0 = (Ok tt, w') →
                    is_Some (secrets (hub w') !! derived_key cd)) as Hbuild
  end.
  { intros w0 E.
    apply bind_Ok in E as (r1 & w1 & _ & E). destruct r1 as [b|e]; [|done].
    apply bind_Ok in E as (kc & w2 & _ & E).
    apply bind_Ok in E as (r3 & w3 & H3 & E). destruct r3 as [secret|e]; [|done].
    apply try_Ok in H3.
    destruct (Hcreator kc opt w2) as (_ & _ & _ & Hkey).
    cbn [remotesecret.creator rs] in H3. rewrite H3 in Hkey. specialize (Hkey secret eq_refl).
    apply bind_Ok in E as (r4 & w4 & H4 & E). apply try_Ok in H4.
    destruct r4 as [[]|e].
    - revert H4. apply createSecretResource_run.
      + intros r5 w5 _ Hs _ [= -> ->]. specialize (Hs eq_refl).
        unfold key_of in Hkey. simpl in Hkey. rewrite Hkey in Hs.
        unfold remotesecret.sendCreationEvent, record.Eventf, emit, bind, log.Info, ret in E.
        injection E as <-. simpl. by eauto.
      + intros e w5 _ _ [=].
    - unfold bind, log.Error, fail in E. done. }
  intros E. apply bind_Ok in E as ([] & w1 & Hlog & E).
  unfold log.Info in Hlog. injection Hlog as <-.
  rewrite Hready in E. simpl negb in E. cbv iota in E.
  destruct (remotesecret.AllowOverwrite opt); simpl negb in E; cbv iota in E;
    [by apply (Hbuild _ E)|].
  apply bind_Ok in E as (r2 & w2 & H2 & E). apply try_Ok in H2.
  destruct r2 as [[|]|e]; [| by apply (Hbuild _ E) | done].
  unfold bind, log.Info, ret in E. injection E as <-. simpl.
  revert H2. unfold remotesecret.remoteSecretExists, utils.IsResourceExists, bind, try.
  cbn [remotesecret.rsClient rs].
  apply Get_hub_cases.
  - intros msg _. simpl. done.
  - intros _ _. simpl. done.
  - intros s _ Hs. simpl. intros [= <-]. simpl. simpl in Hs. unfold derived_key. by eauto.
Qed.

End ensure.

Section builder_run.
Context {cfg : Config} {ext : Externals}.

(** X22. The credential builder with the creator of the tests, on a
    ready cluster, with overwrite or without a remote secret yet, the
    credential of the cluster in kcm-system naming no region and the
    secret of its kubeconfig in kcm-system holding a value, no call
    failing: success; the remote secret returned by the creator is in
    the management cluster under the derived name afterwards, whatever
    was there, and nothing else changes; the calls are the existence
    read (only without overwrite), the read of the credential, the read
    of the kubeconfig secret, the delete and the create of the remote
    secret; one event SecretCreated is recorded. *)
Theorem build_credential_creates (cd : ClusterDeployment)
    (opt : remotesecret.CreateOptions) (w : World)
    (cred : CredentialCR) (kubeconfigSecret : Secret) (kubeconfig : Bytes) :
  let m := remotesecret.TryCreate (remotesecret.NewFakeManager Hub) cd opt in
  let sKey := derived_key cd in
  let credKey := (k8s.DefaultKCMSystemNamespace, Credential cd) in
  let kcKey := (k8s.DefaultKCMSystemNamespace, GetSecretName cd) in
  let h := hub w in
  let h' := hub (after m w) in
  utils.IsClusterDeploymentReady cd = true →
  remotesecret.AllowOverwrite opt = true ∨ secrets h !! sKey = None →
  credentials h !! credKey = Some cred →
  credRegion cred = "" →
  secrets h !! kcKey = Some kubeconfigSecret →
  Data kubeconfigSecret !! "value" = Some kubeconfig →
  faults w = [] →
  result m w = Ok tt
  ∧ secrets h' = <[sKey := fakeSecret cd]> (secrets h)
  ∧ certificates h' = certificates h
  ∧ multiClusterServices h' = multiClusterServices h
  ∧ clusterDeployments h' = clusterDeployments h
  ∧ credentials h' = credentials h
  ∧ remotes (after m w) = remotes w
  ∧ calls_of m w
    = ((if remotesecret.AllowOverwrite opt then []
        else [mkCall VGet Hub "Secret" (fst sKey) (snd sKey)])
       ++ [ mkCall VGet Hub "Credential" (fst credKey) (snd credKey);
            mkCall VGet Hub "Secret" (fst kcKey) (snd kcKey);
            mkCall VDelete Hub "Secret" (fst sKey) (snd sKey);
            mkCall VCreate Hub "Secret" (fst sKey) (snd sKey) ])%list
  ∧ evReason <$> events_of m w = ["SecretCreated"].
Proof.
  intros m sKey credKey kcKey h h' Hready Hcase Hcred Hregion Hkc Hvalue Hf.
  unfold h in *. clear h.
  assert (∀ P : Result unit * World → Prop,
            (∀ w',
               secrets (hub w') = <[sKey := fakeSecret cd]> (secrets (hub w)) →
               certificates (hub w') = certificates (hub w) →
               multiClusterServices (hub w') = multiClusterServices (hub w) →
               clusterDeployments (hub w') = clusterDeployments (hub w) →
               credentials (hub w') = credentials (hub w) →
               remotes w' = remotes w →
               calls w'
               = (calls w ++
                  (if remotesecret.AllowOverwrite opt then []
                   else [mkCall VGet Hub "Secret" (fst sKey) (snd sKey)])
                  ++ [ mkCall VGet Hub "Credential" (fst credKey) (snd credKey);
                       mkCall VGet Hub "Secret" (fst kcKey) (snd kcKey);
                       mkCall VDelete Hub "Secret" (fst sKey) (snd sKey);
                       mkCall VCreate Hub "Secret" (fst sKey) (snd sKey) ])%list →
               (∃ ev, events w' = (events w ++ [ev])%list ∧ evReason ev = "SecretCreated") →
               P (Ok tt, w')) →
            P (m w)) as Hrun.
  { intros P HP.
    unfold m, remotesecret.TryCreate, remotesecret.remoteSecretExists,
      remotesecret.createSecretResource, remotesecret.sendCreationEvent,
      remotesecret.NewFakeManager, remotesecret.NewFakeRemoteSecretCreator,
      remotesecret.FakeRemoteSecretCreator_GetRemoteSecret,
      k8s.CreatedInKCMRegion, k8s.GetKubeconfigFromSecret, k8s.GetSecret, k8s.GetSecretValue.
    cbn [remotesecret.rsClient remotesecret.creator remotesecret.GetRemoteSecret].
    rewrite Hready. unfold derived_key in sKey.
    destruct (remotesecret.AllowOverwrite opt) eqn:Hov; exec; rewrite Hf; exec;
      fold sKey credKey kcKey.
    - rewrite Hcred. exec. rewrite Hregion. exec. simpl (("" =? "")%string). exec.
      fold kcKey. rewrite Hkc. exec. rewrite Hvalue. exec. fold sKey.
      destruct (secrets (hub w) !! sKey) as [s0|] eqn:Hs; exec;
        rewrite ?lookup_delete_eq, ?Hs; exec.
      all: apply HP; exec; try done.
      all: try (by rewrite insert_delete_eq).
      all: try (simpl; rewrite <- ?app_assoc; reflexivity).
      all: by eexists.
    - destruct Hcase as [?|Hs]; [done|]. rewrite Hs. exec.
      fold credKey. rewrite Hcred. exec. rewrite Hregion. exec.
      simpl (("" =? "")%string). exec.
      fold kcKey. rewrite Hkc. exec. rewrite Hvalue. exec. fold sKey.
      rewrite Hs. exec. rewrite Hs. exec.
      apply HP; exec; try done.
      + simpl. rewrite <- ?app_assoc. reflexivity.
      + by eexists. }
  unfold h', result, calls_of, events_of, after.
  apply Hrun. intros w' Hs' Hc' Hm' Hcds Hcr Hr Hcalls (ev & Hev & Hreason). simpl.
  rewrite Hcalls, Hev, !drop_app_length. simpl. by rewrite Hreason.
Qed.

End builder_run.

Section builder_props.
Context {cfg : Config} {ext : Externals}.

Lemma remote_secret_name_is_not_config (clusterName namespace : string) :
  (remotesecret.GetRemoteSecretName clusterName namespace =? remotesecret.configSecretName)%string
  = false.
Proof. reflexivity. Qed.

(** X18. A remote secret built with a bearer token for a named cluster
    has the derived name, the namespace of the options, the multi-
    cluster label, the annotation with the cluster name, and exactly one
    entry of data: under the cluster name, the encoding of a kubeconfig
    that passed validation and whose cluster, user, context and current
    context are named after the cluster. A server override is used as
    the server, without warning. *)
Theorem remote_secret_content (opt : remotesecret.RemoteSecretOptions)
    (clusterNamespace : string) (cl : ClientRef) (w : World) (s : Secret)
    (warn : option Error) :
  remotesecret.ClusterName opt ≠ "" →
  remotesecret.optType opt = remotesecret.SecretTypeRemote →
  remotesecret.AuthType opt = remotesecret.RemoteSecretAuthTypeBearerToken →
  result (remotesecret.CreateRemoteSecret opt clusterNamespace cl) w = Ok (s, warn) →
  ∃ caData token server data,
    let kubeconfig :=
      remotesecret.createBearerTokenKubeconfig caData token (remotesecret.ClusterName opt)
        server in
    Validate kubeconfig = None
    ∧ Encode kubeconfig = Ok data
    ∧ s = {| secretMeta :=
               {| Name := remotesecret.GetRemoteSecretName (remotesecret.ClusterName opt)
                            clusterNamespace;
                  Namespace := remotesecret.optNamespace opt;
                  Labels := {[ remotesecret.MultiClusterSecretLabel := "true" ]};
                  Annotations := {[ remotesecret.clusterNameAnnotationKey
                                      := remotesecret.ClusterName opt ]};
                  Generation := 0 |};
             secretType := "";
             Data := {[ remotesecret.ClusterName opt := data ]};
             StringData := ∅ |}
    ∧ (remotesecret.ServerOverride opt ≠ "" →
       server = remotesecret.ServerOverride opt ∧ warn = None).
Proof.
  intros Hname Htype Hauth. unfold result.
  destruct (remotesecret.CreateRemoteSecret opt clusterNamespace cl w) as [r w'] eqn:E.
  simpl. intros ->. revert E. unfold remotesecret.CreateRemoteSecret.
  apply String.eqb_neq in Hname. rewrite Hname.
  intros E. apply bind_Ok in E as (opt1 & w1 & H1 & E). injection H1 as <- <-.
  rewrite Htype in E. simpl (remotesecret.SecretTypeRemote =? _)%string in E. cbv iota in E.
  apply bind_Ok in E as ([secretName opt2] & w2 & H2 & E). injection H2 as <- <- <-.
  apply bind_Ok in E as (r3 & w3 & _ & E). destruct r3 as [tokenSecret|e]; [|done].
  apply bind_Ok in E as ([server warn'] & w4 & H4 & E).
  apply bind_Ok in E as (remoteSecret & w5 & H5 & E). injection E as <- <- <-.
  assert (remotesecret.AuthType
            (if (remotesecret.ServiceAccountName opt =? "")%string
             then remotesecret.with_ServiceAccountName remotesecret.DefaultServiceAccountName opt
             else opt) = remotesecret.RemoteSecretAuthTypeBearerToken) as Hauth'.
  { by destruct (remotesecret.ServiceAccountName opt =? "")%string. }
  assert (∀ (f : remotesecret.RemoteSecretOptions → string),
            (∀ n, f (remotesecret.with_ServiceAccountName n opt) = f opt) →
            f (if (remotesecret.ServiceAccountName opt =? "")%string
               then remotesecret.with_ServiceAccountName remotesecret.DefaultServiceAccountName opt
               else opt) = f opt) as Hsame.
  { intros f Hf. by destruct (remotesecret.ServiceAccountName opt =? "")%string. }
  rewrite Hauth' in H5. simpl (_ =? _)%string in H5. cbv iota in H5.
  rewrite (Hsame remotesecret.ClusterName) in H5 by done.
  rewrite (Hsame remotesecret.optNamespace) by done.
  rewrite (Hsame remotesecret.ServerOverride) in H4 by done.
  unfold remotesecret.createRemoteSecretFromTokenAndServer in H5.
  apply bind_Ok in H5 as ([caData token] & w6 & _ & H5).
  destruct (Validate _) as [verr|] eqn:Hvalid; [done|].
  unfold remotesecret.lift, remotesecret.createRemoteServiceAccountSecret in H5.
  rewrite remote_secret_name_is_not_config in H5.
  destruct (Encode _) as [data|eerr] eqn:Hencode; [|done].
  injection H5 as <- <-.
  exists caData, token, server, data. cbv zeta.
  split; [done|]. split; [done|]. split; [done|].
  intros Hover. apply String.eqb_neq in Hover. rewrite Hover in H4. simpl in H4.
  by injection H4 as <- <- <-.
Qed.

End builder_props.

Lemma call_Ok (c : Call) (w w' : World) (cl : Cluster) :
  client.call c w = (Ok cl, w') → w' = called c w ∧ cluster_of (target c) w = Some cl.
Proof.
  unfold client.call, called.
  destruct (head (faults w)) as [[msg|]|]; [done|..];
    (destruct (cluster_of (target c) w) as [c0|]; [|done]); by intros [= -> <-].
Qed.

Lemma Get_Ok `{ApiObject T} (cl : ClientRef) (ns n : string) (w w' : World) (obj : T) :
  client.Get (T := T) cl ns n w = (Ok obj, w') →
  w' = called (mkCall VGet cl kind ns n) w
  ∧ ∃ c, cluster_of cl w = Some c ∧ objects c !! (ns, n) = Some obj.
Proof.
  unfold client.Get. intros E. apply bind_Ok in E as (c & w1 & Hc & E).
  apply call_Ok in Hc as [-> Hc]. simpl in Hc.
  destruct (objects c !! (ns, n)) as [o|] eqn:Ho; [|done].
  injection E as <- <-. by eauto.
Qed.

Lemma Get_Err `{ApiObject T} (cl : ClientRef) (ns n : string) (w w' : World) (e : Error) :
  client.Get (T := T) cl ns n w = (Err e, w') → w' = called (mkCall VGet cl kind ns n) w.
Proof.
  unfold client.Get, client.call, bind, called.
  destruct (head (faults w)) as [[msg|]|]; [by intros [= _ <-]|..];
    (destruct (cluster_of _ w) as [c0|]; [|by intros [= _ <-]]);
    (destruct (objects c0 !! (ns, n)); [done | by intros [= _ <-]]).
Qed.

Lemma Create_Ok `{ApiObject T} (cl : ClientRef) (obj : T) (w w' : World) :
  client.Create cl obj w = (Ok tt, w') →
  ∃ c, cluster_of cl w = Some c ∧ objects c !! key_of obj = None
       ∧ w' = set_cluster cl (set_objects (<[key_of obj := obj]> (objects c)) c)
                (called (mkCall VCreate cl kind (fst (key_of obj)) (snd (key_of obj))) w).
Proof.
  unfold client.Create. intros E. apply bind_Ok in E as (c & w1 & Hc & E).
  apply call_Ok in Hc as [-> Hc]. simpl in Hc.
  destruct (objects c !! key_of obj) as [o|] eqn:Ho; [done|].
  unfold client.store in E. injection E as <-. by eauto.
Qed.

Lemma Update_Ok `{ApiObject T} (cl : ClientRef) (obj obj' : T) (w w' : World) :
  client.Update cl obj w = (Ok obj', w') →
  obj' = obj
  ∧ ∃ c, cluster_of cl w = Some c ∧ is_Some (objects c !! key_of obj)
         ∧ w' = set_cluster cl (set_objects (<[key_of obj := obj]> (objects c)) c)
                  (called (mkCall VUpdate cl kind (fst (key_of obj)) (snd (key_of obj))) w).
Proof.
  unfold client.Update. intros E. apply bind_Ok in E as (c & w1 & Hc & E).
  apply call_Ok in Hc as [-> Hc]. simpl in Hc.
  destruct (objects c !! key_of obj) as [o|] eqn:Ho; [|done].
  unfold client.store, bind, ret in E. injection E as <- <-. by eauto.
Qed.

Lemma cluster_of_set_cluster (cl : ClientRef) (c : Cluster) (w : World) :
  cluster_of cl (set_cluster cl c w) = Some c.
Proof. destruct cl; simpl; [done|]. apply lookup_insert_eq. Qed.

Lemma cluster_of_set_logs (cl : ClientRef) (l : list LogEntry) (w : World) :
  cluster_of cl (set_logs l w) = cluster_of cl w.
Proof. by destruct cl. Qed.

Section token_secret.
Context {cfg : Config} {ext : Externals}.

Lemma getCAcert_Ok (cl : ClientRef) (w w' : World) (ca : Bytes) :
  remotesecret.getCAcert cl w = (Ok ca, w') → w' = w.
Proof.
  unfold remotesecret.getCAcert.
  repeat (match goal with
          | |- context [match ?x with _ => _ end] => destruct x
          end; try done); by intros [= _ <-].
Qed.

Lemma getCAcert_same (cl : ClientRef) (w w' : World) :
  cluster_of cl w' = cluster_of cl w →
  fst (remotesecret.getCAcert cl w') = fst (remotesecret.getCAcert cl w).
Proof.
  unfold remotesecret.getCAcert. intros ->.
  repeat (match goal with
          | |- context [match ?x with _ => _ end] => destruct x
          end; try done).
Qed.


(** X24. A token secret that is returned is either the one the cluster
    held under the expected name, returned as it is after one read,
    overwriting not being asked for; or a secret whose data are the
    token the cluster issues, the namespace and the CA certificate of
    the client, of type Opaque, annotated with the service account, and
    which the cluster holds afterwards. Without overwrite the second
    case only arises when the secret was absent or had an empty name. *)
Theorem token_secret_is_reused_or_fresh (serviceAccount : ServiceAccount) (cl : ClientRef)
    (opt : remotesecret.RemoteSecretOptions) (w : World) (s : Secret) :
  let m := remotesecret.getOrCreateServiceAccountSecret serviceAccount cl opt in
  let secretName :=
    if String.eqb (remotesecret.optSecretName opt) ""
    then remotesecret.tokenSecretName (Name (saMeta serviceAccount))
    else remotesecret.optSecretName opt in
  let get := mkCall VGet cl "Secret" (remotesecret.optNamespace opt) secretName in
  result m w = Ok s →
  (remotesecret.optAllowOverwrite opt = false
   ∧ Name (secretMeta s) ≠ ""
   ∧ (∃ c, cluster_of cl w = Some c
           ∧ secrets c !! (remotesecret.optNamespace opt, secretName) = Some s)
   ∧ same_clusters (after m w) w
   ∧ calls_of m w = [get])
  ∨ (∃ c ca,
       cluster_of cl w = Some c
       ∧ result (remotesecret.getCAcert cl) w = Ok ca
       ∧ Data s = {[ "token" := issuedToken c;
                     "namespace" := remotesecret.optNamespace opt; "ca.crt" := ca ]}
       ∧ secretType s = remotesecret.SecretTypeOpaque
       ∧ Annotations (secretMeta s)
         = {[ remotesecret.ServiceAccountNameKey := Name (saMeta serviceAccount) ]}
       ∧ remotesecret.tokenDataFromSecret s = Ok (ca, issuedToken c)
       ∧ (∃ c', cluster_of cl (after m w) = Some c' ∧ secrets c' !! key_of s = Some s)
       ∧ (remotesecret.optAllowOverwrite opt = false →
          secrets c !! (remotesecret.optNamespace opt, secretName) = None
          ∨ ∃ s0, secrets c !! (remotesecret.optNamespace opt, secretName) = Some s0
                  ∧ Name (secretMeta s0) = "")).
Proof.
  intros m secretName get. unfold result, calls_of, after.
  destruct (m w) as [r w'] eqn:E. simpl. intros ->. revert E.
  unfold m, remotesecret.getOrCreateServiceAccountSecret. fold secretName. cbv zeta.
  intros E. apply bind_Ok in E as (r & w1 & H1 & E). apply try_Ok in H1.
  assert (w1 = called get w ∧
          match r with
          | Ok s0 => ∃ c, cluster_of cl w = Some c
                          ∧ secrets c !! (remotesecret.optNamespace opt, secretName) = Some s0
          | Err e => IsNotFound e = true →
                     ∃ c, cluster_of cl w = Some c
                          ∧ secrets c !! (remotesecret.optNamespace opt, secretName) = None
          end) as [-> Hr].
  { revert H1. unfold remotesecret.SecretsGet.
    destruct (secretName =? "")%string eqn:Hn.
    - exfalso. revert Hn. unfold secretName, remotesecret.tokenSecretName.
      destruct (remotesecret.optSecretName opt =? "")%string eqn:Hs; [|by rewrite Hs].
      destruct (Name (saMeta serviceAccount)); done.
    - pattern (client.Get (T := Secret) cl (remotesecret.optNamespace opt) secretName w).
      apply Get_cases. intros r0 HOk _ HErr [= -> <-]. split; [done|].
      destruct r as [s0|e]; [by apply HOk|].
      intros Hnf. by destruct (HErr e eq_refl Hnf) as [_ ?]. }
  apply bind_Ok in E as ([] & w2 & H2 & E).
  assert (w2 = called get w ∧ match r with Ok _ => True | Err e => IsNotFound e = true end)
    as [-> Hnf].
  { destruct r as [s0|e]; [by injection H2|].
    destruct (IsNotFound e); [by injection H2 | done]. }
  clear H2.
  (* the path that generates a token *)
  assert (∀ existing w'',
    (r0 <- try (remotesecret.getCAcert cl) ;;
     match r0 with
     | Err err => fail (Wrapf "failed to get CA certificate" err)
     | Ok caCert =>
         r1 <- try (remotesecret.getServiceAccountToken cl (Name (saMeta serviceAccount))
                      (remotesecret.optNamespace opt)) ;;
         match r1 with
         | Err err => fail (Wrapf "failed to get service account token" err)
         | Ok saToken =>
             log.Info "Service Account token was successfully generated"
               [("serviceAccount", VStr (Name (saMeta serviceAccount)));
                ("namespace", VStr (remotesecret.optNamespace opt))] ;;
             if remotesecret.optAllowOverwrite opt
                && negb (String.eqb (Name (secretMeta existing)) "") then
               let existingSecret :=
                 remotesecret.set_token_contents saToken caCert (remotesecret.optNamespace opt)
                   (Name (saMeta serviceAccount)) existing in
               log.Info "Updating existing secret with new token"
                 [("secret", VStr secretName);
                  ("namespace", VStr (remotesecret.optNamespace opt))] ;;
               r2 <- try (client.Update cl existingSecret) ;;
               match r2 with
               | Err err =>
                   fail (Wrapf ("failed to update existing secret "
                                  ++ remotesecret.optNamespace opt ++ "/"
                                  ++ Name (secretMeta existingSecret)) err)
               | Ok updatedSecret => ret updatedSecret
               end
             else
               let secret :=
                 {| secretMeta :=
                      {| Name := secretName; Namespace := remotesecret.optNamespace opt;
                         Labels := ∅;
                         Annotations := {[ remotesecret.ServiceAccountNameKey
                                             := Name (saMeta serviceAccount) ]};
                         Generation := 0 |};
                    secretType := remotesecret.SecretTypeOpaque;
                    Data := {[ "token" := saToken;
                               "namespace" := remotesecret.optNamespace opt;
                               "ca.crt" := caCert ]};
                    StringData := ∅ |} in
               log.Info "Creating new secret with token"
                 [("secret", VStr secretName);
                  ("namespace", VStr (remotesecret.optNamespace opt))] ;;
               client.Create cl secret ;;
               ret secret
         end
     end) (called get w) = (Ok s, w'') →
    ∃ c ca,
      cluster_of cl w = Some c
      ∧ fst (remotesecret.getCAcert cl w) = Ok ca
      ∧ Data s = {[ "token" := issuedToken c;
                    "namespace" := remotesecret.optNamespace opt; "ca.crt" := ca ]}
      ∧ secretType s = remotesecret.SecretTypeOpaque
      ∧ Annotations (secretMeta s)
        = {[ remotesecret.ServiceAccountNameKey := Name (saMeta serviceAccount) ]}
      ∧ remotesecret.tokenDataFromSecret s = Ok (ca, issuedToken c)
      ∧ (∃ c', cluster_of cl w'' = Some c' ∧ secrets c' !! key_of s = Some s)) as Hfresh.
  { intros existing w'' F.
    apply bind_Ok in F as (r0 & w3 & H3 & F). apply try_Ok in H3.
    destruct r0 as [ca|e]; [|done].
    pose proof (getCAcert_Ok _ _ _ _ H3) as ->.
    assert (fst (remotesecret.getCAcert cl w) = Ok ca) as Hca.
    { rewrite <- (getCAcert_same cl w (called get w)) by apply cluster_of_called.
      by rewrite H3. }
    apply bind_Ok in F as (r1 & w4 & H4 & F). apply try_Ok in H4.
    destruct r1 as [saToken|e]; [|done].
    unfold remotesecret.getServiceAccountToken in H4.
    apply bind_Ok in H4 as (r5 & w5 & H5 & H4). apply try_Ok in H5.
    destruct r5 as [c|e]; [|done].
    apply call_Ok in H5 as [-> Hc]. simpl in Hc. rewrite cluster_of_called in Hc.
    destruct (serviceAccounts c !! _); [|done]. injection H4 as <- <-.
    apply bind_Ok in F as ([] & w6 & H6 & F). injection H6 as <-.
    exists c, ca. split; [done|]. split; [done|].
    destruct (remotesecret.optAllowOverwrite opt
              && negb (Name (secretMeta existing) =? ""))%string.
    - cbv zeta in F. apply bind_Ok in F as ([] & w7 & H7 & F). injection H7 as <-.
      apply bind_Ok in F as (r8 & w8 & H8 & F). apply try_Ok in H8.
      destruct r8 as [updated|e]; [|done]. injection F as <- <-.
      apply (Update_Ok (T := Secret)) in H8 as (-> & c8 & _ & _ & ->).
      repeat split.
      eexists. split; [apply cluster_of_set_cluster|]. simpl. apply lookup_insert_eq.
    - cbv zeta in F. apply bind_Ok in F as ([] & w7 & H7 & F). injection H7 as <-.
      apply bind_Ok in F as ([] & w8 & H8 & F). injection F as <- <-.
      apply (Create_Ok (T := Secret)) in H8 as (c8 & _ & _ & ->).
      repeat split.
      eexists. split; [apply cluster_of_set_cluster|]. simpl. apply lookup_insert_eq. }
  destruct r as [s0|e]; cbv beta iota in E.
  - destruct Hr as (c & Hc & Hs0).
    destruct (negb (remotesecret.optAllowOverwrite opt)
              && negb (Name (secretMeta s0) =? ""))%string eqn:Hcond.
    + left. apply andb_true_iff in Hcond as [Hover Hn0].
      apply negb_true_iff in Hover, Hn0.
      apply bind_Ok in E as ([] & w9 & H9 & E). injection H9 as <-.
      injection E as <- <-. split; [done|].
      split; [by apply String.eqb_neq|]. split; [by eauto|].
      split; [done|]. simpl. by rewrite drop_app_length.
    + right. destruct (Hfresh _ _ E) as (c1 & ca & Hc1 & Hrest).
      exists c1, ca. split; [done|].
      destruct Hrest as (? & ? & ? & ? & ? & ?). repeat split; try done.
      intros Hover. rewrite Hover in Hcond. simpl in Hcond.
      apply negb_false_iff, String.eqb_eq in Hcond.
      right. exists s0. rewrite Hc in Hc1. by injection Hc1 as <-.
  - right. change (Name (secretMeta remotesecret.emptySecret) =? "")%string with true in E.
    rewrite andb_false_r in E. cbv beta iota in E.
    destruct (Hfresh remotesecret.emptySecret _ E) as (c1 & ca & Hc1 & Hrest).
    exists c1, ca. split; [done|].
    destruct Hrest as (? & ? & ? & ? & ? & ?). repeat split; try done.
    intros _. left. destruct (Hr Hnf) as (c2 & Hc2 & Hnone).
    rewrite Hc2 in Hc1. by injection Hc1 as <-.
Qed.

End token_secret.

Lemma prefix_spec (p s : string) :
  String.prefix p s = true ↔ ∃ post, s = p ++ post.
Proof.
  revert s. induction p as [|a p IH]; intros s.
  - split; [by exists s | intros _; by destruct s].
  - destruct s as [|b s]; simpl; [split; [done | by intros [post ?]]|].
    destruct (ascii_dec a b) as [->|Hne].
    + rewrite IH. split; intros [post Hp]; exists post.
      * by rewrite append_cons, Hp.
      * rewrite append_cons in Hp. by injection Hp.
    + split; [done|]. intros [post Hp]. rewrite append_cons in Hp. by injection Hp.
Qed.

Lemma Contains_unfold (s sub : string) :
  Contains s sub
  = String.prefix sub s || match s with EmptyString => false | String _ rest => Contains rest sub end.
Proof. by destruct s. Qed.

Lemma Contains_spec (s sub : string) :
  Contains s sub = true ↔ ∃ pre post, s = pre ++ sub ++ post.
Proof.
  split.
  - induction s as [|c s IH]; rewrite Contains_unfold; intros H;
      apply orb_true_iff in H as [H|H]; try done.
    + apply prefix_spec in H as [post ->]. by exists "", post.
    + apply prefix_spec in H as [post ->]. by exists "", post.
    + destruct (IH H) as (pre & post & ->). by exists (String c pre), post.
  - intros (pre & post & ->). induction pre as [|c pre IH]; rewrite Contains_unfold.
    + change ("" ++ sub ++ post) with (sub ++ post).
      assert (String.prefix sub (sub ++ post) = true) as -> by (apply prefix_spec; eauto).
      done.
    + rewrite append_cons, IH. apply orb_true_r.
Qed.

Section builder_edges.
Context {cfg : Config} {ext : Externals}.

(** X25. The server of a remote secret is the host of the client, read
    without any call; a warning comes with it exactly when the host
    contains 127.0.0.1 or localhost somewhere; without a configuration
    the function fails. *)
Theorem server_warning (cl : ClientRef) (w : World) :
  let m := remotesecret.getServerFromKubeconfig cl in
  after m w = w
  ∧ (cluster_of cl w = None → is_ok (result m w) = false)
  ∧ (∀ c, cluster_of cl w = Some c →
       ∃ warn, result m w = Ok (restHost c, warn)
               ∧ (is_Some warn ↔
                    ∃ pre post, restHost c = pre ++ "127.0.0.1" ++ post
                                ∨ restHost c = pre ++ "localhost" ++ post)).
Proof.
  intros m. unfold m, after, result, remotesecret.getServerFromKubeconfig.
  destruct (cluster_of cl w) as [c|]; [|done].
  split; [by destruct (_ || _)|]. split; [done|].
  intros c' [= <-].
  destruct (Contains (restHost c) "127.0.0.1") eqn:H1; simpl.
  - eexists. split; [done|]. split; [|by eauto].
    intros _. apply Contains_spec in H1 as (pre & post & Hp). by eauto.
  - destruct (Contains (restHost c) "localhost") eqn:H2; simpl.
    + eexists. split; [done|]. split; [|by eauto].
      intros _. apply Contains_spec in H2 as (pre & post & Hp). by eauto.
    + eexists. split; [done|]. split; [by intros [? ?]|].
      intros (pre & post & [Hp|Hp]).
      * assert (Contains (restHost c) "127.0.0.1" = true) as E
          by (apply Contains_spec; eauto). congruence.
      * assert (Contains (restHost c) "localhost" = true) as E
          by (apply Contains_spec; eauto). congruence.
Qed.

Lemma CreateRemoteSecret_Ok (opt : remotesecret.RemoteSecretOptions)
    (clusterNamespace : string) (cl : ClientRef) (w w' : World) (s : Secret)
    (warn : option Error) :
  remotesecret.CreateRemoteSecret opt clusterNamespace cl w = (Ok (s, warn), w') →
  ∃ clusterName secName kubeconfig s0,
    (remotesecret.ClusterName opt ≠ "" → clusterName = remotesecret.ClusterName opt)
    ∧ (remotesecret.ClusterName opt = "" →
       ∃ c, cluster_of cl w = Some c ∧ clusterName = kubeSystemUID c)
    ∧ ((remotesecret.optType opt = remotesecret.SecretTypeRemote
        ∧ secName = remotesecret.GetRemoteSecretName clusterName clusterNamespace)
       ∨ (remotesecret.optType opt = remotesecret.SecretTypeConfig
          ∧ secName = remotesecret.configSecretName))
    ∧ (remotesecret.AuthType opt = remotesecret.RemoteSecretAuthTypeBearerToken
       ∨ remotesecret.AuthType opt = remotesecret.RemoteSecretAuthTypePlugin)
    ∧ Validate kubeconfig = None
    ∧ CurrentContext kubeconfig = clusterName
    ∧ remotesecret.createRemoteServiceAccountSecret kubeconfig clusterName secName = Ok s0
    ∧ s = remotesecret.set_secret_namespace (remotesecret.optNamespace opt) s0.
Proof.
  unfold remotesecret.CreateRemoteSecret. intros E.
  apply bind_Ok in E as (opt1 & w1 & H1 & E).
  assert (∃ clusterName,
            opt1 = remotesecret.with_ClusterName clusterName opt
            ∧ (remotesecret.ClusterName opt ≠ "" → clusterName = remotesecret.ClusterName opt)
            ∧ (remotesecret.ClusterName opt = "" →
               ∃ c, cluster_of cl w = Some c ∧ clusterName = kubeSystemUID c))
    as (clusterName & -> & Hgiven & Huid).
  { destruct (remotesecret.ClusterName opt =? "")%string eqn:Hn.
    - apply String.eqb_eq in Hn.
      apply bind_Ok in H1 as (uid & w0 & H0 & H1). injection H1 as <- <-.
      unfold remotesecret.clusterUID in H0.
      apply bind_Ok in H0 as (c & w00 & H00 & H0). injection H0 as <- <-.
      apply call_Ok in H00 as [_ Hc]. simpl in Hc.
      exists (kubeSystemUID c). split; [done|]. split; [done|]. by eauto.
    - injection H1 as <- <-. apply String.eqb_neq in Hn.
      exists (remotesecret.ClusterName opt). split; [by destruct opt|]. done. }
  clear H1.
  apply bind_Ok in E as ([secName opt2] & w2 & H2 & E).
  cbn [remotesecret.optType remotesecret.with_ClusterName remotesecret.ClusterName
       remotesecret.ServiceAccountName] in H2.
  assert (((remotesecret.optType opt = remotesecret.SecretTypeRemote
            ∧ secName = remotesecret.GetRemoteSecretName clusterName clusterNamespace)
           ∨ (remotesecret.optType opt = remotesecret.SecretTypeConfig
              ∧ secName = remotesecret.configSecretName))
          ∧ remotesecret.AuthType opt2 = remotesecret.AuthType opt
          ∧ remotesecret.ClusterName opt2 = clusterName
          ∧ remotesecret.optNamespace opt2 = remotesecret.optNamespace opt)
    as (Htype & Hauth & Hname & Hns).
  { destruct (remotesecret.optType opt =? remotesecret.SecretTypeRemote)%string eqn:Hr.
    - apply String.eqb_eq in Hr. injection H2 as <- <- <-.
      split; [by left|]. by destruct (remotesecret.ServiceAccountName opt =? "")%string.
    - destruct (remotesecret.optType opt =? remotesecret.SecretTypeConfig)%string eqn:Hc;
        [|done].
      apply String.eqb_eq in Hc. injection H2 as <- <- <-.
      split; [by right|]. by destruct (remotesecret.ServiceAccountName opt =? "")%string. }
  clear H2.
  apply bind_Ok in E as (r3 & w3 & _ & E). destruct r3 as [tokenSecret|e]; [|done].
  apply bind_Ok in E as ([server warn'] & w4 & _ & E).
  apply bind_Ok in E as (remoteSecret & w5 & H5 & E). injection E as <- <- <-.
  rewrite Hauth, Hname, Hns in *.
  destruct (remotesecret.AuthType opt =? remotesecret.RemoteSecretAuthTypeBearerToken)%string
    eqn:Hb.
  - apply String.eqb_eq in Hb.
    unfold remotesecret.createRemoteSecretFromTokenAndServer in H5.
    apply bind_Ok in H5 as ([caData token] & w6 & _ & H5).
    destruct (Validate _) as [verr|] eqn:Hvalid; [done|].
    unfold remotesecret.lift in H5.
    destruct (remotesecret.createRemoteServiceAccountSecret _ _ _) as [s0|e] eqn:Hs0; [|done].
    injection H5 as <- <-.
    eexists clusterName, secName, _, s0.
    split; [done|]. split; [done|]. split; [done|]. split; [by left|].
    split; [exact Hvalid|]. done.
  - destruct (remotesecret.AuthType opt =? remotesecret.RemoteSecretAuthTypePlugin)%string
      eqn:Hp; [|done].
    apply String.eqb_eq in Hp.
    unfold remotesecret.createRemoteSecretFromPlugin in H5.
    destruct (Data tokenSecret !! _) as [caData|]; [|done].
    destruct (Validate _) as [verr|] eqn:Hvalid; [done|].
    unfold remotesecret.lift in H5.
    destruct (remotesecret.createRemoteServiceAccountSecret _ _ _) as [s0|e] eqn:Hs0; [|done].
    injection H5 as <- <-.
    eexists clusterName, secName, _, s0.
    split; [done|]. split; [done|]. split; [done|]. split; [by right|].
    split; [exact Hvalid|]. done.
Qed.

(** X26. The builder refuses a secret type other than remote and config
    before any call when the cluster is named, and never succeeds with
    an authentication type other than bearer-token and plugin. A secret
    it returns is in the namespace of the options with the multi-cluster
    label; when no cluster name was given the identifier of namespace
    kube-system stands for it, in the annotation, the derived name and
    the key of the data; a secret of type config is named istio-
    kubeconfig and its only key is config. *)
Theorem remote_secret_edge_cases (opt : remotesecret.RemoteSecretOptions)
    (clusterNamespace : string) (cl : ClientRef) (w : World) :
  let m := remotesecret.CreateRemoteSecret opt clusterNamespace cl in
  (remotesecret.ClusterName opt ≠ "" →
   remotesecret.optType opt ≠ remotesecret.SecretTypeRemote →
   remotesecret.optType opt ≠ remotesecret.SecretTypeConfig →
   m w = (Err (ErrorsNew ("unsupported type: " ++ remotesecret.optType opt)), w))
  ∧ (remotesecret.AuthType opt ≠ remotesecret.RemoteSecretAuthTypeBearerToken →
     remotesecret.AuthType opt ≠ remotesecret.RemoteSecretAuthTypePlugin →
     is_ok (result m w) = false)
  ∧ (∀ s warn, result m w = Ok (s, warn) →
       Namespace (secretMeta s) = remotesecret.optNamespace opt
       ∧ Labels (secretMeta s) = {[ remotesecret.MultiClusterSecretLabel := "true" ]}
       ∧ (remotesecret.ClusterName opt = "" →
          ∃ c, cluster_of cl w = Some c
               ∧ Annotations (secretMeta s)
                 = {[ remotesecret.clusterNameAnnotationKey := kubeSystemUID c ]}
               ∧ (remotesecret.optType opt = remotesecret.SecretTypeRemote →
                  Name (secretMeta s)
                  = remotesecret.GetRemoteSecretName (kubeSystemUID c) clusterNamespace
                  ∧ dom (Data s) = {[ kubeSystemUID c ]}))
       ∧ (remotesecret.optType opt = remotesecret.SecretTypeConfig →
          Name (secretMeta s) = "istio-kubeconfig" ∧ dom (Data s) = {[ "config" ]})).
Proof.
  intros m. split; [|split].
  - intros Hn Hr Hc. unfold m, remotesecret.CreateRemoteSecret.
    apply String.eqb_neq in Hn, Hr, Hc. rewrite Hn. unfold bind at 1. unfold ret at 1.
    unfold bind at 1. by rewrite Hr, Hc.
  - intros Hb Hp. unfold result. destruct (m w) as [[[s warn]|e] w'] eqn:E; [|done].
    apply CreateRemoteSecret_Ok in E as (? & ? & ? & ? & _ & _ & _ & [?|?] & _); done.
  - intros s warn. unfold result. destruct (m w) as [r w'] eqn:E. simpl. intros ->.
    apply CreateRemoteSecret_Ok in E
      as (clusterName & secName & kubeconfig & s0 & Hgiven & Huid & Htype & _ & _ & _
          & Hs0 & ->).
    unfold remotesecret.createRemoteServiceAccountSecret in Hs0.
    destruct (Encode kubeconfig) as [data|e]; [|done]. injection Hs0 as <-. simpl.
    split; [done|]. split; [done|]. split.
    + intros Hempty. destruct (Huid Hempty) as (c & Hc & ->).
      exists c. split; [done|]. split; [done|].
      intros Hr. destruct Htype as [[_ ->]|[Hc' _]]; [|by rewrite Hr in Hc'].
      split; [done|]. rewrite remote_secret_name_is_not_config. by rewrite dom_singleton_L.
    + intros Hc. destruct Htype as [[Hr _]|[_ ->]]; [by rewrite Hc in Hr|].
      split; [done|]. simpl. by rewrite dom_singleton_L.
Qed.

End builder_edges.

(** ** The rotation worker and the two revisions of the manager *)

Section rotation_props.
Context {cfg : Config} {ext : Externals}.

Lemma rotateSecrets_Ok (m : secretrotation.Manager) (w : World) :
  fst (secretrotation.rotateSecrets m w) = Ok tt.
Proof.
  unfold secretrotation.rotateSecrets, bind, try, log.Info, log.Error, ret. simpl.
  destruct (secretrotation.getIstioClusters m _) as [[clusters|e] w1]; [|done].
  destruct (length clusters =? 0)%nat; [done|]. simpl.
  by rewrite rotateEach_attempts.
Qed.

Lemma rotationLoop_Ok (m : secretrotation.Manager) (signals : list secretrotation.Signal)
    (w : World) :
  fst (secretrotation.rotationLoop m signals w) = Ok tt.
Proof.
  revert w. induction signals as [|[] rest IH]; intros w; simpl; [done| |done].
  unfold bind. pose proof (rotateSecrets_Ok m w) as H.
  destruct (secretrotation.rotateSecrets m w) as [r w1]. simpl in H. subst r. apply IH.
Qed.

Lemma rotationLoop_Done (m : secretrotation.Manager)
    (before rest : list secretrotation.Signal) (w : World) :
  secretrotation.rotationLoop m (before ++ secretrotation.Done :: rest) w
  = secretrotation.rotationLoop m (before ++ [secretrotation.Done]) w.
Proof.
  revert w. induction before as [|[] before IH]; intros w; simpl; [done| |done].
  unfold bind. destruct (secretrotation.rotateSecrets m w) as [[[]|e] w1]; [apply IH | done].
Qed.

(** X27. A rotation cycle never returns an error, and neither does the
    worker, whatever signals arrive; signals that arrive after the end
    of the context have no effect. When the list of the clusters fails,
    or finds no cluster, the cycle issues that one call, changes no
    cluster and logs two entries. *)
Theorem rotation_is_contained (w : World) :
  let m := secretrotation.NewManager Hub in
  let cycle := secretrotation.rotateSecrets m in
  let list := mkCall VList Hub "ClusterDeployment" "" "" in
  let started := mkLogEntry LInfo None "Starting secret rotation cycle" [] in
  result cycle w = Ok tt
  ∧ (∀ signals, result (secretrotation.StartRotationWorker m signals) w = Ok tt)
  ∧ (∀ before rest,
       secretrotation.StartRotationWorker m (before ++ secretrotation.Done :: rest) w
       = secretrotation.StartRotationWorker m (before ++ [secretrotation.Done]) w)
  ∧ (∀ msg, head (faults w) = Some (Some msg) →
       calls_of cycle w = [list]
       ∧ same_clusters (after cycle w) w
       ∧ logs_of cycle w
         = [ started;
             mkLogEntry LError
               (Some (Wrapf "failed to list clusters" (StatusError ReasonInternalError msg)))
               "Failed to get Istio clusters for secret rotation" [] ])
  ∧ (next_call_succeeds w → listed_clusters w = [] →
       calls_of cycle w = [list]
       ∧ same_clusters (after cycle w) w
       ∧ logs_of cycle w
         = [ started;
             mkLogEntry LInfo None "No Istio clusters found for secret rotation" [] ]).
Proof.
  intros m cycle list started.
  split; [apply rotateSecrets_Ok|].
  split; [intros signals; unfold result, secretrotation.StartRotationWorker, bind, log.Info;
          apply rotationLoop_Ok|].
  split; [intros before rest; unfold secretrotation.StartRotationWorker, bind, log.Info;
          apply rotationLoop_Done|].
  split.
  - intros msg Hf. unfold cycle, calls_of, logs_of, after, secretrotation.rotateSecrets,
      secretrotation.getIstioClusters, client.List.
    exec. rewrite Hf. exec. rewrite <- ?app_assoc, !drop_app_length. by repeat split.
  - intros Hn Hempty.
    assert (∀ w0, next_call_succeeds w0 →
              secretrotation.getIstioClusters m w0
              = (Ok (listed_clusters w0), called list w0)) as Hlist.
    { intros w0 Hn0.
      unfold secretrotation.getIstioClusters, client.List, client.call, bind, try, ret. simpl.
      unfold next_call_succeeds in Hn0.
      destruct (head (faults w0)) as [[msg|]|]; done. }
    assert (∀ l, listed_clusters (set_logs l w) = listed_clusters w) as Hl by done.
    assert (secretrotation.rotateSecrets m w
            = (Ok tt,
               set_logs ((logs w ++ [started])
                           ++ [mkLogEntry LInfo None
                                 "No Istio clusters found for secret rotation" []])
                 (called list (set_logs (logs w ++ [started]) w)))) as Hrun.
    { unfold secretrotation.rotateSecrets.
      unfold bind at 1. unfold log.Info at 1. unfold bind at 1. unfold try at 1.
      rewrite Hlist by exact Hn. rewrite !Hl, Hempty. reflexivity. }
    unfold cycle, calls_of, logs_of, after. rewrite Hrun. simpl.
    rewrite <- ?app_assoc, !drop_app_length. by repeat split.
Qed.

End rotation_props.

Section revisions.
Context {cfg : Config} {ext : Externals}.

(** X28. With no failing call, the write of the remote secret by the
    current revision of the manager deletes and creates: the management
    cluster holds the given secret afterwards, whatever was there. The
    write of the earlier revision only creates: a secret that was there
    is kept as it was, and the answer AlreadyExists counts as success.
    *)
Theorem secret_write_replaces_or_keeps (creator : remotesecret.IIstioRemoteSecretCreator)
    (creator_prev : remotesecret_prev.IIstioRemoteSecretCreator)
    (secret : Secret) (cd : ClusterDeployment) (w : World) :
  let rs := remotesecret.mkRemoteSecretManager Hub creator in
  let rs_prev := remotesecret_prev.mkRemoteSecretManager Hub creator_prev in
  let write := remotesecret.createSecretResource rs secret cd in
  let write_prev := remotesecret_prev.createSecretResource rs_prev secret in
  let key := (Namespace (secretMeta secret), Name (secretMeta secret)) in
  faults w = [] →
  result write w = Ok tt
  ∧ secrets (hub (after write w)) = <[key := secret]> (secrets (hub w))
  ∧ calls_of write w = [ mkCall VDelete Hub "Secret" (fst key) (snd key);
                         mkCall VCreate Hub "Secret" (fst key) (snd key) ]
  ∧ result write_prev w = Ok tt
  ∧ secrets (hub (after write_prev w))
    = <[key := default secret (secrets (hub w) !! key)]> (secrets (hub w))
  ∧ calls_of write_prev w = [ mkCall VCreate Hub "Secret" (fst key) (snd key) ].
Proof.
  intros rs rs_prev write write_prev key Hf.
  unfold write, write_prev, rs, rs_prev, result, calls_of, after,
    remotesecret.createSecretResource, remotesecret_prev.createSecretResource,
    remotesecret.rsClient, remotesecret_prev.rsClient.
  exec. rewrite Hf. exec. fold key.
  destruct (secrets (hub w) !! key) as [s0|] eqn:Hs; exec;
    rewrite ?lookup_delete_eq, ?Hs; exec; rewrite <- ?app_assoc, !drop_app_length.
  all: repeat split; simpl.
  - apply insert_delete_eq.
  - symmetry. by apply insert_id.
Qed.

(** Where the two revisions of the manager do the same: without
    overwrite, for a cluster that is not ready, and for a ready one
    whose remote secret exists or when the read that checks its
    existence fails, the run of one is the run of the other. *)
Lemma revisions_agree_on_skips (creator : remotesecret.IIstioRemoteSecretCreator)
    (creator_prev : remotesecret_prev.IIstioRemoteSecretCreator)
    (cd : ClusterDeployment) (w : World) :
  utils.IsClusterDeploymentReady cd = false
  ∨ is_Some (secrets (hub w) !! derived_key cd)
  ∨ ¬ next_call_succeeds w →
  remotesecret_prev.TryCreate (remotesecret_prev.mkRemoteSecretManager Hub creator_prev) cd w
  = remotesecret.TryCreate (remotesecret.mkRemoteSecretManager Hub creator) cd
      {| remotesecret.AllowOverwrite := false |} w.
Proof.
  intros Hcase.
  unfold remotesecret_prev.TryCreate, remotesecret.TryCreate,
    remotesecret_prev.isClusterDeploymentReady, utils.IsClusterDeploymentReady,
    remotesecret_prev.remoteSecretExists, remotesecret.remoteSecretExists,
    remotesecret_prev.rsClient, remotesecret.rsClient.
  fold (utils.IsClusterDeploymentReady cd).
  destruct (utils.IsClusterDeploymentReady cd) eqn:Hready; [|done].
  destruct Hcase as [?|Hcase]; [done|].
  unfold next_call_succeeds, derived_key in Hcase. cbn [remotesecret.AllowOverwrite].
  exec. destruct (head (faults w)) as [[msg|]|]; exec; try done.
  all: destruct Hcase as [[s Hs]|Hf]; [|by destruct Hf]; rewrite Hs; by exec.
Qed.

End revisions.

(** ** Scenarios of the further properties *)

Section extra_scenarios.
#[local] Existing Instances scenario.cfg scenario.ext.

(** The existence test on the management cluster that holds the remote
    secret of (c1, ns1): one read, true. *)
Lemma resource_exists_reads_once_witness :
  cluster_of Hub scenario.secretWorld = Some (hub scenario.secretWorld)
  ∧ result (utils.IsResourceExists (T := Secret) Hub "istio-remote-secret-3f132440"
              "istio-system") scenario.secretWorld = Ok true
  ∧ calls_of (utils.IsResourceExists (T := Secret) Hub "istio-remote-secret-3f132440"
                "istio-system") scenario.secretWorld
    = [mkCall VGet Hub "Secret" "istio-system" "istio-remote-secret-3f132440"].
Proof.
  assert (cluster_of Hub scenario.secretWorld = Some (hub scenario.secretWorld)) as H1
    by reflexivity.
  pose proof (resource_exists_reads_once (T := Secret) Hub "istio-remote-secret-3f132440"
                "istio-system" scenario.secretWorld (hub scenario.secretWorld) H1)
    as (Hc & _ & _ & Hr & _).
  split; [exact H1|]. split; [|exact Hc].
  rewrite (Hr I). vm_compute. reflexivity.
Defined.

(** The credential of the cluster names the region r1: created in a
    region, and the region found by name is r1. *)
Lemma region_helpers_agree_witness :
  cluster_of Hub scenario.regionWorld = Some (hub scenario.regionWorld)
  ∧ next_call_succeeds scenario.regionWorld
  ∧ result (k8s.CreatedInKCMRegion Hub scenario.ready) scenario.regionWorld = Ok true
  ∧ calls_of (k8s.GetKcmRegionClusterNameRelatedToClusterDeployment Hub scenario.ready)
      scenario.regionWorld = [mkCall VList Hub "Credential" "" ""].
Proof.
  assert (cluster_of Hub scenario.regionWorld = Some (hub scenario.regionWorld)) as H1
    by reflexivity.
  assert (next_call_succeeds scenario.regionWorld) as H2 by exact I.
  pose proof (region_helpers_agree Hub scenario.ready scenario.regionWorld
                (hub scenario.regionWorld) H1 H2) as (Hr & _ & Hc & _).
  split; [exact H1|]. split; [exact H2|]. split; [|exact Hc].
  rewrite Hr. vm_compute. reflexivity.
Defined.

(** The certificate of the deleted cluster and the descriptor that
    propagates it are both there: both are deleted. *)
Lemma cert_delete_removes_both_witness :
  faults scenario.orphanWorld = []
  ∧ result (cert.TryDelete (cert.New Hub) scenario.request) scenario.orphanWorld = Ok tt
  ∧ calls_of (cert.TryDelete (cert.New Hub) scenario.request) scenario.orphanWorld
    = [ mkCall VDelete Hub "Certificate" "istio-system" "rel-ns1-c1-ca";
        mkCall VDelete Hub "MultiClusterService" "" "ca-cert-propagation-bce0f6b9" ].
Proof.
  assert (faults scenario.orphanWorld = []) as H1 by reflexivity.
  pose proof (cert_delete_removes_both scenario.request scenario.orphanWorld H1)
    as (Hr & _ & _ & Hc & _).
  split; [exact H1|]. split; [exact Hr|].
  rewrite Hc. vm_compute. reflexivity.
Defined.

(** The reconciliation of the request for the deleted cluster. *)
Lemma reconcile_deleted_cluster_witness :
  clusterDeployments (hub scenario.orphanWorld) !! ("ns1", "c1") = None
  ∧ faults scenario.orphanWorld = []
  ∧ result (controller.Reconcile scenario.reconciler scenario.request) scenario.orphanWorld
    = Ok tt
  ∧ secrets (hub (after (controller.Reconcile scenario.reconciler scenario.request)
                    scenario.orphanWorld))
    = delete ("istio-system", remotesecret.GetRemoteSecretName "c1" "ns1")
        (secrets (hub scenario.orphanWorld)).
Proof.
  assert (clusterDeployments (hub scenario.orphanWorld)
            !! (reqNamespace scenario.request, reqName scenario.request) = None) as H1
    by (vm_compute; reflexivity).
  assert (faults scenario.orphanWorld = []) as H2 by reflexivity.
  pose proof (reconcile_deleted_cluster remotesecret.NewIstioRemoteSecret scenario.request
                scenario.orphanWorld H1 H2) as (Hr & Hs & _).
  split; [exact H1|]. split; [exact H2|]. split; [exact Hr | exact Hs].
Defined.

(** The read of the cluster deployment fails. *)
Lemma reconcile_read_failure_witness :
  head (faults scenario.failingWorld) = Some (Some "boom")
  ∧ result (controller.Reconcile scenario.reconciler scenario.request) scenario.failingWorld
    = Err (StatusError ReasonInternalError "boom")
  ∧ hub (after (controller.Reconcile scenario.reconciler scenario.request)
           scenario.failingWorld) = hub scenario.failingWorld.
Proof.
  assert (head (faults scenario.failingWorld) = Some (Some "boom")) as H1 by reflexivity.
  pose proof (reconcile_read_failure scenario.reconciler scenario.request
                scenario.failingWorld "boom" H1) as (Hr & _ & Hh & _).
  split; [exact H1|]. split; [exact Hr | exact Hh].
Defined.

(** The reconciliation of the cluster whose derived resources all
    exist changes nothing. *)
Lemma reconcile_converged_witness :
  clusterDeployments (hub scenario.convergedWorld) !! ("ns1", "c1") = Some scenario.ready
  ∧ utils.IsClusterDeploymentReady scenario.ready = true
  ∧ utils.IsInMesh scenario.ready = false
  ∧ faults scenario.convergedWorld = []
  ∧ result (controller.Reconcile scenario.reconciler scenario.request) scenario.convergedWorld
    = Ok tt
  ∧ hub (after (controller.Reconcile scenario.reconciler scenario.request)
           scenario.convergedWorld) = hub scenario.convergedWorld.
Proof.
  assert (clusterDeployments (hub scenario.convergedWorld)
            !! (reqNamespace scenario.request, reqName scenario.request)
          = Some scenario.ready) as H1 by (vm_compute; reflexivity).
  assert (utils.IsClusterDeploymentReady scenario.ready = true) as H2 by reflexivity.
  assert (utils.IsInMesh scenario.ready = false) as H3 by (vm_compute; reflexivity).
  assert (is_Some (secrets (hub scenario.convergedWorld) !! derived_key scenario.ready)) as H4
    by (vm_compute; eexists; reflexivity).
  assert (is_Some (certificates (hub scenario.convergedWorld)
                     !! (IstioSystemNamespace,
                         cert.GetCertName (Name (cdMeta scenario.ready))
                           (Namespace (cdMeta scenario.ready))))) as H5
    by (vm_compute; eexists; reflexivity).
  assert (is_Some (multiClusterServices (hub scenario.convergedWorld)
                     !! ("", multicluster.GetMultiClusterServiceName
                               (Name (cdMeta scenario.ready))
                               (Namespace (cdMeta scenario.ready))))) as H6
    by (vm_compute; eexists; reflexivity).
  assert (faults scenario.convergedWorld = []) as H7 by reflexivity.
  pose proof (reconcile_converged remotesecret.NewIstioRemoteSecret scenario.request
                scenario.ready scenario.convergedWorld H1 H2 H3 H4 H5 H6 H7) as (Hr & Hh & _).
  split; [exact H1|]. split; [exact H2|]. split; [exact H3|]. split; [exact H7|].
  split; [exact Hr | exact Hh].
Defined.

(** The credential builder with the creator of the tests, without
    overwrite, on the ready cluster that has no remote secret yet. *)
Lemma build_credential_creates_witness :
  let m := remotesecret.TryCreate (remotesecret.NewFakeManager Hub) scenario.ready
             {| remotesecret.AllowOverwrite := false |} in
  utils.IsClusterDeploymentReady scenario.ready = true
  ∧ secrets (hub scenario.freshWorld) !! derived_key scenario.ready = None
  ∧ faults scenario.freshWorld = []
  ∧ result m scenario.freshWorld = Ok tt
  ∧ secrets (hub (after m scenario.freshWorld))
    = <[derived_key scenario.ready := fakeSecret scenario.ready]>
        (secrets (hub scenario.freshWorld)).
Proof.
  intros m.
  assert (utils.IsClusterDeploymentReady scenario.ready = true) as H2 by reflexivity.
  assert (secrets (hub scenario.freshWorld) !! derived_key scenario.ready = None) as H3
    by (vm_compute; reflexivity).
  assert (credentials (hub scenario.freshWorld)
            !! (k8s.DefaultKCMSystemNamespace, Credential scenario.ready)
          = Some (scenario.credential "")) as H4 by (vm_compute; reflexivity).
  assert (credRegion (scenario.credential "") = "") as H5 by reflexivity.
  assert (secrets (hub scenario.freshWorld)
            !! (k8s.DefaultKCMSystemNamespace, GetSecretName scenario.ready)
          = Some scenario.kubeconfigSecret) as H6 by (vm_compute; reflexivity).
  assert (Data scenario.kubeconfigSecret !! "value" = Some "kc") as H7
    by (vm_compute; reflexivity).
  assert (faults scenario.freshWorld = []) as H8 by reflexivity.
  pose proof (build_credential_creates scenario.ready
                {| remotesecret.AllowOverwrite := false |} scenario.freshWorld
                (scenario.credential "") scenario.kubeconfigSecret "kc" H2 (or_intror H3)
                H4 H5 H6 H7 H8) as (Hr & Hs & _).
  split; [exact H2|]. split; [exact H3|]. split; [exact H8|].
  split; [exact Hr | exact Hs].
Defined.

(** The credential builder of the tests succeeds on the ready cluster:
    the remote secret is there afterwards. *)
Lemma credential_exists_after_success_witness :
  let m := remotesecret.TryCreate (remotesecret.NewFakeManager Hub) scenario.ready
             {| remotesecret.AllowOverwrite := true |} in
  utils.IsClusterDeploymentReady scenario.ready = true
  ∧ result m scenario.freshWorld = Ok tt
  ∧ is_Some (secrets (hub (after m scenario.freshWorld)) !! derived_key scenario.ready).
Proof.
  intros m.
  assert (utils.IsClusterDeploymentReady scenario.ready = true) as H1 by reflexivity.
  assert (result m scenario.freshWorld = Ok tt) as H2 by (vm_compute; reflexivity).
  split; [exact H1|]. split; [exact H2|].
  exact (credential_exists_after_success remotesecret.NewFakeRemoteSecretCreator
           scenario.ready {| remotesecret.AllowOverwrite := true |} scenario.freshWorld
           (fake_creator_creates_derived scenario.ready) H1 H2).
Defined.

(** The remote secret built for the member cluster whose token secret
    has its data. *)
Lemma remote_secret_content_witness :
  let m := remotesecret.CreateRemoteSecret scenario.remoteOptions "ns1" (Remote "kc") in
  remotesecret.ClusterName scenario.remoteOptions ≠ ""
  ∧ is_ok (result m scenario.tokenWorld) = true
  ∧ ∀ s warn, result m scenario.tokenWorld = Ok (s, warn) →
      Name (secretMeta s) = "istio-remote-secret-3f132440"
      ∧ dom (Data s) = {[ "c1" ]}.
Proof.
  intros m.
  assert (remotesecret.ClusterName scenario.remoteOptions ≠ "") as H1 by done.
  split; [exact H1|]. split; [vm_compute; reflexivity|].
  intros s warn H4.
  destruct (remote_secret_content scenario.remoteOptions "ns1" (Remote "kc") scenario.tokenWorld
              s warn H1 eq_refl eq_refl H4) as (ca & token & server & data & _ & _ & -> & _).
  split; [vm_compute; reflexivity|]. simpl. by rewrite dom_singleton_L.
Defined.


(** The token secret of the reader service account exists with its
    data and overwriting is not asked for: it is returned as it is. *)
Lemma token_secret_is_reused_or_fresh_witness :
  let m := remotesecret.getOrCreateServiceAccountSecret scenario.readerAccount (Remote "kc")
             scenario.readerOptions in
  result m scenario.tokenWorld = Ok (scenario.tokenSecret scenario.tokenData)
  ∧ calls_of m scenario.tokenWorld
    = [mkCall VGet (Remote "kc") "Secret" "istio-system"
         "istio-reader-service-account-istio-remote-secret-token"].
Proof.
  intros m.
  assert (result m scenario.tokenWorld = Ok (scenario.tokenSecret scenario.tokenData)) as H1
    by (vm_compute; reflexivity).
  split; [exact H1|].
  destruct (token_secret_is_reused_or_fresh scenario.readerAccount (Remote "kc")
              scenario.readerOptions scenario.tokenWorld _ H1)
    as [(_ & _ & _ & _ & Hc) | (c & ca & Hc & _ & _ & _ & _ & Ht & _)].
  - exact Hc.
  - vm_compute in Hc. injection Hc as <-. vm_compute in Ht. discriminate Ht.
Defined.

(** The remote secret of (c1, ns1) exists: the current revision
    replaces it by the renewed one, the earlier revision keeps it. *)
Lemma secret_write_replaces_or_keeps_witness :
  let key := ("istio-system", "istio-remote-secret-3f132440") in
  faults scenario.secretWorld = []
  ∧ secrets (hub scenario.secretWorld) !! key = Some scenario.existingSecret
  ∧ secrets (hub (after (remotesecret.createSecretResource (remotesecret.New Hub)
                           scenario.renewedSecret scenario.ready) scenario.secretWorld)) !! key
    = Some scenario.renewedSecret
  ∧ secrets (hub (after (remotesecret_prev.createSecretResource
                           (remotesecret_prev.mkRemoteSecretManager Hub
                              (remotesecret_prev.mkCreator (fun _ _ => ret scenario.renewedSecret)))
                           scenario.renewedSecret) scenario.secretWorld)) !! key
    = Some scenario.existingSecret.
Proof.
  intros key.
  assert (faults scenario.secretWorld = []) as H1 by reflexivity.
  assert (secrets (hub scenario.secretWorld) !! key = Some scenario.existingSecret) as H2
    by (vm_compute; reflexivity).
  pose proof (secret_write_replaces_or_keeps remotesecret.NewIstioRemoteSecret
                (remotesecret_prev.mkCreator (fun _ _ => ret scenario.renewedSecret))
                scenario.renewedSecret scenario.ready scenario.secretWorld H1)
    as (_ & Hnew & _ & _ & Hold & _).
  split; [exact H1|]. split; [exact H2|]. split.
  - unfold remotesecret.New. rewrite Hnew. vm_compute. reflexivity.
  - rewrite Hold. vm_compute. reflexivity.
Defined.

End extra_scenarios.
